(** * Invoice extraction service: a shallow embedding and its verified properties

    The development follows the Python sources of the service:

    - [schemas.py]  the Pydantic models [InvoiceItem], [VendorInfo],
      [CustomerInfo], [Summary], [InvoiceData];
    - [service.py]  [pdf_to_images], [encode_image_to_base64],
      [process_invoice_with_vllm] (request, fence clean-up, JSON parsing,
      validation);
    - [crud.py]     [create_invoice_log], [get_invoice_logs_metadata],
      [get_invoice_log_by_id];
    - [main.py]     the handlers [upload_invoice], [read_logs],
      [preview_log_image] and [serve_static_file];
    - [extract_files.py]  the script [extract_single_file].

    Python values are modelled as the interpreter has them: a [str] is a
    sequence of Unicode code points, a [dict] is a finite map, exceptions carry
    their class and message, and a handler is a state transformer over the
    table [invoice_logs] and a journal of the library calls it made.  Library
    functions the sources call but do not define (Pillow, pdf2image, httpx,
    the JSON parser, the Unicode tables) are fields of an environment record
    [Env]; nothing is assumed about them beyond their types. *)

From stdpp Require Import gmap list fin_maps sorting.
From Stdlib Require Import ZArith NArith Ascii.
From Stdlib Require String.
From Stdlib Require Decimal DecimalString DecimalZ DecimalPos.
Import String.StringSyntax.
Delimit Scope string_scope with string.

Set Warnings "-register-all".
Set Default Proof Using "Type".

(** ** Python strings *)

Module PyStr.

(** A code point. *)
Abbreviation char := N (only parsing).

(** [str]: an immutable sequence of code points. *)
Abbreviation str := (list N) (only parsing).

(** Literals of the sources, written as Rocq strings (ASCII only). *)
Definition py (s : String.string) : str :=
  map N_of_ascii (String.list_ascii_of_string s).
Arguments py s%_string : simpl never.

(** [s.startswith(p)] *)
Fixpoint startswith (p s : str) : bool :=
  match p, s with
  | [], _ => true
  | _ :: _, [] => false
  | a :: p', b :: s' => if (a =? b)%N then startswith p' s' else false
  end.

(** [s.find(sub)]: index of the leftmost occurrence, [None] for Python's -1. *)
Fixpoint find (sub s : str) : option nat :=
  if startswith sub s then Some 0
  else match s with
       | [] => None
       | _ :: s' => S <$> find sub s'
       end.

(** [sub in s] *)
Definition contains (sub s : str) : bool :=
  match find sub s with Some _ => true | None => false end.

(** The loop of [str.split(sep)] and [str.replace(old, new)]: cut at the
    leftmost occurrence and go on behind it, so occurrences never overlap.
    The loops consume at least one code point per round when [sep] is not
    empty; [fuel] bounds the rounds, the length of the string is enough
    (lemmas [split_loop_fuel], [split_loop_pieces],
    [replace_loop_no_fence]). *)
Fixpoint split_loop (fuel : nat) (sep s : str) : list str :=
  match find sep s, fuel with
  | Some i, S fuel' =>
      take i s :: split_loop fuel' sep (drop (i + length sep) s)
  | _, _ => [s]
  end.

Fixpoint replace_loop (fuel : nat) (old new s : str) : str :=
  match find old s, fuel with
  | Some i, S fuel' =>
      take i s ++ new ++ replace_loop fuel' old new (drop (i + length old) s)
  | _, _ => s
  end.

(** [str.isspace()] on one code point: the code points CPython's
    [_PyUnicode_IsWhitespace] accepts. *)
Definition isspace (c : char) : bool :=
  ((9 <=? c) && (c <=? 13) || (28 <=? c) && (c <=? 32)
   || (c =? 133) || (c =? 160) || (c =? 5760)
   || (8192 <=? c) && (c <=? 8202)
   || (c =? 8232) || (c =? 8233) || (c =? 8239) || (c =? 8287)
   || (c =? 12288))%N.

Fixpoint lstrip (s : str) : str :=
  match s with
  | c :: s' => if isspace c then lstrip s' else s
  | [] => []
  end.

Definition rstrip (s : str) : str := rev (lstrip (rev s)).

(** [s.strip()] *)
Definition strip (s : str) : str := rstrip (lstrip s).

(** ASCII decimal digits and their value. *)
Definition is_ascii_digit (c : char) : bool := ((48 <=? c) && (c <=? 57))%N.

Definition digit_value (c : char) : Z := Z.of_N c - 48.

Definition decimal_value (s : str) : Z :=
  fold_left (fun acc c => 10 * acc + digit_value c)%Z s 0%Z.

End PyStr.
Export PyStr.

(** ** Exceptions and results *)

Module Exn.

(** The exception classes the handlers of the sources tell apart
    ([except IOError], [except json.JSONDecodeError],
    [except httpx.RequestError], [except Exception]); every class here is a
    subclass of [Exception]. *)
Inductive exc_class :=
| ValueError
| JSONDecodeError      (* json.JSONDecodeError, a ValueError *)
| RuntimeError         (* and its subclasses, RecursionError among them *)
| TypeError
| IndexError
| IOError              (* OSError and its subclasses, PIL.UnidentifiedImageError among them *)
| RequestError         (* httpx.RequestError and its subclasses *)
| ValidationError      (* pydantic.ValidationError *)
| OtherError.          (* any other subclass of Exception, sqlalchemy's
                          DBAPIError among them *)

(** A raised exception: [Exc cls msg] has [str(e) = msg];
    [HTTPException] is FastAPI's, with its status code and detail. *)
Inductive exn :=
| Exc (cls : exc_class) (msg : str)
| HTTPException (status_code : Z) (detail : str).

(** The outcome of a Python expression: a value or a raised exception. *)
Inductive result (A : Type) :=
| Ok (a : A)
| Raise (e : exn).
Arguments Ok {A} a.
Arguments Raise {A} e.

#[export] Instance result_ret : MRet result := @Ok.
#[export] Instance result_bind : MBind result :=
  fun A B f m => match m with Ok a => f a | Raise e => Raise e end.
#[export] Instance result_fmap : FMap result :=
  fun A B f m => match m with Ok a => Ok (f a) | Raise e => Raise e end.

#[export] Instance exc_class_eq_dec : EqDecision exc_class.
Proof. solve_decision. Defined.

(** [isinstance(e, cls)] for the classes the handlers name. *)
Definition is_class (cls : exc_class) (e : exn) : bool :=
  match e with
  | Exc c _ => bool_decide (c = cls)
  | HTTPException _ _ => false
  end.

(** [seq[i]] on a list: [IndexError] out of range. *)
Definition getitem {A} (l : list A) (i : nat) : result A :=
  match l !! i with
  | Some x => Ok x
  | None => Raise (Exc IndexError (py "list index out of range"))
  end.

(** [s.split(sep)] *)
Definition split (sep s : str) : result (list str) :=
  match sep with
  | [] => Raise (Exc ValueError (py "empty separator"))
  | _ :: _ => Ok (split_loop (length s) sep s)
  end.

(** [s.replace(old, new)]; with an empty [old], [new] goes before every code
    point and at the end. *)
Definition replace (old new s : str) : str :=
  match old with
  | [] => new ++ flat_map (fun c => c :: new) s
  | _ :: _ => replace_loop (length s) old new s
  end.

End Exn.
Export Exn.

(** ** Fence clean-up of the model's answer ([service.py], lines 75-79) *)

Module Sanitizer.

Definition TAG : str := Eval cbv in py "```json".
Definition FENCE : str := Eval cbv in py "```".
Definition BACKTICK : char := 96%N.

(** <<
    if "```json" in content:
        content = content.split("```json")[1].split("```")[0].strip()
    elif "```" in content:
        content = content.replace("```", "").strip()
    >> *)
Definition sanitize (content : str) : result str :=
  if contains TAG content then
    parts ← split TAG content;
    inner ← getitem parts 1;
    pieces ← split FENCE inner;
    body ← getitem pieces 0;
    Ok (strip body)
  else if contains FENCE content then
    Ok (strip (replace FENCE [] content))
  else
    Ok content.

(** The words of the specification, for comparison with [sanitize]. *)

(** The text behind the first occurrence of [m] (empty when there is none). *)
Definition after_first (m s : str) : str :=
  match find m s with
  | Some i => drop (i + length m) s
  | None => []
  end.

(** The text in front of the first occurrence of [m] (all of it when there is
    none). *)
Definition before_first (m s : str) : str :=
  match find m s with
  | Some i => take i s
  | None => s
  end.

(** "the content between the first tagged marker and the next fence marker" *)
Definition fenced_segment (content : str) : str :=
  before_first FENCE (after_first TAG content).

(** "all fence markers are stripped and the remaining text is used" *)
Definition without_fences (content : str) : str :=
  replace FENCE [] content.

(** The three sanitization rules as the specification words them, with
    [trim] what is done to the text a rule selects. *)
Definition spec_sanitize (trim : str -> str) (content : str) : str :=
  if contains TAG content then trim (fenced_segment content)
  else if contains FENCE content then trim (without_fences content)
  else content.

(** What [split] and indexing select on the tagged path: the text behind the
    first tagged marker, cut at the next tagged marker, then at the first
    fence marker of what is left. *)
Definition tagged_body (content : str) : str :=
  before_first FENCE (before_first TAG (after_first TAG content)).

Definition code_sanitize (content : str) : str :=
  if contains TAG content then strip (tagged_body content)
  else if contains FENCE content then strip (without_fences content)
  else content.

End Sanitizer.
Export Sanitizer.

(** ** Parsed JSON *)

Module Json.

(** What [json.loads] returns: [None], [bool], [int], [float], [str],
    [list], [dict].  A [dict] with [str] keys is a finite map; a [float] is
    carried as its IEEE 754 binary64 bit pattern. *)
Inductive json :=
| JNull
| JBool (b : bool)
| JInt (z : Z)
| JFloat (bits : N)
| JStr (s : str)
| JList (l : list json)
| JDict (d : gmap (list N) json).

(** A dict literal [{k1: v1, ...}]: later entries win on equal keys. *)
Definition dict_of (kvs : list (str * json)) : gmap (list N) json :=
  list_to_map (rev kvs).

End Json.
Export Json.

(** ** The schema ([schemas.py]) *)

Module Schemas.

Record InvoiceItem := {
  description : str;
  quantity : option str;
  unit_price : option str;
  total_price : option str
}.

Record VendorInfo := {
  name_english : option str;
  name_nepali : option str;
  vendor_address : option str;
  phone : option str;
  email : option str;
  vendor_vat_number : option str
}.

Record CustomerInfo := {
  name : option str;
  customer_address : option str;
  customer_vat_number : option str
}.

Record Summary := {
  subtotal : option str;
  tax_amount : option str;
  tax_rate_percent : option str;
  discount_amount : option str;
  total_amount_due : option str;
  amount_in_words : option str;
  has_company_stamp : str
}.

Record InvoiceData := {
  invoice_number : option str;
  transaction_number : option str;
  reference_number : option str;
  invoice_date_ad : option str;
  invoice_miti_bs : option str;
  vendor_info : VendorInfo;
  customer_info : CustomerInfo;
  line_items : list InvoiceItem;
  summary : Summary
}.

(** The declared field names, model by model, in declaration order. *)
Definition InvoiceItem_fields : list str :=
  [py "description"; py "quantity"; py "unit_price"; py "total_price"].

Definition VendorInfo_fields : list str :=
  [py "name_english"; py "name_nepali"; py "address"; py "phone";
   py "email"; py "vat_number"].

Definition CustomerInfo_fields : list str :=
  [py "name"; py "address"; py "vat_number"].

Definition Summary_fields : list str :=
  [py "subtotal"; py "tax_amount"; py "tax_rate_percent";
   py "discount_amount"; py "total_amount_due"; py "amount_in_words";
   py "has_company_stamp"].

Definition InvoiceData_fields : list str :=
  [py "invoice_number"; py "transaction_number"; py "reference_number";
   py "invoice_date_ad"; py "invoice_miti_bs"; py "vendor_info";
   py "customer_info"; py "line_items"; py "summary"].

(** The fields declared without a default ([Field(...)] or a bare
    annotation): Pydantic requires them. *)
Definition InvoiceItem_required : list str := [py "description"].
Definition Summary_required : list str := [py "has_company_stamp"].
Definition InvoiceData_required : list str :=
  [py "vendor_info"; py "customer_info"; py "line_items"; py "summary"].

(** The fields declared with the default [None]. *)
Definition InvoiceItem_optional : list str :=
  [py "quantity"; py "unit_price"; py "total_price"].
Definition Summary_optional : list str :=
  [py "subtotal"; py "tax_amount"; py "tax_rate_percent";
   py "discount_amount"; py "total_amount_due"; py "amount_in_words"].
Definition InvoiceData_optional : list str :=
  [py "invoice_number"; py "transaction_number"; py "reference_number";
   py "invoice_date_ad"; py "invoice_miti_bs"].

(** *** Validation ([InvoiceData.model_validate]) *)

(** One entry of a [ValidationError]: where and what. *)
Inductive loc_item := LKey (k : str) | LIdx (i : nat).

Inductive error_type :=
| missing          (* Field required *)
| string_type      (* Input should be a valid string *)
| model_type       (* Input should be a valid dictionary or instance of the model *)
| list_type.       (* Input should be a valid list *)

Record line_error := { err_loc : list loc_item; err_type : error_type }.

(** Validation reports every error it finds, in field order. *)
Inductive validation (A : Type) :=
| Valid (a : A)
| Invalid (errors : list line_error).
Arguments Valid {A} a.
Arguments Invalid {A} errors.

Definition vap {A B} (f : validation (A -> B)) (x : validation A)
  : validation B :=
  match f, x with
  | Valid g, Valid a => Valid (g a)
  | Valid _, Invalid e => Invalid e
  | Invalid e, Valid _ => Invalid e
  | Invalid e1, Invalid e2 => Invalid (e1 ++ e2)
  end.

Infix "<*>" := vap (at level 61, left associativity).

(** [str] in lax mode: a [str] passes, no number or bool is coerced. *)
Definition validate_str (loc : list loc_item) (j : json) : validation str :=
  match j with
  | JStr s => Valid s
  | _ => Invalid [{| err_loc := loc; err_type := string_type |}]
  end.

(** [Optional[str]] *)
Definition validate_optional_str (loc : list loc_item) (j : json)
  : validation (option str) :=
  match j with
  | JNull => Valid None
  | JStr s => Valid (Some s)
  | _ => Invalid [{| err_loc := loc; err_type := string_type |}]
  end.

(** A field without a default: a missing key is an error. *)
Definition required {A} (v : list loc_item -> json -> validation A)
    (loc : list loc_item) (d : gmap (list N) json) (key : str)
  : validation A :=
  match d !! key with
  | Some j => v (loc ++ [LKey key]) j
  | None => Invalid [{| err_loc := loc ++ [LKey key]; err_type := missing |}]
  end.

(** A field with a default: a missing key takes the default. *)
Definition with_default {A} (dflt : A)
    (v : list loc_item -> json -> validation A)
    (loc : list loc_item) (d : gmap (list N) json) (key : str)
  : validation A :=
  match d !! key with
  | Some j => v (loc ++ [LKey key]) j
  | None => Valid dflt
  end.

(** A nested model: the input must be a dict; keys that are not fields are
    ignored. *)
Definition validate_model {A}
    (fields : list loc_item -> gmap (list N) json -> validation A)
    (loc : list loc_item) (j : json) : validation A :=
  match j with
  | JDict d => fields loc d
  | _ => Invalid [{| err_loc := loc; err_type := model_type |}]
  end.

Fixpoint validate_elements {A} (v : list loc_item -> json -> validation A)
    (loc : list loc_item) (i : nat) (l : list json) : validation (list A) :=
  match l with
  | [] => Valid []
  | j :: l' =>
      Valid cons <*> v (loc ++ [LIdx i]) j <*> validate_elements v loc (S i) l'
  end.

(** [List[...]]: the input must be a list. *)
Definition validate_list {A} (v : list loc_item -> json -> validation A)
    (loc : list loc_item) (j : json) : validation (list A) :=
  match j with
  | JList l => validate_elements v loc 0 l
  | _ => Invalid [{| err_loc := loc; err_type := list_type |}]
  end.

Definition InvoiceItem_validate (loc : list loc_item) (d : gmap (list N) json)
  : validation InvoiceItem :=
  Valid Build_InvoiceItem
    <*> required validate_str loc d (py "description")
    <*> with_default None validate_optional_str loc d (py "quantity")
    <*> with_default None validate_optional_str loc d (py "unit_price")
    <*> with_default None validate_optional_str loc d (py "total_price").

Definition VendorInfo_validate (loc : list loc_item) (d : gmap (list N) json)
  : validation VendorInfo :=
  Valid Build_VendorInfo
    <*> with_default None validate_optional_str loc d (py "name_english")
    <*> with_default None validate_optional_str loc d (py "name_nepali")
    <*> with_default None validate_optional_str loc d (py "address")
    <*> with_default None validate_optional_str loc d (py "phone")
    <*> with_default None validate_optional_str loc d (py "email")
    <*> with_default None validate_optional_str loc d (py "vat_number").

Definition CustomerInfo_validate (loc : list loc_item) (d : gmap (list N) json)
  : validation CustomerInfo :=
  Valid Build_CustomerInfo
    <*> with_default None validate_optional_str loc d (py "name")
    <*> with_default None validate_optional_str loc d (py "address")
    <*> with_default None validate_optional_str loc d (py "vat_number").

Definition Summary_validate (loc : list loc_item) (d : gmap (list N) json)
  : validation Summary :=
  Valid Build_Summary
    <*> with_default None validate_optional_str loc d (py "subtotal")
    <*> with_default None validate_optional_str loc d (py "tax_amount")
    <*> with_default None validate_optional_str loc d (py "tax_rate_percent")
    <*> with_default None validate_optional_str loc d (py "discount_amount")
    <*> with_default None validate_optional_str loc d (py "total_amount_due")
    <*> with_default None validate_optional_str loc d (py "amount_in_words")
    <*> required validate_str loc d (py "has_company_stamp").

Definition InvoiceData_validate (loc : list loc_item) (d : gmap (list N) json)
  : validation InvoiceData :=
  Valid Build_InvoiceData
    <*> with_default None validate_optional_str loc d (py "invoice_number")
    <*> with_default None validate_optional_str loc d (py "transaction_number")
    <*> with_default None validate_optional_str loc d (py "reference_number")
    <*> with_default None validate_optional_str loc d (py "invoice_date_ad")
    <*> with_default None validate_optional_str loc d (py "invoice_miti_bs")
    <*> required (validate_model VendorInfo_validate) loc d (py "vendor_info")
    <*> required (validate_model CustomerInfo_validate) loc d
          (py "customer_info")
    <*> required (validate_list (validate_model InvoiceItem_validate)) loc d
          (py "line_items")
    <*> required (validate_model Summary_validate) loc d (py "summary").

(** [InvoiceData.model_validate(raw_json)] *)
Definition model_validate (raw_json : json) : validation InvoiceData :=
  validate_model InvoiceData_validate [] raw_json.

(** *** Serialization ([model_dump(mode='json')]) *)

Definition dump_optional_str (o : option str) : json :=
  match o with
  | Some s => JStr s
  | None => JNull
  end.

Definition InvoiceItem_dump (x : InvoiceItem) : json :=
  JDict (dict_of
    [(py "description", JStr (description x));
     (py "quantity", dump_optional_str (quantity x));
     (py "unit_price", dump_optional_str (unit_price x));
     (py "total_price", dump_optional_str (total_price x))]).

Definition VendorInfo_dump (x : VendorInfo) : json :=
  JDict (dict_of
    [(py "name_english", dump_optional_str (name_english x));
     (py "name_nepali", dump_optional_str (name_nepali x));
     (py "address", dump_optional_str (vendor_address x));
     (py "phone", dump_optional_str (phone x));
     (py "email", dump_optional_str (email x));
     (py "vat_number", dump_optional_str (vendor_vat_number x))]).

Definition CustomerInfo_dump (x : CustomerInfo) : json :=
  JDict (dict_of
    [(py "name", dump_optional_str (name x));
     (py "address", dump_optional_str (customer_address x));
     (py "vat_number", dump_optional_str (customer_vat_number x))]).

Definition Summary_dump (x : Summary) : json :=
  JDict (dict_of
    [(py "subtotal", dump_optional_str (subtotal x));
     (py "tax_amount", dump_optional_str (tax_amount x));
     (py "tax_rate_percent", dump_optional_str (tax_rate_percent x));
     (py "discount_amount", dump_optional_str (discount_amount x));
     (py "total_amount_due", dump_optional_str (total_amount_due x));
     (py "amount_in_words", dump_optional_str (amount_in_words x));
     (py "has_company_stamp", JStr (has_company_stamp x))]).

(** [data.model_dump(mode='json')] *)
Definition model_dump (data : InvoiceData) : json :=
  JDict (dict_of
    [(py "invoice_number", dump_optional_str (invoice_number data));
     (py "transaction_number", dump_optional_str (transaction_number data));
     (py "reference_number", dump_optional_str (reference_number data));
     (py "invoice_date_ad", dump_optional_str (invoice_date_ad data));
     (py "invoice_miti_bs", dump_optional_str (invoice_miti_bs data));
     (py "vendor_info", VendorInfo_dump (vendor_info data));
     (py "customer_info", CustomerInfo_dump (customer_info data));
     (py "line_items", JList (map InvoiceItem_dump (line_items data)));
     (py "summary", Summary_dump (summary data))]).

(** *** Key completeness of a serialized record *)

Definition has_key (j : json) (key : str) : bool :=
  match j with
  | JDict d => match d !! key with Some _ => true | None => false end
  | _ => false
  end.

Definition has_keys (keys : list str) (j : json) : bool :=
  forallb (has_key j) keys.

(** [j[key]] exists and satisfies [p]. *)
Definition at_key (key : str) (p : json -> bool) (j : json) : bool :=
  match j with
  | JDict d => match d !! key with Some x => p x | None => false end
  | _ => false
  end.

Definition each_element (p : json -> bool) (j : json) : bool :=
  match j with
  | JList l => forallb p l
  | _ => false
  end.

(** Every declared key of [InvoiceData] and of the models nested in it is
    present. *)
Definition schema_complete (j : json) : bool :=
  has_keys InvoiceData_fields j
  && at_key (py "vendor_info") (has_keys VendorInfo_fields) j
  && at_key (py "customer_info") (has_keys CustomerInfo_fields) j
  && at_key (py "line_items") (each_element (has_keys InvoiceItem_fields)) j
  && at_key (py "summary") (has_keys Summary_fields) j.

(** A parsed object with the required keys only. *)
Definition minimal_invoice : gmap (list N) json :=
  dict_of
    [(py "vendor_info", JDict (dict_of []));
     (py "customer_info", JDict (dict_of []));
     (py "line_items", JList []);
     (py "summary",
        JDict (dict_of [(py "has_company_stamp", JStr (py "Yes"))]))].

End Schemas.
Export Schemas.

(** ** The table, the libraries, and the handler monad *)

Module Runtime.

Abbreviation bytes := (list Byte.byte) (only parsing).

(** A Pillow image object; the service only passes it on. *)
Inductive image := Image (handle : N).

(** A row of [invoice_logs] ([models.py]). *)
Record InvoiceLog := {
  id : Z;
  filename : str;
  file_content : bytes;
  extracted_schema_content : json;
  created_at : Z
}.

(** The [WHERE] clauses of the listing. *)
Inductive where_clause :=
| IdEquals (n : Z)                 (* InvoiceLog.id == n *)
| FilenameILike (pattern : str).   (* InvoiceLog.filename.ilike(pattern) *)

(** The statements that take parameters from a request:
    [select(InvoiceLog).where(InvoiceLog.id == log_id)] and the listing with
    its clause, [offset(skip)] and [limit(limit)]. *)
Inductive statement :=
| SelectLog (log_id : Z)
| SelectMetadata (clause : option where_clause) (skip limit : Z).

(** The libraries and the deployment, as the sources use them. *)
Record Env := {
  (* config.py *)
  VLLM_API_URL : str;
  MODEL_NAME : str;
  (* json.dumps(InvoiceData.model_json_schema(), indent=2) *)
  schema_json : str;
  (* pdf2image.convert_from_bytes(file_bytes) *)
  convert_from_bytes : bytes -> result (list image);
  (* PIL.Image.open(BytesIO(content)) *)
  image_open : bytes -> result image;
  (* image.convert("RGB") *)
  convert_rgb : image -> result image;
  (* image.save(buffer, format="JPEG"); buffer.getvalue() *)
  save_jpeg : image -> result bytes;
  (* base64.b64encode(...).decode("utf-8") *)
  b64encode : bytes -> str;
  (* client.post(url, json=payload), raise_for_status(), response.json()
     and result[choices][0][message][content]: the content when it is a str,
     else the exception raised on the way or by the first use of a content
     that is no str, all within the same try block *)
  chat_completion : str -> json -> result str;
  (* json.loads(content) *)
  json_loads : str -> result json;
  (* str(e) of an HTTPException and of a pydantic ValidationError *)
  http_exception_str : Z -> str -> str;
  validation_error_str : list line_error -> str;
  (* the commit of the session: the exception it raises, if any *)
  commit_error : InvoiceLog -> option exn;
  (* SQL ILIKE: pattern, subject *)
  ilike : str -> str -> bool;
  (* str.isdigit() on a code point outside ASCII, and int(s) *)
  unicode_isdigit : char -> bool;
  py_int : str -> result Z;
  (* str(e) of the sqlalchemy.exc.DBAPIError that db.execute raises for a
     statement the driver or the server refuses *)
  dbapi_error_str : statement -> str;
  (* whether the driver refuses this OFFSET or LIMIT, a number above the
     range of INTEGER *)
  refuses_above_integer : Z -> bool
}.

(** A call into a library that reads or writes outside the process. *)
Inductive event :=
| PdfRender (b : bytes)
| ImageOpen (b : bytes)
| HttpPost (url : str) (payload : json)
| JsonLoads (text : str)
| DbInsert (row : InvoiceLog).

(** The state a handler runs in: the table, the sequence behind [id], the
    clock behind [created_at], and the journal of calls made so far. *)
Record world := {
  invoice_logs : list InvoiceLog;
  next_id : Z;
  now : Z;
  journal : list event
}.

Definition M (A : Type) : Type := world -> result A * world.

#[export] Instance M_ret : MRet M := fun A a w => (Ok a, w).
#[export] Instance M_bind : MBind M := fun A B f m w =>
  match m w with
  | (Ok a, w') => f a w'
  | (Raise e, w') => (Raise e, w')
  end.

Definition raise {A} (e : exn) : M A := fun w => (Raise e, w).

Definition lift {A} (r : result A) : M A := fun w => (r, w).

Definition log_event (ev : event) (w : world) : world :=
  {| invoice_logs := invoice_logs w; next_id := next_id w; now := now w;
     journal := journal w ++ [ev] |}.

(** A journalled library call. *)
Definition call {A} (ev : event) (r : result A) : M A :=
  fun w => (r, log_event ev w).

(** [try: m  except Exception as e: handler(e)] *)
Definition try_except {A} (m : M A) (handler : exn -> M A) : M A :=
  fun w =>
    match m w with
    | (Ok a, w') => (Ok a, w')
    | (Raise e, w') => handler e w'
    end.

(** The table and its sequence are the same in [w'] as in [w]. *)
Definition same_table (w w' : world) : Prop :=
  invoice_logs w' = invoice_logs w /\ next_id w' = next_id w.

(** The identities in the table come from a sequence that starts at 1. *)
Definition db_wf (w : world) : Prop :=
  (1 <= next_id w)%Z
  /\ Forall (fun r => (1 <= id r < next_id w)%Z) (invoice_logs w).

(** What FastAPI turns into an HTTP error response; any other exception that
    leaves a handler is an unhandled fault. *)
Definition handled {A} (r : result A) : Prop :=
  match r with
  | Ok _ => True
  | Raise (HTTPException _ _) => True
  | Raise (Exc _ _) => False
  end.

(** The [DBAPIError] of a refused statement. *)
Definition DBAPIError (env : Env) (s : statement) : exn :=
  Exc OtherError (dbapi_error_str env s).

(** [str(e)] *)
Definition str_exn (env : Env) (e : exn) : str :=
  match e with
  | Exc _ msg => msg
  | HTTPException status_code detail => http_exception_str env status_code detail
  end.

End Runtime.
Export Runtime.

(** ** [config.py] *)

Module Config.

Definition get_system_prompt (env : Env) : str :=
  py "Analyze the provided invoice image and extract all relevant information.

Structure your output only as a valid JSON object that strictly adheres to the following schema.
If a specific field or value is not present in the image, use null as the value for that field (do not omit the key).
Do not include any text, explanations, or markdown formatting.

JSON Schema:
" ++ schema_json env ++ py "
".

End Config.
Export Config.

(** ** [service.py] *)

Module Service.

Section WithEnv.
Context (env : Env).

Definition pdf_to_images (file_bytes : bytes) : M (list image) :=
  try_except
    (call (PdfRender file_bytes) (convert_from_bytes env file_bytes))
    (fun e =>
       raise (Exc ValueError
                (py "Failed to convert PDF to image: " ++ str_exn env e))).

Definition encode_image_to_base64 (img : image) : result str :=
  rgb ← convert_rgb env img;
  buffered ← save_jpeg env rgb;
  Ok (b64encode env buffered).

(** The float [0.1]. *)
Definition temperature : json := JFloat 4591870180066957722.

Definition payload (system_prompt base64_image : str) : json :=
  JDict (dict_of
    [(py "model", JStr (MODEL_NAME env));
     (py "messages",
        JList [JDict (dict_of
          [(py "role", JStr (py "user"));
           (py "content",
              JList
                [JDict (dict_of
                   [(py "type", JStr (py "text"));
                    (py "text", JStr system_prompt)]);
                 JDict (dict_of
                   [(py "type", JStr (py "image_url"));
                    (py "image_url",
                       JDict (dict_of
                         [(py "url",
                             JStr (py "data:image/jpeg;base64,"
                                   ++ base64_image))]))])])])]);
     (py "max_tokens", JInt 2048);
     (py "temperature", temperature)]).

(** Lines 81-85: parse, turning a [JSONDecodeError] into a [ValueError] that
    quotes the text. *)
Definition parse_json (content : str) : M json :=
  try_except
    (call (JsonLoads content) (json_loads env content))
    (fun e =>
       if is_class JSONDecodeError e
       then raise (Exc ValueError
                     (py "Model did not return valid JSON: " ++ content))
       else raise e).

(** Line 88. *)
Definition validate (raw_json : json) : M InvoiceData :=
  match model_validate raw_json with
  | Valid validated_data => mret validated_data
  | Invalid errors =>
      raise (Exc ValidationError (validation_error_str env errors))
  end.

(** Lines 92-95: what the two handlers of the request block raise. *)
Definition processing_error (e : exn) : exn :=
  if is_class RequestError e
  then Exc RuntimeError (py "API Request failed: " ++ str_exn env e)
  else Exc RuntimeError (py "Processing error: " ++ str_exn env e).

Definition completions_url : str := VLLM_API_URL env ++ py "/chat/completions".

Definition process_invoice_with_vllm (img : image) : M InvoiceData :=
  base64_image ← lift (encode_image_to_base64 img);
  let system_prompt := get_system_prompt env in
  try_except
    (content ← call
       (HttpPost completions_url (payload system_prompt base64_image))
       (chat_completion env completions_url
          (payload system_prompt base64_image));
     content ← lift (sanitize content);
     raw_json ← parse_json content;
     validate raw_json)
    (fun e => raise (processing_error e)).

End WithEnv.

End Service.
Export Service.

(** ** [crud.py] *)

Module Crud.

(** A row of the metadata listing: the selected columns and
    [func.length(file_content)]. *)
Record LogMetadata := {
  row_id : Z;
  row_filename : str;
  row_created_at : Z;
  row_extracted_schema_content : json;
  file_size : nat
}.

Definition metadata_of (r : InvoiceLog) : LogMetadata :=
  {| row_id := id r;
     row_filename := filename r;
     row_created_at := created_at r;
     row_extracted_schema_content := extracted_schema_content r;
     file_size := length (file_content r) |}.

(** [ORDER BY created_at DESC]; rows of equal [created_at] keep the order of
    the table. *)
Fixpoint insert_desc (r : InvoiceLog) (l : list InvoiceLog)
  : list InvoiceLog :=
  match l with
  | [] => [r]
  | x :: l' =>
      if (created_at x <=? created_at r)%Z then r :: l
      else x :: insert_desc r l'
  end.

Definition order_by_created_at_desc (l : list InvoiceLog) : list InvoiceLog :=
  foldr insert_desc [] l.

(** The range of the column type INTEGER. *)
Definition in_integer_range (n : Z) : bool :=
  (-2147483648 <=? n)%Z && (n <=? 2147483647)%Z.

Section WithEnv.
Context (env : Env).

Definition create_invoice_log (filename : str) (file_bytes : bytes)
    (data : InvoiceData) : M InvoiceLog :=
  fun w =>
    let db_log :=
      {| id := next_id w;
         filename := filename;
         file_content := file_bytes;
         extracted_schema_content := model_dump data;
         created_at := now w |} in
    match commit_error env db_log with
    | Some e => (Raise e, log_event (DbInsert db_log) w)
    | None =>
        (Ok db_log,
         {| invoice_logs := invoice_logs w ++ [db_log];
            next_id := next_id w + 1;
            now := now w;
            journal := journal w ++ [DbInsert db_log] |})
    end.

(** [c.isdigit()] and [s.isdigit()]: the ASCII digits are digits, the rest
    is the Unicode table's. *)
Definition char_isdigit (c : char) : bool :=
  is_ascii_digit c || unicode_isdigit env c.

Definition str_isdigit (s : str) : bool :=
  match s with
  | [] => false
  | _ :: _ => forallb char_isdigit s
  end.

(** The [WHERE] clause of the listing, [None] when no filter applies.  The
    clause is only built here; the database checks its parameter when the
    statement is executed ([refused]). *)
Definition search_filter (search_query : option str) (search_type : str)
  : result (option where_clause) :=
  match search_query with
  | None => Ok None
  | Some [] => Ok None
  | Some ((_ :: _) as q) =>
      if bool_decide (search_type = py "id") then
        if str_isdigit q then
          n ← py_int env q;
          Ok (Some (IdEquals n))
        else
          Ok (Some (IdEquals (-1)))
      else
        Ok (Some (FilenameILike (py "%" ++ q ++ py "%")))
  end.

(** The rows a clause selects. *)
Definition satisfies (c : where_clause) (r : InvoiceLog) : bool :=
  match c with
  | IdEquals n => bool_decide (id r = n)
  | FilenameILike pattern => ilike env pattern (filename r)
  end.

Definition apply_filter (f : option where_clause)
    (l : list InvoiceLog) : list InvoiceLog :=
  match f with
  | Some c => List.filter (satisfies c) l
  | None => l
  end.

(** What [db.execute] refuses.  The column [id] is an INTEGER: the driver
    refuses a parameter compared with it that is outside the range of the
    type.  The server refuses a negative OFFSET or LIMIT; one above the
    range of INTEGER is the driver's to refuse. *)
Definition window_refused (n : Z) : bool :=
  (n <? 0)%Z || (2147483647 <? n)%Z && refuses_above_integer env n.

Definition clause_refused (f : option where_clause) : bool :=
  match f with
  | Some (IdEquals n) => negb (in_integer_range n)
  | Some (FilenameILike _) | None => false
  end.

Definition refused (f : option where_clause) (skip limit : Z) : bool :=
  clause_refused f || window_refused skip || window_refused limit.

Definition get_invoice_logs_metadata (skip limit : Z)
    (search_query : option str) (search_type : str) : M (list LogMetadata) :=
  fun w =>
    match search_filter search_query search_type with
    | Raise e => (Raise e, w)
    | Ok f =>
        if refused f skip limit then
          (Raise (DBAPIError env (SelectMetadata f skip limit)), w)
        else
          (Ok (map metadata_of
                 (take (Z.to_nat limit)
                    (drop (Z.to_nat skip)
                       (order_by_created_at_desc
                          (apply_filter f (invoice_logs w)))))),
           w)
    end.

(** No stored identity is outside the range of the column, so a look-up
    that finds a row was not refused; one that finds none is refused when
    its parameter is outside the range. *)
Definition get_invoice_log_by_id (log_id : Z) : M (option InvoiceLog) :=
  fun w =>
    match head (List.filter (fun r => bool_decide (id r = log_id))
                  (invoice_logs w)) with
    | Some log => (Ok (Some log), w)
    | None =>
        if in_integer_range log_id then (Ok None, w)
        else (Raise (DBAPIError env (SelectLog log_id)), w)
    end.

End WithEnv.

End Crud.
Export Crud.

(** ** [main.py] *)

Module UploadFile.
Record t := {
  filename : option str;
  content_type : option str;
  content : bytes
}.
End UploadFile.

Module Main.

Record UploadResponse := {
  message : str;
  log_id : Z;
  data : InvoiceData
}.

Record StreamingResponse := {
  body : bytes;
  media_type : str
}.

Section WithEnv.
Context (env : Env).

(** Lines 68-77 of [upload_invoice]: one image from the upload. *)
Definition load_image (content_type : option str) (content : bytes)
  : M image :=
  match content_type with
  | None =>
      raise (Exc TypeError (py "argument of type 'NoneType' is not iterable"))
  | Some content_type =>
      if contains (py "application/pdf") content_type then
        images ← pdf_to_images env content;
        match images with
        | [] => raise (HTTPException 400 (py "Empty PDF file"))
        | first :: _ => mret first
        end
      else if contains (py "image") content_type then
        call (ImageOpen content) (image_open env content)
      else
        raise (HTTPException 400
                 (py "Unsupported file type. Use PDF or Image."))
  end.

(** Line 96: what the handler of [upload_invoice] raises. *)
Definition internal_error (e : exn) : exn :=
  HTTPException 500 (py "Internal Server Error: " ++ str_exn env e).

(** Line 164: what the handler of [preview_log_image] raises. *)
Definition preview_error (e : exn) : exn :=
  HTTPException 500 (py "Preview generation failed: " ++ str_exn env e).

Definition upload_invoice (file : UploadFile.t) : M UploadResponse :=
  match UploadFile.filename file with
  | None | Some [] => raise (HTTPException 400 (py "No filename provided"))
  | Some ((_ :: _) as filename) =>
      let content := UploadFile.content file in
      try_except
        (pil_image ← load_image (UploadFile.content_type file) content;
         validated_data ← process_invoice_with_vllm env pil_image;
         log_record ← create_invoice_log env filename content validated_data;
         mret {| message := py "Success";
                 log_id := id log_record;
                 data := validated_data |})
        (fun e => raise (internal_error e))
  end.

Definition read_logs (skip limit : Z) (search : option str)
    (type : str) : M (list LogMetadata) :=
  get_invoice_logs_metadata env skip limit search type.

(** Lines 141-152 of [preview_log_image]: an image from the stored bytes,
    [None] when there is none. *)
Definition decode_stored (file_bytes : bytes) : M (option image) :=
  try_except
    (output_image ← call (ImageOpen file_bytes) (image_open env file_bytes);
     mret (Some output_image))
    (fun e =>
       if is_class IOError e then
         try_except
           (images ← pdf_to_images env file_bytes;
            mret (head images))
           (fun _ => mret None)
       else raise e).

(** Lines 158-163: the image as a JPEG of its RGB conversion. *)
Definition encode_preview (output_image : image) : result StreamingResponse :=
  rgb ← convert_rgb env output_image;
  img_buffer ← save_jpeg env rgb;
  Ok {| body := img_buffer; media_type := py "image/jpeg" |}.

Definition preview_log_image (log_id : Z) : M StreamingResponse :=
  log ← get_invoice_log_by_id env log_id;
  match log with
  | None => raise (HTTPException 404 (py "Log not found"))
  | Some log =>
      try_except
        (output_image ← decode_stored (file_content log);
         match output_image with
         | None =>
             raise (HTTPException 400
                      (py "Could not convert file content to image preview."))
         | Some output_image => lift (encode_preview output_image)
         end)
        (fun e => raise (preview_error e))
  end.

End WithEnv.

End Main.
Export Main.

(** ** A concrete deployment, for examples *)

Module Sample.

(** A key or string of a JSON text, between double quotes. *)
Definition quoted (s : str) : str := [34%N] ++ s ++ [34%N].

(** The JSON text of [minimal_invoice]. *)
Definition minimal_text : str :=
  py "{" ++ quoted (py "vendor_info") ++ py ": {}, "
  ++ quoted (py "customer_info") ++ py ": {}, "
  ++ quoted (py "line_items") ++ py ": [], "
  ++ quoted (py "summary") ++ py ": {"
  ++ quoted (py "has_company_stamp") ++ py ": " ++ quoted (py "Yes")
  ++ py "}}".

(** A model answer that wraps it in a tagged fence, with commentary. *)
Definition good_answer : str :=
  py "Here you go: ```json" ++ [10%N] ++ minimal_text ++ [10%N]
  ++ py "``` Anything else?".

(** A model answer whose fenced text is not JSON. *)
Definition bad_answer : str := py "```json {oops ```".

Definition three_digits (n : Z) : str :=
  [Z.to_N (48 + n / 100); Z.to_N (48 + n / 10 mod 10); Z.to_N (48 + n mod 10)]%Z.

(** Libraries that recognise a file by its first byte, answer every request
    with [answer], and parse one document. *)
Definition env (answer : str) : Env :=
  {| VLLM_API_URL := py "http://localhost:8000/v1";
     MODEL_NAME := py "Qwen/Qwen3-VL-4B-Instruct";
     schema_json := py "{}";
     convert_from_bytes := fun b =>
       match b with
       | Byte.x25 :: _ => Ok [Image 1; Image 2]
       | Byte.x00 :: _ => Ok []
       | _ => Raise (Exc OtherError (py "Unable to get page count."))
       end;
     image_open := fun b =>
       match b with
       | Byte.x89 :: _ => Ok (Image 0)
       | Byte.xff :: _ =>
           Raise (Exc OtherError (py "Image size exceeds limit of pixels"))
       | _ => Raise (Exc IOError (py "cannot identify image file"))
       end;
     convert_rgb := fun img => Ok img;
     save_jpeg := fun _ => Ok [Byte.xff; Byte.xd8; Byte.xff; Byte.xd9];
     b64encode := fun _ => py "/9j/2Q==";
     chat_completion := fun _ _ => Ok answer;
     json_loads := fun text =>
       if bool_decide (text = minimal_text)
       then Ok (JDict minimal_invoice)
       else Raise (Exc JSONDecodeError (py "Expecting value"))
     ;
     http_exception_str := fun status_code detail =>
       three_digits status_code ++ py ": " ++ detail;
     validation_error_str := fun _ => py "validation error for InvoiceData";
     commit_error := fun _ => None;
     ilike := fun _ _ => true;
     unicode_isdigit := fun c => (c =? 178)%N;
     py_int := fun s =>
       if forallb is_ascii_digit s then Ok (decimal_value s)
       else Raise (Exc ValueError (py "invalid literal for int() with base 10"));
     dbapi_error_str := fun _ =>
       py "(sqlalchemy.dialects.postgresql.asyncpg.Error) invalid input";
     refuses_above_integer := fun _ => true |}.

Definition empty_world : world :=
  {| invoice_logs := []; next_id := 1; now := 1700000000; journal := [] |}.

Definition pdf_upload : UploadFile.t :=
  {| UploadFile.filename := Some (py "invoice.pdf");
     UploadFile.content_type := Some (py "application/pdf");
     UploadFile.content := [Byte.x25; Byte.x50; Byte.x44; Byte.x46] |}.

Definition png_upload : UploadFile.t :=
  {| UploadFile.filename := Some (py "scan.png");
     UploadFile.content_type := Some (py "image/png");
     UploadFile.content := [Byte.x89; Byte.x50; Byte.x4e; Byte.x47] |}.

Definition text_upload : UploadFile.t :=
  {| UploadFile.filename := Some (py "notes.txt");
     UploadFile.content_type := Some (py "text/plain");
     UploadFile.content := [Byte.x68; Byte.x69] |}.

Definition empty_pdf_upload : UploadFile.t :=
  {| UploadFile.filename := Some (py "empty.pdf");
     UploadFile.content_type := Some (py "application/pdf");
     UploadFile.content := [Byte.x00] |}.

(** The record [minimal_invoice] validates to. *)
Definition minimal_data : InvoiceData :=
  {| invoice_number := None; transaction_number := None;
     reference_number := None; invoice_date_ad := None;
     invoice_miti_bs := None;
     vendor_info :=
       {| name_english := None; name_nepali := None; vendor_address := None;
          phone := None; email := None; vendor_vat_number := None |};
     customer_info :=
       {| name := None; customer_address := None;
          customer_vat_number := None |};
     line_items := [];
     summary :=
       {| subtotal := None; tax_amount := None; tax_rate_percent := None;
          discount_amount := None; total_amount_due := None;
          amount_in_words := None; has_company_stamp := py "Yes" |} |}.

(** Parsed objects that lack a required key. *)
Definition no_summary : gmap (list N) json :=
  delete (py "summary") minimal_invoice.

Definition no_stamp : gmap (list N) json :=
  <[py "summary" := JDict (dict_of [])]> minimal_invoice.

Definition no_description : gmap (list N) json :=
  <[py "line_items" :=
      JList [JDict (dict_of [(py "quantity", JStr (py "2"))])]]>
    minimal_invoice.

(** The answer to an accepted upload into the empty table. *)
Definition accepted_response : UploadResponse :=
  {| message := py "Success"; log_id := 1; data := minimal_data |}.

(** A row stored under identity 1, and the table that holds just that row. *)
Definition stored (filename : str) (file_bytes : bytes) : InvoiceLog :=
  {| id := 1; filename := filename; file_content := file_bytes;
     extracted_schema_content := model_dump minimal_data;
     created_at := 1700000000 |}.

Definition table_with (file_bytes : bytes) : world :=
  {| invoice_logs := [stored (py "upload") file_bytes];
     next_id := 2; now := 1700000000; journal := [] |}.

(** Stored bytes: a PNG, a PDF, plain text, and an image Pillow refuses as
    too large. *)
Definition png_bytes : bytes := [Byte.x89; Byte.x50; Byte.x4e; Byte.x47].
Definition pdf_bytes : bytes := [Byte.x25; Byte.x50; Byte.x44; Byte.x46].
Definition text_bytes : bytes := [Byte.x68; Byte.x69].
Definition oversized_bytes : bytes := [Byte.xff; Byte.x00].

(** The preview of a stored image. *)
Definition jpeg_response : StreamingResponse :=
  {| body := [Byte.xff; Byte.xd8; Byte.xff; Byte.xd9];
     media_type := py "image/jpeg" |}.

(** An upload that declares a vector image. *)
Definition svg_bytes : bytes := [Byte.x3c; Byte.x73; Byte.x76; Byte.x67].

Definition svg_upload : UploadFile.t :=
  {| UploadFile.filename := Some (py "drawing.svg");
     UploadFile.content_type := Some (py "image/svg+xml");
     UploadFile.content := svg_bytes |}.

(** A text of 2000 opening brackets, and libraries whose model answers with
    it and whose parser gives up on it as [json.loads] does, with a
    [RecursionError]. *)
Definition deep_text : str := repeat 91%N 2000.

Definition recursion_error : exn :=
  Exc RuntimeError
    (py "maximum recursion depth exceeded while decoding a JSON array from a unicode string").

Definition deep_env : Env :=
  {| VLLM_API_URL := VLLM_API_URL (env deep_text);
     MODEL_NAME := MODEL_NAME (env deep_text);
     schema_json := schema_json (env deep_text);
     convert_from_bytes := convert_from_bytes (env deep_text);
     image_open := image_open (env deep_text);
     convert_rgb := convert_rgb (env deep_text);
     save_jpeg := save_jpeg (env deep_text);
     b64encode := b64encode (env deep_text);
     chat_completion := chat_completion (env deep_text);
     json_loads := fun text =>
       if bool_decide (text = deep_text) then Raise recursion_error
       else json_loads (env deep_text) text;
     http_exception_str := http_exception_str (env deep_text);
     validation_error_str := validation_error_str (env deep_text);
     commit_error := commit_error (env deep_text);
     ilike := ilike (env deep_text);
     unicode_isdigit := unicode_isdigit (env deep_text);
     py_int := py_int (env deep_text);
     dbapi_error_str := dbapi_error_str (env deep_text);
     refuses_above_integer := refuses_above_integer (env deep_text) |}.

(** The table after one accepted upload. *)
Definition one_row_world : world :=
  Eval vm_compute in
    snd (upload_invoice (env good_answer) pdf_upload empty_world).

End Sample.

(** ** Notions for stating the properties of the table *)

Module Tables.

(** [a] may stand in front of [b] in a listing: it is not older. *)
Definition newer_first (a b : InvoiceLog) : Prop :=
  (created_at b <= created_at a)%Z.

Definition meta_newer_first (a b : LogMetadata) : Prop :=
  (row_created_at b <= row_created_at a)%Z.

(** The rows a query selects, before pagination. *)
Definition selected (env : Env) (f : option where_clause) (r : InvoiceLog)
  : bool :=
  match f with
  | Some c => satisfies env c r
  | None => true
  end.

(** The identities of the table are within the sequence and pairwise
    different. *)
Definition db_ok (w : world) : Prop :=
  db_wf w /\ NoDup (map id (invoice_logs w)).

End Tables.
Export Tables.

(** ** Notions for stating the properties of validation *)

(** The entries of the [ValidationError], none when validation passes. *)
Definition errors_of {A} (v : validation A) : list line_error :=
  match v with
  | Valid _ => []
  | Invalid errors => errors
  end.

(** What [Optional[str]] accepts. *)
Definition is_optional_str (j : json) : bool :=
  match j with
  | JNull | JStr _ => true
  | _ => false
  end.

(** ** Notions for stating the properties of the fence clean-up *)

(** [sep.join(parts)] *)
Fixpoint join (sep : list N) (parts : list (list N)) : list N :=
  match parts with
  | [] => []
  | [part] => part
  | part :: parts' => part ++ sep ++ join sep parts'
  end.

(** ** Paths ([os.path] on POSIX) *)

Module PyPath.

Definition SEP : char := 47%N.
Definition EXTSEP : char := 46%N.

(** [s.rfind(sub)]: index of the rightmost occurrence, [None] for -1. *)
Fixpoint rfind (sub s : str) : option nat :=
  match s with
  | [] => if startswith sub [] then Some 0 else None
  | _ :: s' =>
      match rfind sub s' with
      | Some j => Some (S j)
      | None => if startswith sub s then Some 0 else None
      end
  end.

(** The integer a search returns. *)
Definition index_of (o : option nat) : Z :=
  match o with
  | Some i => Z.of_nat i
  | None => (-1)%Z
  end.

(** [s.endswith(p)] *)
Definition endswith (p s : str) : bool := startswith (rev p) (rev s).

(** The loop of [genericpath._splitext] over the leading dots of the file
    name: is one of the [count] places from [filenameIndex] on not a dot? *)
Fixpoint has_stem (p : str) (filenameIndex count : nat) : bool :=
  match count with
  | O => false
  | S count' =>
      if negb (bool_decide (take 1 (drop filenameIndex p) = [EXTSEP]))
      then true
      else has_stem p (S filenameIndex) count'
  end.

(** [os.path.splitext(p)] *)
Definition splitext (p : str) : str * str :=
  let sepIndex := index_of (rfind [SEP] p) in
  let dotIndex := index_of (rfind [EXTSEP] p) in
  if (sepIndex <? dotIndex)%Z
     && has_stem p (Z.to_nat (sepIndex + 1))
          (Z.to_nat (dotIndex - (sepIndex + 1)))
  then (take (Z.to_nat dotIndex) p, drop (Z.to_nat dotIndex) p)
  else (p, []).

(** [os.path.join(a, b)] *)
Definition path_join (a b : str) : str :=
  if startswith [SEP] b then b
  else if bool_decide (a = []) || endswith [SEP] a then a ++ b
  else a ++ [SEP] ++ b.

End PyPath.
Export PyPath.

(** ** The static file route of [main.py] *)

Module Static.

(** The machine the service runs on. *)
Record Host := {
  (* str.lower() of a text that is not all ASCII *)
  unicode_lower : str -> str;
  (* os.path.exists and os.path.isfile *)
  path_exists : str -> bool;
  path_isfile : str -> bool
}.

Record FileResponse := { path : str }.

Definition ascii_lower (c : char) : char :=
  if ((65 <=? c) && (c <=? 90))%N then (c + 32)%N else c.

(** [s.lower()] *)
Definition lower (host : Host) (s : str) : str :=
  if forallb (fun c => (c <? 128)%N) s then map ascii_lower s
  else unicode_lower host s.

Definition allowed_extensions : list str :=
  [py ".png"; py ".jpg"; py ".jpeg"; py ".gif"; py ".ico"; py ".svg";
   py ".css"; py ".js"].

Definition serve_static_file (host : Host) (filename : str)
  : result FileResponse :=
  let ext := snd (splitext filename) in
  if negb (bool_decide (lower host ext ∈ allowed_extensions)) then
    Raise (HTTPException 404 (py "File type not allowed"))
  else if contains (py "..") filename || contains (py "/") filename then
    Raise (HTTPException 404 (py "Invalid filename"))
  else
    let file_path := path_join (py ".") filename in
    if path_exists host file_path && path_isfile host file_path then
      Ok {| path := file_path |}
    else
      Raise (HTTPException 404 (py "File not found")).

End Static.
Export Static.

(** ** [extract_files.py] *)

Module ExtractFiles.

Definition OUTPUT_DIR : str := py "extracted_files".

(** [str(n)] of an [int]: its decimal digits, behind a minus sign when it is
    negative. *)
Definition str_int (n : Z) : str :=
  py (DecimalString.NilZero.string_of_int (Z.to_int n)).

(** The operating system under the script; [disk] is the state of its file
    system. *)
Record Os (disk : Type) := {
  (* os.path.exists(path) *)
  os_path_exists : str -> disk -> bool;
  (* os.makedirs(path) *)
  os_makedirs : str -> disk -> result unit * disk;
  (* with open(path, "wb") as f: f.write(content) *)
  write_binary : str -> bytes -> disk -> result unit * disk;
  (* str(d) of a datetime *)
  str_datetime : Z -> str
}.
Arguments os_path_exists {disk}.
Arguments os_makedirs {disk}.
Arguments write_binary {disk}.
Arguments str_datetime {disk}.

(** What the script runs on: the table, the file system, the lines printed. *)
Record process (disk : Type) := {
  table : list InvoiceLog;
  files : disk;
  stdout : list str
}.
Arguments table {disk}.
Arguments files {disk}.
Arguments stdout {disk}.

Section WithOs.
Context {disk : Type} (os : Os disk) (env : Env).

Definition Script (A : Type) : Type := process disk -> result A * process disk.

#[local] Instance Script_ret : MRet Script := fun A a p => (Ok a, p).
#[local] Instance Script_bind : MBind Script := fun A B f m p =>
  match m p with
  | (Ok a, p') => f a p'
  | (Raise e, p') => (Raise e, p')
  end.

Definition print (line : str) : Script unit :=
  fun p =>
    (Ok tt,
     {| table := table p; files := files p; stdout := stdout p ++ [line] |}).

(** A call that reads or changes the file system. *)
Definition on_disk {A} (f : disk -> result A * disk) : Script A :=
  fun p =>
    let '(r, d) := f (files p) in
    (r, {| table := table p; files := d; stdout := stdout p |}).

(** [session.execute(select(InvoiceLog).where(InvoiceLog.id == log_id))]
    and [.scalars().first()], the statement of [get_invoice_log_by_id]: a
    look-up that finds no row is refused when its parameter is outside the
    range of the column. *)
Definition first_with_id (log_id : Z) : Script (option InvoiceLog) :=
  fun p =>
    match head (List.filter (fun r => bool_decide (id r = log_id))
                  (table p)) with
    | Some log => (Ok (Some log), p)
    | None =>
        if in_integer_range log_id then (Ok None, p)
        else (Raise (DBAPIError env (SelectLog log_id)), p)
    end.

(** [try: m  except Exception as e: handler(e)] *)
Definition try_script {A} (m : Script A) (handler : exn -> Script A)
  : Script A :=
  fun p =>
    match m p with
    | (Ok a, p') => (Ok a, p')
    | (Raise e, p') => handler e p'
    end.

Definition CROSS : str := [10060%N].
Definition CHECK : str := [9989%N].
Definition PAGE : str := [128196%N].
Definition CALENDAR : str := [128197%N].

(** Lines 39-40: where the content of a row is written. *)
Definition output_path (log : InvoiceLog) : str :=
  let safe_filename := str_int (id log) ++ py "_" ++ filename log in
  path_join OUTPUT_DIR safe_filename.

(** Lines 17-19. *)
Definition ensure_output_dir : Script unit :=
  dir_exists ← on_disk (fun d => (Ok (os_path_exists os OUTPUT_DIR d), d));
  if negb dir_exists then
    on_disk (os_makedirs os OUTPUT_DIR);;
    print (py "Created directory: " ++ OUTPUT_DIR)
  else mret tt.

Definition extract_single_file (log_id : Z) : Script unit :=
  ensure_output_dir;;
  print (py "Connecting to database to fetch Log ID: " ++ str_int log_id
         ++ py "...");;
  log ← first_with_id log_id;
  match log with
  | None =>
      print (CROSS ++ py " Error: No invoice log found with ID "
             ++ str_int log_id)
  | Some log =>
      try_script
        (let file_path := output_path log in
         on_disk (write_binary os file_path (file_content log));;
         print (CHECK ++ py " Successfully saved file to: " ++ file_path);;
         print (PAGE ++ py " Original Filename: " ++ filename log);;
         print (CALENDAR ++ py " Created At: "
                ++ str_datetime os (created_at log)))
        (fun e => print (CROSS ++ py " Failed to save file: " ++ str_exn env e))
  end.

End WithOs.

(** The characters of a printed [int]. *)
Definition sign_or_digit (c : N) : Prop :=
  c = 45%N \/ is_ascii_digit c = true.

(** The process after it printed [lines], and with the file system [d]. *)
Definition printed {disk} (lines : list str) (p : process disk)
  : process disk :=
  {| table := table p; files := files p; stdout := stdout p ++ lines |}.

Definition with_files {disk} (d : disk) (p : process disk) : process disk :=
  {| table := table p; files := d; stdout := stdout p |}.

(** The first line of a run. *)
Definition connecting (log_id : Z) : str :=
  py "Connecting to database to fetch Log ID: " ++ str_int log_id ++ py "...".

End ExtractFiles.
Export ExtractFiles.

(** ** Further examples *)

Module Examples.

(** The libraries of [Sample.env], answering with [Sample.good_answer]. *)
Definition env : Env := Sample.env Sample.good_answer.

(** The same libraries with another JSON parser. *)
Definition with_parser (parse : str -> result json) : Env :=
  {| VLLM_API_URL := VLLM_API_URL env;
     MODEL_NAME := MODEL_NAME env;
     schema_json := schema_json env;
     convert_from_bytes := convert_from_bytes env;
     image_open := image_open env;
     convert_rgb := convert_rgb env;
     save_jpeg := save_jpeg env;
     b64encode := b64encode env;
     chat_completion := chat_completion env;
     json_loads := parse;
     http_exception_str := http_exception_str env;
     validation_error_str := validation_error_str env;
     commit_error := commit_error env;
     ilike := ilike env;
     unicode_isdigit := unicode_isdigit env;
     py_int := py_int env;
     dbapi_error_str := dbapi_error_str env;
     refuses_above_integer := refuses_above_integer env |}.

(** Two rows with the same file name, the second one newer, and the table
    that holds them. *)
Definition older_row : InvoiceLog :=
  {| id := 1; filename := py "scan.pdf"; file_content := Sample.pdf_bytes;
     extracted_schema_content := JNull; created_at := 1700000000 |}.

Definition newer_row : InvoiceLog :=
  {| id := 2; filename := py "scan.pdf"; file_content := Sample.png_bytes;
     extracted_schema_content := JNull; created_at := 1700000100 |}.

Definition two_rows : world :=
  {| invoice_logs := [older_row; newer_row]; next_id := 3;
     now := 1700000200; journal := [] |}.

(** The answer to an accepted upload into [two_rows]. *)
Definition third_response : UploadResponse :=
  {| message := py "Success"; log_id := 3; data := Sample.minimal_data |}.

(** An upload without a file name. *)
Definition unnamed_upload : UploadFile.t :=
  {| UploadFile.filename := None;
     UploadFile.content_type := Some (py "image/png");
     UploadFile.content := Sample.png_bytes |}.

(** Parsed objects with a value of the wrong type in an optional field. *)
Definition numeric_invoice_number : gmap (list N) json :=
  <[py "invoice_number" := JInt 7]> minimal_invoice.

Definition numeric_phone : gmap (list N) json :=
  <[py "vendor_info" := JDict (dict_of [(py "phone", JInt 7)])]>
    minimal_invoice.

(** A working directory that holds one file, [logo.PNG]. *)
Definition host : Host :=
  {| unicode_lower := fun s => s;
     path_exists := fun p => bool_decide (p = py "./logo.PNG");
     path_isfile := fun p => bool_decide (p = py "./logo.PNG") |}.

(** A file system as the list of the files written, newest first; the
    output directory exists. *)
Definition os : Os (list (str * list Byte.byte)) :=
  {| os_path_exists := fun path d => bool_decide (path = OUTPUT_DIR);
     os_makedirs := fun path d => (Ok tt, d);
     write_binary := fun path content d => (Ok tt, (path, content) :: d);
     str_datetime := fun t => str_int t |}.

(** The script in front of a table, nothing written or printed yet. *)
Definition started (rows : list InvoiceLog)
  : process (list (str * list Byte.byte)) :=
  {| table := rows; files := []; stdout := [] |}.

End Examples.

(** * Properties *)

(** ** Searching, splitting and replacing *)

Section StrFacts.
Implicit Types (sub sep p s : list N) (i j : nat).

Lemma startswith_app p s r : s = p ++ r -> startswith p s = true.
Proof.
  intros ->. induction p as [|a p IH]; [done|].
  simpl. by rewrite N.eqb_refl.
Qed.

Lemma startswith_inv p s : startswith p s = true -> s = p ++ drop (length p) s.
Proof.
  revert s. induction p as [|a p IH]; intros [|b s] H; simpl in *; try done.
  destruct (N.eqb_spec a b) as [->|]; [|done].
  f_equal. by apply IH.
Qed.

Lemma startswith_length p s : startswith p s = true -> length p <= length s.
Proof.
  intros H%startswith_inv. rewrite H, length_app. lia.
Qed.

Lemma find_Some sub s i :
  find sub s = Some i ->
  startswith sub (drop i s) = true
  /\ forall j, j < i -> startswith sub (drop j s) = false.
Proof.
  revert i. induction s as [|c s IH]; intros i; simpl.
  - destruct (startswith sub []) eqn:E; [|done].
    intros [= <-]. split; [done | lia].
  - destruct (startswith sub (c :: s)) eqn:E.
    + intros [= <-]. split; [done | lia].
    + destruct (find sub s) as [k|] eqn:F; [|done].
      intros [= <-]. destruct (IH k eq_refl) as [H1 H2].
      split; [done|]. intros [|j] Hj; [done|]. apply H2. lia.
Qed.

Lemma find_None sub s j : find sub s = None -> startswith sub (drop j s) = false.
Proof.
  revert j. induction s as [|c s IH]; intros j; simpl.
  - destruct (startswith sub []) eqn:E; [done|]. by rewrite drop_nil.
  - destruct (startswith sub (c :: s)) eqn:E; [done|].
    destruct (find sub s) eqn:F; [done|]. intros _.
    destruct j as [|j]; [done|]. by apply IH.
Qed.

Lemma find_None_intro sub s :
  (forall j, startswith sub (drop j s) = false) -> find sub s = None.
Proof.
  intros H. destruct (find sub s) as [i|] eqn:F; [|done].
  apply find_Some in F as [F _]. by rewrite H in F.
Qed.

Lemma find_is_Some sub s j :
  startswith sub (drop j s) = true -> exists i, find sub s = Some i /\ i <= j.
Proof.
  intros H. destruct (find sub s) as [i|] eqn:F.
  - exists i. split; [done|]. apply find_Some in F as [_ F].
    destruct (decide (i <= j)) as [|Hn]; [done|].
    rewrite F in H; [done | lia].
  - by rewrite (find_None _ _ j F) in H.
Qed.

Lemma find_bound sub s i : find sub s = Some i -> i + length sub <= length s.
Proof.
  intros [H Hmin]%find_Some.
  destruct (decide (i <= length s)) as [|Hgt].
  - apply startswith_length in H. rewrite length_drop in H. lia.
  - exfalso. rewrite drop_ge in H by lia.
    destruct sub; [|done].
    assert (0 < i) as H0 by lia. by specialize (Hmin 0 H0).
Qed.

Lemma find_split sub s i :
  find sub s = Some i -> s = take i s ++ sub ++ drop (i + length sub) s.
Proof.
  intros [H _]%find_Some. apply startswith_inv in H.
  rewrite drop_drop in H. rewrite <- H. by rewrite take_drop.
Qed.

(** A pattern that extends [sub] occurs only where [sub] occurs. *)
Lemma find_None_extend sub ext s :
  find sub s = None -> find (sub ++ ext) s = None.
Proof.
  intros H. apply find_None_intro. intros j.
  destruct (startswith (sub ++ ext) (drop j s)) eqn:E; [|done].
  apply startswith_inv in E.
  rewrite <- (find_None sub s j H). symmetry.
  eapply startswith_app. rewrite E at 1. by rewrite <- app_assoc.
Qed.

(** [split_loop] with enough fuel starts with the text in front of the first
    separator. *)
Lemma split_loop_head fuel sep s :
  sep <> [] -> length s <= fuel ->
  split_loop fuel sep s !! 0 =
    Some (match find sep s with Some i => take i s | None => s end).
Proof.
  intros Hsep Hfuel. destruct fuel as [|fuel]; simpl.
  - destruct s; [|simpl in *; lia].
    destruct sep; [done|]. reflexivity.
  - by destruct (find sep s).
Qed.

(** Fuel beyond the length of the string changes nothing. *)
Lemma split_loop_fuel sep s fuel :
  sep <> [] -> length s <= fuel ->
  split_loop fuel sep s = split_loop (length s) sep s.
Proof.
  intros Hsep. revert s.
  induction (lt_wf fuel) as [fuel _ IH]. intros s Hfuel.
  destruct (find sep s) as [i|] eqn:F.
  - pose proof (find_bound _ _ _ F) as Hb.
    assert (0 < length sep) by (destruct sep; [done | simpl; lia]).
    destruct fuel as [|fuel]; [lia|].
    destruct (length s) as [|n] eqn:Hlen; [lia|].
    simpl. rewrite F. f_equal.
    assert (length (drop (i + length sep) s) <= n)
      by (rewrite length_drop; lia).
    rewrite (IH fuel) by lia.
    symmetry. destruct (decide (n <= fuel)).
    + destruct (decide (n = fuel)) as [->|]; [apply IH; lia|].
      rewrite (IH n) by lia. done.
    + lia.
  - destruct fuel, (length s); simpl; by rewrite F.
Qed.

(** With enough fuel no piece of a split contains the separator. *)
Lemma split_loop_pieces sep s fuel :
  sep <> [] -> length s <= fuel ->
  Forall (fun piece => find sep piece = None) (split_loop fuel sep s).
Proof.
  intros Hsep. revert s. induction fuel as [|fuel IH]; intros s Hfuel.
  - destruct s; [|simpl in *; lia]. simpl.
    destruct sep; [done|]. by constructor.
  - simpl. destruct (find sep s) as [i|] eqn:F; [|by constructor].
    pose proof (find_bound _ _ _ F) as Hb.
    assert (0 < length sep) by (destruct sep; [done | simpl; lia]).
    constructor.
    + apply find_None_intro. intros j.
      destruct (startswith sep (drop j (take i s))) eqn:E; [|done].
      pose proof (startswith_length _ _ E) as Hl.
      rewrite length_drop, length_take in Hl.
      apply find_Some in F as [_ F].
      assert (j < i) as Hj by lia.
      rewrite <- (F j Hj). symmetry.
      apply startswith_inv in E.
      eapply startswith_app.
      rewrite <- (take_drop i s) at 1.
      rewrite drop_app_le by (rewrite length_take; lia).
      rewrite E at 1. by rewrite <- app_assoc.
    + apply IH. rewrite length_drop. lia.
Qed.

End StrFacts.

(** ** The fence clean-up *)

Section SanitizerFacts.
Implicit Types (content s t : list N).

Lemma TAG_FENCE : TAG = FENCE ++ py "json".
Proof. reflexivity. Qed.

(** Removing the fences with enough fuel leaves no fence: an occurrence in
    the result would have to start in the text in front of the first fence
    and run into what follows it, and then the fence would start earlier. *)
Lemma fence_overlap t r x :
  t <> [] ->
  startswith FENCE (t ++ r) = true ->
  startswith FENCE (t ++ FENCE ++ x) = true.
Proof.
  intros Ht. unfold FENCE.
  destruct t as [|c1 [|c2 [|c3 t]]]; [done|..]; simpl;
    repeat (case_match; try done).
Qed.

Lemma replace_loop_no_fence fuel s :
  length s <= fuel -> find FENCE (replace_loop fuel FENCE [] s) = None.
Proof.
  revert s. induction fuel as [|fuel IH]; intros s Hfuel.
  - destruct s; [reflexivity | simpl in *; lia].
  - cbn [replace_loop]. destruct (find FENCE s) as [i|] eqn:F; [|done].
    pose proof (find_bound _ _ _ F) as Hb.
    pose proof (find_split _ _ _ F) as Hs.
    apply find_Some in F as [_ Hmin].
    change (length FENCE) with 3 in *.
    set (rest := drop (i + 3) s) in *.
    assert (find FENCE (replace_loop fuel FENCE [] rest) = None) as Hrest.
    { apply IH. unfold rest. rewrite length_drop. lia. }
    apply find_None_intro. intros j. rewrite app_nil_l.
    destruct (decide (i <= j)) as [Hij|Hij].
    + rewrite drop_app_ge by (rewrite length_take; lia).
      by apply find_None.
    + destruct (startswith FENCE
                  (drop j (take i s ++ replace_loop fuel FENCE [] rest)))
        eqn:E; [|done].
      rewrite drop_app_le in E by (rewrite length_take; lia).
      apply (fence_overlap _ _ rest) in E.
      * rewrite <- (Hmin j) by lia. symmetry. rewrite <- E. f_equal.
        rewrite Hs at 1. rewrite drop_app_le by (rewrite length_take; lia).
        done.
      * intros Hnil. apply (f_equal length) in Hnil.
        rewrite length_drop, length_take in Hnil. simpl in Hnil. lia.
Qed.

(** Only backticks are removed. *)
Lemma replace_loop_filter fuel s :
  List.filter (fun c => negb (c =? BACKTICK)%N) (replace_loop fuel FENCE [] s)
  = List.filter (fun c => negb (c =? BACKTICK)%N) s.
Proof.
  revert s. induction fuel as [|fuel IH]; intros s; cbn [replace_loop].
  - by destruct (find FENCE s).
  - destruct (find FENCE s) as [i|] eqn:F; [|done].
    pose proof (find_split _ _ _ F) as Hs.
    set (rest := drop (i + length FENCE) s) in *.
    rewrite Hs at 2. rewrite !List.filter_app, IH. done.
Qed.

Lemma replace_loop_sublist fuel s :
  replace_loop fuel FENCE [] s `sublist_of` s.
Proof.
  revert s. induction fuel as [|fuel IH]; intros s; cbn [replace_loop].
  - by destruct (find FENCE s).
  - destruct (find FENCE s) as [i|] eqn:F; [|done].
    pose proof (find_split _ _ _ F) as Hs.
    set (rest := drop (i + length FENCE) s) in *.
    rewrite Hs at 2.
    apply sublist_app; [done|]. rewrite app_nil_l.
    apply sublist_inserts_l, IH.
Qed.

Lemma bind_Ok {A B} (x : A) (f : A -> result B) : Ok x ≫= f = f x.
Proof. reflexivity. Qed.

Lemma split_Ok sep s :
  sep <> [] -> split sep s = Ok (split_loop (length s) sep s).
Proof. by destruct sep. Qed.

Lemma getitem_Ok {A} (l : list A) i x : l !! i = Some x -> getitem l i = Ok x.
Proof. unfold getitem. by intros ->. Qed.

Lemma split_first sep s :
  sep <> [] ->
  split_loop (length s) sep s !! 0 = Some (before_first sep s).
Proof. intros Hsep. by apply split_loop_head. Qed.

Lemma split_second sep s i :
  sep <> [] -> find sep s = Some i ->
  split_loop (length s) sep s !! 1
  = Some (before_first sep (after_first sep s)).
Proof.
  intros Hsep F. unfold after_first. rewrite F.
  pose proof (find_bound _ _ _ F) as Hb.
  assert (0 < length sep) by (destruct sep; [done | simpl; lia]).
  destruct (length s) as [|n] eqn:Hlen; [lia|].
  cbn [split_loop]. rewrite F.
  rewrite lookup_cons_ne_0 by done. cbn [Nat.pred].
  apply split_loop_head; [done|]. rewrite length_drop. lia.
Qed.

(** What the clean-up computes, path by path. *)
Lemma sanitize_eq content : sanitize content = Ok (code_sanitize content).
Proof.
  unfold sanitize, code_sanitize, contains.
  destruct (find TAG content) as [i|] eqn:F.
  - rewrite split_Ok, bind_Ok by done.
    rewrite (getitem_Ok _ _ _ (split_second TAG content i ltac:(done) F)).
    rewrite bind_Ok, split_Ok, bind_Ok by done.
    rewrite (getitem_Ok _ _ _ (split_first FENCE _ ltac:(done))).
    by rewrite bind_Ok.
  - by destruct (find FENCE content).
Qed.

End SanitizerFacts.

Section SanitizerClaims.
Implicit Types (content s t : list N).

(** An occurrence inside a prefix is an occurrence in the whole text. *)
Lemma startswith_take sub s q j :
  sub <> [] ->
  startswith sub (drop j (take q s)) = true ->
  startswith sub (drop j s) = true /\ j + length sub <= q.
Proof.
  intros Hsub E. pose proof (startswith_length _ _ E) as Hl.
  rewrite length_drop, length_take in Hl.
  assert (0 < length sub) by (destruct sub; [done | simpl; lia]).
  split; [|lia].
  apply startswith_inv in E. eapply startswith_app.
  rewrite <- (take_drop q s) at 1.
  rewrite drop_app_le by (rewrite length_take; lia).
  rewrite E at 1. by rewrite <- app_assoc.
Qed.

(** ... and an occurrence that ends inside the prefix is one of the prefix. *)
Lemma startswith_in_take sub s q j :
  startswith sub (drop j s) = true -> j + length sub <= q ->
  startswith sub (drop j (take q s)) = true.
Proof.
  intros E Hq. apply startswith_inv in E.
  apply (startswith_app sub _
           (take (q - j - length sub) (drop (length sub) (drop j s)))).
  replace q with (j + (q - j)) at 1 by lia.
  rewrite <- take_drop_commute. rewrite E at 1.
  by rewrite take_app_ge by lia.
Qed.

Lemma find_take sub s q p :
  sub <> [] -> find sub s = Some p -> p + length sub <= q ->
  find sub (take q s) = Some p.
Proof.
  intros Hsub [Hp Hmin]%find_Some Hq.
  destruct (find_is_Some sub (take q s) p) as (i & Hi & Hle).
  { by apply startswith_in_take. }
  rewrite Hi. f_equal.
  destruct (decide (i = p)) as [|Hne]; [done|].
  apply find_Some in Hi as [Hi _].
  apply startswith_take in Hi as [Hi _]; [|done].
  rewrite Hmin in Hi; [done | lia].
Qed.

(** Cutting at the next tagged marker first changes the fenced segment only
    when a tagged marker directly follows a backtick. *)
Lemma tagged_body_fenced_segment content :
  contains (BACKTICK :: TAG) content = false ->
  tagged_body content = fenced_segment content.
Proof.
  unfold contains, tagged_body, fenced_segment. intros Hno.
  destruct (find (BACKTICK :: TAG) content) eqn:Hnone; [done|]. clear Hno.
  assert (forall j, startswith (BACKTICK :: TAG) (drop j (after_first TAG content))
                    = false) as Hrest.
  { intros j. unfold after_first. destruct (find TAG content) as [i|].
    - rewrite drop_drop. by apply find_None.
    - by rewrite drop_nil. }
  set (rest := after_first TAG content) in *.
  unfold before_first at 2.
  destruct (find TAG rest) as [q|] eqn:Fq; [|done].
  pose proof (find_bound _ _ _ Fq) as Hbq.
  apply find_Some in Fq as [Hq _].
  destruct (find_is_Some FENCE rest q) as (p & Fp & Hpq).
  { apply startswith_inv in Hq. eapply startswith_app.
    rewrite Hq at 1. rewrite TAG_FENCE, <- app_assoc. done. }
  unfold before_first. rewrite Fp.
  destruct (decide (p + 3 <= q)) as [Hfar|Hnear].
  - rewrite (find_take FENCE rest q p) by done.
    rewrite take_take. f_equal. lia.
  - destruct (decide (p = q)) as [->|Hne].
    + replace (find FENCE (take q rest)) with (@None nat); [done|].
      symmetry. apply find_None_intro. intros j.
      destruct (startswith FENCE (drop j (take q rest))) eqn:E; [|done].
      apply startswith_take in E as [E Hj]; [|done].
      apply find_Some in Fp as [_ Hmin].
      rewrite Hmin in E; [done | simpl in Hj; lia].
    + exfalso. apply find_Some in Fp as [Hp _].
      specialize (Hrest (q - 1)).
      apply startswith_inv in Hp, Hq.
      assert (rest !! (q - 1) = Some BACKTICK) as Hc.
      { rewrite <- (Nat.add_0_r (q - 1)), <- lookup_drop.
        replace (q - 1) with (p + (q - 1 - p)) by lia.
        rewrite <- drop_drop, Hp.
        assert (q - 1 - p = 0 \/ q - 1 - p = 1) as [->| ->] by lia; done. }
      rewrite (drop_S _ _ _ Hc) in Hrest.
      replace (S (q - 1)) with q in Hrest by lia.
      simpl in Hrest. by rewrite Hq in Hrest.
Qed.

(** [strip] removes white space at both ends and nothing else. *)
Lemma lstrip_spec s :
  exists l, s = l ++ lstrip s /\ Forall (fun c => isspace c = true) l.
Proof.
  induction s as [|c s (l & Hl & Hsp)]; [by exists []|].
  simpl. destruct (isspace c) eqn:E.
  - exists (c :: l). split; [by rewrite Hl at 1 | by constructor].
  - by exists [].
Qed.

Lemma strip_spec s :
  exists l r, s = l ++ strip s ++ r
              /\ Forall (fun c => isspace c = true) l
              /\ Forall (fun c => isspace c = true) r.
Proof.
  destruct (lstrip_spec s) as (l & Hl & Hlsp).
  destruct (lstrip_spec (rev (lstrip s))) as (r & Hr & Hrsp).
  exists l, (rev r). split; [|split; [done | by apply List.Forall_rev]].
  unfold strip, rstrip. rewrite Hl at 1. f_equal.
  rewrite <- (rev_involutive (lstrip s)) at 1.
  rewrite Hr at 1. by rewrite rev_app_distr.
Qed.

(** C2, as the specification states it, fails: behind the first tagged
    marker the text [x````json] has its next fence marker right after [x],
    but the code cuts at the next tagged marker first, which starts one
    backtick later, and keeps [x`]. *)
Lemma sanitize_overlap_counterexample :
  sanitize (py "```jsonx````json") = Ok (py "x`")
  /\ spec_sanitize strip (py "```jsonx````json") = py "x"
  /\ sanitize (py "```jsonx````json")
     <> Ok (spec_sanitize strip (py "```jsonx````json"))
  /\ sanitize (py "```jsonx````json")
     <> Ok (spec_sanitize (fun s => s) (py "```jsonx````json")).
Proof. repeat split; vm_compute; congruence. Qed.

(** C2 (amended): exactly one sanitization path is taken, the tagged one
    first.  With a tagged marker, the text behind the first tagged marker is
    cut at the next tagged marker, then at the first fence marker of what is
    left, and stripped of surrounding white space; everything else is
    ignored.  Otherwise, with a fence marker, all fence markers are removed
    and the rest is stripped of surrounding white space.  Otherwise the text
    is unchanged.  Unless a tagged marker directly follows a backtick, the
    tagged path yields the stripped content between the first tagged marker
    and the next fence marker, as specified. *)
Theorem sanitize_precedence content :
  sanitize content
  = Ok (if contains TAG content then strip (tagged_body content)
        else if contains FENCE content then strip (without_fences content)
        else content)
  /\ (contains (BACKTICK :: TAG) content = false ->
      sanitize content = Ok (spec_sanitize strip content)).
Proof.
  split; [apply sanitize_eq|].
  intros Hno. rewrite sanitize_eq. unfold code_sanitize, spec_sanitize.
  by rewrite tagged_body_fenced_segment.
Qed.

Lemma sanitize_precedence_witness :
  contains (BACKTICK :: TAG) (py "Sure: ```json {} ``` and ``` more") = false
  /\ sanitize (py "Sure: ```json {} ``` and ``` more")
     = Ok (spec_sanitize strip (py "Sure: ```json {} ``` and ``` more")).
Proof.
  split; [reflexivity|].
  apply (proj2 (sanitize_precedence (py "Sure: ```json {} ``` and ``` more"))).
  reflexivity.
Defined.

End SanitizerClaims.

(** ** Validation and serialization *)

Section SchemaFacts.
Implicit Types (d : gmap (list N) json) (loc : list loc_item) (j : json).

(** Look-ups in a dict literal with literal keys are computed. *)
Ltac eval_lookups :=
  repeat match goal with
  | |- context [ @lookup ?K ?A ?M ?I ?k (dict_of ?kvs) ] =>
      let r := eval vm_compute in (@lookup K A M I k (dict_of kvs)) in
      replace (@lookup K A M I k (dict_of kvs)) with r
        by (vm_compute; reflexivity)
  end.

Lemma VendorInfo_roundtrip loc x :
  validate_model VendorInfo_validate loc (VendorInfo_dump x) = Valid x.
Proof.
  destruct x as [o1 o2 o3 o4 o5 o6].
  unfold VendorInfo_dump, validate_model, VendorInfo_validate, with_default.
  cbn [name_english name_nepali vendor_address phone email vendor_vat_number].
  destruct o1, o2, o3, o4, o5, o6; cbn [dump_optional_str];
    eval_lookups; reflexivity.
Qed.

Lemma CustomerInfo_roundtrip loc x :
  validate_model CustomerInfo_validate loc (CustomerInfo_dump x) = Valid x.
Proof.
  destruct x as [o1 o2 o3].
  unfold CustomerInfo_dump, validate_model, CustomerInfo_validate, with_default.
  cbn [name customer_address customer_vat_number].
  destruct o1, o2, o3; cbn [dump_optional_str]; eval_lookups; reflexivity.
Qed.

Lemma Summary_roundtrip loc x :
  validate_model Summary_validate loc (Summary_dump x) = Valid x.
Proof.
  destruct x as [o1 o2 o3 o4 o5 o6 stamp].
  unfold Summary_dump, validate_model, Summary_validate, with_default, required.
  cbn [subtotal tax_amount tax_rate_percent discount_amount total_amount_due
       amount_in_words has_company_stamp].
  destruct o1, o2, o3, o4, o5, o6; cbn [dump_optional_str];
    eval_lookups; reflexivity.
Qed.

Lemma InvoiceItem_roundtrip loc x :
  validate_model InvoiceItem_validate loc (InvoiceItem_dump x) = Valid x.
Proof.
  destruct x as [desc o1 o2 o3].
  unfold InvoiceItem_dump, validate_model, InvoiceItem_validate, with_default,
    required.
  cbn [description quantity unit_price total_price].
  destruct o1, o2, o3; cbn [dump_optional_str]; eval_lookups; reflexivity.
Qed.

Lemma line_items_roundtrip loc i (l : list InvoiceItem) :
  validate_elements (validate_model InvoiceItem_validate) loc i
    (map InvoiceItem_dump l) = Valid l.
Proof.
  revert i. induction l as [|x l IH]; intros i; [done|].
  cbn [map validate_elements]. by rewrite InvoiceItem_roundtrip, IH.
Qed.

Lemma InvoiceData_roundtrip data : model_validate (model_dump data) = Valid data.
Proof.
  destruct data as [o1 o2 o3 o4 o5 v c l s].
  unfold model_validate, model_dump, validate_model, InvoiceData_validate,
    with_default, required.
  cbn [invoice_number transaction_number reference_number invoice_date_ad
       invoice_miti_bs vendor_info customer_info line_items summary].
  pose proof (VendorInfo_roundtrip [LKey (py "vendor_info")] v) as Hv.
  pose proof (CustomerInfo_roundtrip [LKey (py "customer_info")] c) as Hc.
  pose proof (line_items_roundtrip [LKey (py "line_items")] 0 l) as Hl.
  pose proof (Summary_roundtrip [LKey (py "summary")] s) as Hs.
  remember (VendorInfo_dump v) as jv eqn:Ejv.
  remember (CustomerInfo_dump c) as jc eqn:Ejc.
  remember (map InvoiceItem_dump l) as jl eqn:Ejl.
  remember (Summary_dump s) as js eqn:Ejs.
  clear Ejv Ejc Ejl Ejs.
  destruct o1, o2, o3, o4, o5; cbn [dump_optional_str]; eval_lookups;
    cbn [app validate_optional_str validate_list];
    rewrite Hv, Hc, Hl, Hs; reflexivity.
Qed.

(** *** Completeness of the serialized record *)

Lemma InvoiceItem_dump_keys x : has_keys InvoiceItem_fields (InvoiceItem_dump x) = true.
Proof. destruct x. vm_compute. reflexivity. Qed.

Lemma VendorInfo_dump_keys x : has_keys VendorInfo_fields (VendorInfo_dump x) = true.
Proof. destruct x. vm_compute. reflexivity. Qed.

Lemma CustomerInfo_dump_keys x :
  has_keys CustomerInfo_fields (CustomerInfo_dump x) = true.
Proof. destruct x. vm_compute. reflexivity. Qed.

Lemma Summary_dump_keys x : has_keys Summary_fields (Summary_dump x) = true.
Proof. destruct x. vm_compute. reflexivity. Qed.

Lemma model_dump_complete data : schema_complete (model_dump data) = true.
Proof.
  destruct data as [o1 o2 o3 o4 o5 v c l s].
  unfold schema_complete, model_dump, at_key.
  cbn [invoice_number transaction_number reference_number invoice_date_ad
       invoice_miti_bs vendor_info customer_info line_items summary].
  pose proof (VendorInfo_dump_keys v) as Hv.
  pose proof (CustomerInfo_dump_keys c) as Hc.
  pose proof (Summary_dump_keys s) as Hs.
  assert (forallb (has_keys InvoiceItem_fields) (map InvoiceItem_dump l) = true)
    as Hl.
  { induction l as [|x l IH]; [done|].
    cbn [map forallb]. by rewrite InvoiceItem_dump_keys, IH. }
  remember (VendorInfo_dump v) as jv eqn:Ejv.
  remember (CustomerInfo_dump c) as jc eqn:Ejc.
  remember (map InvoiceItem_dump l) as jl eqn:Ejl.
  remember (Summary_dump s) as js eqn:Ejs.
  clear Ejv Ejc Ejl Ejs.
  eval_lookups. cbn [each_element]. rewrite Hv, Hc, Hl, Hs.
  vm_compute. reflexivity.
Qed.

(** *** Missing keys *)

Lemma vap_invalid_r {A B} (f : validation (A -> B)) (x : validation A) :
  (exists errors, x = Invalid errors) ->
  exists errors, f <*> x = Invalid errors.
Proof. intros [e ->]. destruct f; simpl; eauto. Qed.

Lemma vap_invalid_l {A B} (f : validation (A -> B)) (x : validation A) :
  (exists errors, f = Invalid errors) ->
  exists errors, f <*> x = Invalid errors.
Proof. intros [e ->]. destruct x; simpl; eauto. Qed.

(** The field whose key is missing by [H] is required: find it in the chain
    of fields. *)
Ltac invalid_field H :=
  repeat first
    [ apply vap_invalid_r; unfold required; rewrite H; by eexists
    | apply vap_invalid_l ].

Lemma required_key_missing d key :
  key ∈ InvoiceData_required -> d !! key = None ->
  exists errors, model_validate (JDict d) = Invalid errors.
Proof.
  intros Hkey H. unfold model_validate, validate_model, InvoiceData_validate.
  unfold InvoiceData_required in Hkey.
  repeat (apply elem_of_cons in Hkey as [->|Hkey]);
    [..|by apply elem_of_nil in Hkey]; invalid_field H.
Qed.

Lemma stamp_missing d s :
  d !! py "summary" = Some (JDict s) -> s !! py "has_company_stamp" = None ->
  exists errors, model_validate (JDict d) = Invalid errors.
Proof.
  intros Hs H. unfold model_validate, validate_model, InvoiceData_validate.
  apply vap_invalid_r. unfold required at 1. rewrite Hs.
  unfold Summary_validate. invalid_field H.
Qed.

Lemma element_invalid {A} (v : list loc_item -> json -> validation A)
    loc n (items : list json) i j :
  items !! i = Some j ->
  (forall loc', exists errors, v loc' j = Invalid errors) ->
  exists errors, validate_elements v loc n items = Invalid errors.
Proof.
  revert n i. induction items as [|x items IH]; intros n i Hi Hj; [done|].
  cbn [validate_elements]. destruct i as [|i].
  - injection Hi as ->. apply vap_invalid_l, vap_invalid_r, Hj.
  - apply vap_invalid_r. by apply (IH _ i).
Qed.

Lemma description_missing d items i item :
  d !! py "line_items" = Some (JList items) ->
  items !! i = Some (JDict item) ->
  item !! py "description" = None ->
  exists errors, model_validate (JDict d) = Invalid errors.
Proof.
  intros Hl Hi H. unfold model_validate, validate_model, InvoiceData_validate.
  apply vap_invalid_l, vap_invalid_r. unfold required at 1. rewrite Hl.
  apply (element_invalid _ _ _ _ i (JDict item)); [done|].
  intros loc'. unfold InvoiceItem_validate. invalid_field H.
Qed.

(** *** Omitted optional keys *)

(** Decide the key comparisons left by [lookup_insert]. *)
Ltac key_cases :=
  repeat match goal with
  | |- context [decide (?a = ?b)] =>
      let E := fresh "E" in
      destruct (decide (a = b)) as [E|E];
      [ try (exfalso; vm_compute in E; discriminate E)
      | try (exfalso; apply E; reflexivity) ]
  end.

(** For a field with the default [None], an omitted key and an explicit
    [null] validate alike. *)
Ltac omitted_is_null Hkey H :=
  unfold with_default, required;
  repeat (apply elem_of_cons in Hkey as [->|Hkey]);
  [..|by apply elem_of_nil in Hkey];
  rewrite !lookup_insert; key_cases; rewrite H; reflexivity.

Lemma InvoiceData_omitted loc d key :
  key ∈ InvoiceData_optional -> d !! key = None ->
  InvoiceData_validate loc (<[key := JNull]> d) = InvoiceData_validate loc d.
Proof.
  intros Hkey H. unfold InvoiceData_validate, InvoiceData_optional in *.
  omitted_is_null Hkey H.
Qed.

Lemma VendorInfo_omitted loc d key :
  key ∈ VendorInfo_fields -> d !! key = None ->
  VendorInfo_validate loc (<[key := JNull]> d) = VendorInfo_validate loc d.
Proof.
  intros Hkey H. unfold VendorInfo_validate, VendorInfo_fields in *.
  omitted_is_null Hkey H.
Qed.

Lemma CustomerInfo_omitted loc d key :
  key ∈ CustomerInfo_fields -> d !! key = None ->
  CustomerInfo_validate loc (<[key := JNull]> d) = CustomerInfo_validate loc d.
Proof.
  intros Hkey H. unfold CustomerInfo_validate, CustomerInfo_fields in *.
  omitted_is_null Hkey H.
Qed.

Lemma Summary_omitted loc d key :
  key ∈ Summary_optional -> d !! key = None ->
  Summary_validate loc (<[key := JNull]> d) = Summary_validate loc d.
Proof.
  intros Hkey H. unfold Summary_validate, Summary_optional in *.
  omitted_is_null Hkey H.
Qed.

Lemma InvoiceItem_omitted loc d key :
  key ∈ InvoiceItem_optional -> d !! key = None ->
  InvoiceItem_validate loc (<[key := JNull]> d) = InvoiceItem_validate loc d.
Proof.
  intros Hkey H. unfold InvoiceItem_validate, InvoiceItem_optional in *.
  omitted_is_null Hkey H.
Qed.

End SchemaFacts.

Section SchemaClaims.

(** C1, as the specification states it, fails: a parsed object that omits
    every optional key is accepted, and the omitted values are supplied as
    [None]. *)
Lemma omitted_key_accepted_counterexample :
  Forall (fun key => minimal_invoice !! key = None) InvoiceData_optional
  /\ exists data,
       model_validate (JDict minimal_invoice) = Valid data
       /\ invoice_number data = None.
Proof.
  split.
  - unfold InvoiceData_optional. repeat constructor.
  - eexists. split; vm_compute; reflexivity.
Qed.

(** C1 (amended): a validated record, serialized, has every declared key of
    [InvoiceData] and of the nested models; a parsed object that omits a key
    declared without a default ([vendor_info], [customer_info], [line_items],
    [summary], the [description] of a line item, the [has_company_stamp] of
    the summary) fails validation; a key declared with the default [None]
    may be omitted, and validation then goes as if it were [null]. *)
Theorem schema_completeness :
  (forall raw_json data,
     model_validate raw_json = Valid data ->
     schema_complete (model_dump data) = true)
  /\ (forall d key,
        key ∈ InvoiceData_required -> d !! key = None ->
        exists errors, model_validate (JDict d) = Invalid errors)
  /\ (forall (d s : gmap (list N) json),
        d !! py "summary" = Some (JDict s) ->
        s !! py "has_company_stamp" = None ->
        exists errors, model_validate (JDict d) = Invalid errors)
  /\ (forall (d : gmap (list N) json) items i (item : gmap (list N) json),
        d !! py "line_items" = Some (JList items) ->
        items !! i = Some (JDict item) ->
        item !! py "description" = None ->
        exists errors, model_validate (JDict d) = Invalid errors)
  /\ (forall loc (d : gmap (list N) json) key,
        d !! key = None ->
        (key ∈ InvoiceData_optional ->
         InvoiceData_validate loc (<[key := JNull]> d)
         = InvoiceData_validate loc d)
        /\ (key ∈ VendorInfo_fields ->
            VendorInfo_validate loc (<[key := JNull]> d)
            = VendorInfo_validate loc d)
        /\ (key ∈ CustomerInfo_fields ->
            CustomerInfo_validate loc (<[key := JNull]> d)
            = CustomerInfo_validate loc d)
        /\ (key ∈ Summary_optional ->
            Summary_validate loc (<[key := JNull]> d)
            = Summary_validate loc d)
        /\ (key ∈ InvoiceItem_optional ->
            InvoiceItem_validate loc (<[key := JNull]> d)
            = InvoiceItem_validate loc d)).
Proof.
  split; [intros _ data _; apply model_dump_complete|].
  split; [apply required_key_missing|].
  split; [apply stamp_missing|].
  split; [apply description_missing|].
  intros loc d key H.
  repeat split; intros Hkey.
  - by apply InvoiceData_omitted.
  - by apply VendorInfo_omitted.
  - by apply CustomerInfo_omitted.
  - by apply Summary_omitted.
  - by apply InvoiceItem_omitted.
Qed.

Lemma schema_completeness_witness :
  (model_validate (JDict minimal_invoice) = Valid Sample.minimal_data
   /\ schema_complete (model_dump Sample.minimal_data) = true)
  /\ (Sample.no_summary !! py "summary" = None
      /\ exists errors, model_validate (JDict Sample.no_summary) = Invalid errors)
  /\ (Sample.no_stamp !! py "summary" = Some (JDict (dict_of []))
      /\ exists errors, model_validate (JDict Sample.no_stamp) = Invalid errors)
  /\ (exists errors,
        model_validate (JDict Sample.no_description) = Invalid errors)
  /\ (minimal_invoice !! py "invoice_number" = None
      /\ model_validate (JDict (<[py "invoice_number" := JNull]> minimal_invoice))
         = model_validate (JDict minimal_invoice))
  /\ VendorInfo_validate [] (<[py "phone" := JNull]> (dict_of []))
     = VendorInfo_validate [] (dict_of [])
  /\ CustomerInfo_validate [] (<[py "name" := JNull]> (dict_of []))
     = CustomerInfo_validate [] (dict_of [])
  /\ Summary_validate [] (<[py "subtotal" := JNull]> (dict_of []))
     = Summary_validate [] (dict_of [])
  /\ InvoiceItem_validate [] (<[py "quantity" := JNull]> (dict_of []))
     = InvoiceItem_validate [] (dict_of []).
Proof.
  destruct schema_completeness as (H1 & H2 & H3 & H4 & H5).
  split; [split; [reflexivity|]|].
  { apply (H1 (JDict minimal_invoice)). reflexivity. }
  split; [split; [reflexivity|]|].
  { apply (H2 Sample.no_summary (py "summary")); [|reflexivity].
    unfold InvoiceData_required. repeat constructor. }
  split; [split; [reflexivity|]|].
  { apply (H3 Sample.no_stamp (dict_of [])); reflexivity. }
  split.
  { apply (H4 Sample.no_description
              [JDict (dict_of [(py "quantity", JStr (py "2"))])] 0
              (dict_of [(py "quantity", JStr (py "2"))])); reflexivity. }
  split; [split; [reflexivity|]|].
  { apply (proj1 (H5 [] minimal_invoice (py "invoice_number") eq_refl)).
    unfold InvoiceData_optional. repeat constructor. }
  split.
  { apply (proj1 (proj2 (H5 [] (dict_of []) (py "phone") eq_refl))).
    unfold VendorInfo_fields. repeat constructor. }
  split.
  { apply (proj1 (proj2 (proj2 (H5 [] (dict_of []) (py "name") eq_refl)))).
    unfold CustomerInfo_fields. repeat constructor. }
  split.
  { apply (proj1 (proj2 (proj2 (proj2
             (H5 [] (dict_of []) (py "subtotal") eq_refl))))).
    unfold Summary_optional. repeat constructor. }
  apply (proj2 (proj2 (proj2 (proj2
           (H5 [] (dict_of []) (py "quantity") eq_refl))))).
  unfold InvoiceItem_optional. repeat constructor.
Defined.

(** C4: serializing a record for persistence and validating the stored
    content again gives back the record; this holds for the content of the
    row [create_invoice_log] writes. *)
Theorem persisted_roundtrip :
  (forall data, model_validate (model_dump data) = Valid data)
  /\ (forall env filename file_bytes data w row w',
        create_invoice_log env filename file_bytes data w = (Ok row, w') ->
        row ∈ invoice_logs w'
        /\ extracted_schema_content row = model_dump data
        /\ model_validate (extracted_schema_content row) = Valid data).
Proof.
  split; [apply InvoiceData_roundtrip|].
  intros env filename file_bytes data w row w'.
  unfold create_invoice_log. destruct (commit_error _ _); [done|].
  intros [= <- <-]. cbn [invoice_logs extracted_schema_content].
  split; [apply elem_of_app; right; by constructor|].
  split; [done | apply InvoiceData_roundtrip].
Qed.

Lemma persisted_roundtrip_witness :
  exists row w',
    create_invoice_log (Sample.env Sample.good_answer) (py "scan.png") []
      Sample.minimal_data Sample.empty_world = (Ok row, w')
    /\ row ∈ invoice_logs w'
    /\ model_validate (extracted_schema_content row) = Valid Sample.minimal_data.
Proof.
  eexists _, _. split; [reflexivity|].
  destruct (proj2 persisted_roundtrip (Sample.env Sample.good_answer)
              (py "scan.png") [] Sample.minimal_data Sample.empty_world
              _ _ eq_refl) as (Hin & _ & Hrt).
  split; [exact Hin | exact Hrt].
Defined.

End SchemaClaims.

(** ** The handlers *)

Section PipelineFacts.
Context (env : Env).
Implicit Types (w : world) (img : image).

Lemma same_table_refl w : same_table w w.
Proof. done. Qed.

Lemma same_table_log ev w w' : same_table w w' -> same_table w (log_event ev w').
Proof. done. Qed.

(** [pdf_to_images], flattened. *)
Lemma pdf_to_images_run file_bytes w :
  pdf_to_images env file_bytes w
  = (match convert_from_bytes env file_bytes with
     | Ok images => Ok images
     | Raise e =>
         Raise (Exc ValueError
                  (py "Failed to convert PDF to image: " ++ str_exn env e))
     end,
     log_event (PdfRender file_bytes) w).
Proof.
  unfold pdf_to_images, try_except, call, raise.
  by destruct (convert_from_bytes env file_bytes).
Qed.

(** [process_invoice_with_vllm], flattened: the outcome and the journal at
    every exit. *)
Lemma process_run img w :
  process_invoice_with_vllm env img w
  = match encode_image_to_base64 env img with
    | Raise e => (Raise e, w)
    | Ok base64_image =>
        let request := payload env (get_system_prompt env) base64_image in
        let w1 := log_event (HttpPost (completions_url env) request) w in
        match chat_completion env (completions_url env) request with
        | Raise e => (Raise (processing_error env e), w1)
        | Ok content =>
            let text := code_sanitize content in
            let w2 := log_event (JsonLoads text) w1 in
            match json_loads env text with
            | Raise e =>
                (Raise (processing_error env
                          (if is_class JSONDecodeError e
                           then Exc ValueError
                                  (py "Model did not return valid JSON: "
                                   ++ text)
                           else e)),
                 w2)
            | Ok raw_json =>
                match model_validate raw_json with
                | Valid validated_data => (Ok validated_data, w2)
                | Invalid errors =>
                    (Raise (processing_error env
                              (Exc ValidationError
                                 (validation_error_str env errors))),
                     w2)
                end
            end
        end
    end.
Proof.
  unfold process_invoice_with_vllm, mbind, M_bind, lift.
  destruct (encode_image_to_base64 env img) as [b64|e]; [|done].
  unfold try_except, call, raise, parse_json, validate, try_except, call, raise.
  destruct (chat_completion env _ _) as [content|e]; [|done].
  rewrite sanitize_eq.
  destruct (json_loads env (code_sanitize content)) as [j|e].
  - by destruct (model_validate j).
  - by destruct (is_class JSONDecodeError e).
Qed.

Lemma process_same_table img w :
  same_table w (snd (process_invoice_with_vllm env img w)).
Proof.
  rewrite process_run. unfold same_table. repeat case_match; done.
Qed.

(** [load_image], flattened. *)
Lemma load_image_run content_type content w :
  load_image env content_type content w
  = match content_type with
    | None =>
        (Raise (Exc TypeError (py "argument of type 'NoneType' is not iterable")),
         w)
    | Some ct =>
        if contains (py "application/pdf") ct then
          (match convert_from_bytes env content with
           | Ok [] => Raise (HTTPException 400 (py "Empty PDF file"))
           | Ok (first :: _) => Ok first
           | Raise e =>
               Raise (Exc ValueError
                        (py "Failed to convert PDF to image: "
                         ++ str_exn env e))
           end,
           log_event (PdfRender content) w)
        else if contains (py "image") ct then
          (image_open env content, log_event (ImageOpen content) w)
        else
          (Raise (HTTPException 400
                    (py "Unsupported file type. Use PDF or Image.")),
           w)
    end.
Proof.
  unfold load_image. destruct content_type as [ct|]; [|done].
  destruct (contains (py "application/pdf") ct).
  - unfold mbind, M_bind. rewrite pdf_to_images_run.
    by destruct (convert_from_bytes env content) as [[|first rest]|e].
  - by destruct (contains (py "image") ct).
Qed.

Lemma load_image_same_table content_type content w :
  same_table w (snd (load_image env content_type content w)).
Proof.
  rewrite load_image_run. unfold same_table. repeat case_match; done.
Qed.

(** [upload_invoice] on a named file, flattened. *)
Lemma upload_run file c filename w :
  UploadFile.filename file = Some (c :: filename) ->
  upload_invoice env file w
  = match load_image env (UploadFile.content_type file)
            (UploadFile.content file) w with
    | (Raise e, w1) => (Raise (internal_error env e), w1)
    | (Ok pil_image, w1) =>
        match process_invoice_with_vllm env pil_image w1 with
        | (Raise e, w2) => (Raise (internal_error env e), w2)
        | (Ok validated_data, w2) =>
            match create_invoice_log env (c :: filename)
                    (UploadFile.content file) validated_data w2 with
            | (Raise e, w3) => (Raise (internal_error env e), w3)
            | (Ok log_record, w3) =>
                (Ok {| message := py "Success";
                       log_id := id log_record;
                       data := validated_data |},
                 w3)
            end
        end
    end.
Proof.
  intros Hname. unfold upload_invoice. rewrite Hname.
  unfold try_except, mbind, M_bind, raise, mret, M_ret.
  destruct (load_image env _ _ w) as [[pil_image|e] w1]; [|done].
  destruct (process_invoice_with_vllm env pil_image w1) as [[d|e] w2]; [|done].
  by destruct (create_invoice_log env _ _ d w2) as [[row|e] w3].
Qed.

(** [create_invoice_log]: a row is appended on success, nothing changes in
    the table on failure. *)
Lemma create_invoice_log_run filename file_bytes data w :
  let db_log :=
    {| id := next_id w; filename := filename; file_content := file_bytes;
       extracted_schema_content := model_dump data; created_at := now w |} in
  (create_invoice_log env filename file_bytes data w
   = (Ok db_log,
      {| invoice_logs := invoice_logs w ++ [db_log];
         next_id := next_id w + 1; now := now w;
         journal := journal w ++ [DbInsert db_log] |})
   /\ commit_error env db_log = None)
  \/ (exists e,
        create_invoice_log env filename file_bytes data w
        = (Raise e, log_event (DbInsert db_log) w)
        /\ commit_error env db_log = Some e).
Proof.
  unfold create_invoice_log. cbn zeta.
  destruct (commit_error env _) as [e|]; [right; by exists e | by left].
Qed.

(** A successful extraction went through every step. *)
Lemma process_Ok img w data w' :
  process_invoice_with_vllm env img w = (Ok data, w') ->
  exists base64_image content text raw_json,
    encode_image_to_base64 env img = Ok base64_image
    /\ chat_completion env (completions_url env)
         (payload env (get_system_prompt env) base64_image) = Ok content
    /\ sanitize content = Ok text
    /\ json_loads env text = Ok raw_json
    /\ model_validate raw_json = Valid data.
Proof.
  rewrite process_run.
  destruct (encode_image_to_base64 env img) as [b64|]; [|done].
  cbn zeta.
  destruct (chat_completion env _ _) as [content|] eqn:Hchat; [|done].
  destruct (json_loads env _) as [j|] eqn:Hj; [|done].
  destruct (model_validate j) as [d|] eqn:Hd; [|done].
  intros [= <- <-]. exists b64, content, (code_sanitize content), j.
  by rewrite sanitize_eq.
Qed.

End PipelineFacts.

Section PipelineClaims.
Context (env : Env).

(** C3: an upload that fails, at whatever step, leaves the table as it was;
    and the record an accepted upload returns is the one validation produced
    from the parsed answer of the model, never a substitute. *)
Theorem upload_all_or_nothing (file : UploadFile.t) (w : world) :
  match upload_invoice env file w with
  | (Raise _, w') => invoice_logs w' = invoice_logs w
  | (Ok response, w') =>
      exists pil_image w1 base64_image content text raw_json,
        load_image env (UploadFile.content_type file)
          (UploadFile.content file) w = (Ok pil_image, w1)
        /\ encode_image_to_base64 env pil_image = Ok base64_image
        /\ chat_completion env (completions_url env)
             (payload env (get_system_prompt env) base64_image) = Ok content
        /\ sanitize content = Ok text
        /\ json_loads env text = Ok raw_json
        /\ model_validate raw_json = Valid (data response)
  end.
Proof.
  destruct (UploadFile.filename file) as [[|c filename]|] eqn:Hname;
    [unfold upload_invoice; by rewrite Hname| |
     unfold upload_invoice; by rewrite Hname].
  rewrite (upload_run env file c filename w Hname).
  pose proof (load_image_same_table env (UploadFile.content_type file)
                (UploadFile.content file) w) as [Hload _].
  destruct (load_image env _ _ w) as [[pil_image|e] w1] eqn:Himg; [|done].
  pose proof (process_same_table env pil_image w1) as [Hproc _].
  destruct (process_invoice_with_vllm env pil_image w1)
    as [[validated_data|e] w2] eqn:Hrun; simpl in *; [|congruence].
  destruct (create_invoice_log_run env (c :: filename)
              (UploadFile.content file) validated_data w2)
    as [[-> _]|(e & -> & _)]; [|simpl; congruence].
  apply process_Ok in Hrun as (b64 & content & text & j & Hsteps).
  by exists pil_image, w1, b64, content, text, j.
Qed.

(** C6, as the specification states it, fails: a content type that names
    a vector image indicates neither a paginated document nor a raster
    image, yet it holds the text [image]: the bytes are handed to Pillow
    for decoding, and the upload fails with Pillow's error under status
    500, not with the unsupported-type error. *)
Lemma vector_image_decoded_counterexample :
  contains (py "application/pdf") (py "image/svg+xml") = false
  /\ upload_invoice (Sample.env Sample.good_answer) Sample.svg_upload
       Sample.empty_world
     = (Raise (HTTPException 500
                 (py "Internal Server Error: cannot identify image file")),
        log_event (ImageOpen Sample.svg_bytes) Sample.empty_world).
Proof. split; vm_compute; reflexivity. Qed.

(** C6 (amended): the code tells the formats apart by two substring tests
    on the declared content type.  An upload whose content type holds
    neither [application/pdf] nor [image] fails with the unsupported-type
    error before any library is called to decode it (the journal is
    untouched); a content type that holds [application/pdf] and renders no
    page fails with the empty-document error; a content type that holds
    [image] and not [application/pdf] is handed to Pillow, whatever format
    it names, and a failure of Pillow is the error of the upload.  The
    errors are raised in the normalization step of [upload_invoice] and
    leave it through its handler, which reports them under status 500 with
    [str] of the original exception in the detail. *)
Theorem unsupported_and_empty_uploads
    (file : UploadFile.t) c filename content_type (w : world) :
  UploadFile.filename file = Some (c :: filename) ->
  UploadFile.content_type file = Some content_type ->
  (contains (py "application/pdf") content_type = false ->
   contains (py "image") content_type = false ->
   load_image env (Some content_type) (UploadFile.content file) w
   = (Raise (HTTPException 400
               (py "Unsupported file type. Use PDF or Image.")),
      w)
   /\ upload_invoice env file w
      = (Raise (HTTPException 500
                  (py "Internal Server Error: "
                   ++ http_exception_str env 400
                        (py "Unsupported file type. Use PDF or Image."))),
         w))
  /\ (contains (py "application/pdf") content_type = true ->
      convert_from_bytes env (UploadFile.content file) = Ok [] ->
      load_image env (Some content_type) (UploadFile.content file) w
      = (Raise (HTTPException 400 (py "Empty PDF file")),
         log_event (PdfRender (UploadFile.content file)) w)
      /\ upload_invoice env file w
         = (Raise (HTTPException 500
                     (py "Internal Server Error: "
                      ++ http_exception_str env 400 (py "Empty PDF file"))),
            log_event (PdfRender (UploadFile.content file)) w))
  /\ (contains (py "application/pdf") content_type = false ->
      contains (py "image") content_type = true ->
      load_image env (Some content_type) (UploadFile.content file) w
      = (image_open env (UploadFile.content file),
         log_event (ImageOpen (UploadFile.content file)) w)
      /\ forall e,
           image_open env (UploadFile.content file) = Raise e ->
           upload_invoice env file w
           = (Raise (HTTPException 500
                       (py "Internal Server Error: " ++ str_exn env e)),
              log_event (ImageOpen (UploadFile.content file)) w)).
Proof.
  intros Hname Htype.
  rewrite (upload_run env file c filename w Hname), !load_image_run, Htype.
  split; [|split].
  - by intros -> ->.
  - by intros -> ->.
  - intros -> ->. split; [done|]. by intros e ->.
Qed.

(** C7: an accepted upload appends one row whose [file_content] is the
    uploaded content, byte for byte, under the uploaded file name; for a PDF
    the model saw the first rendered page only, the row holds the whole
    document. *)
Theorem upload_persists_exact_bytes
    (file : UploadFile.t) (w w' : world) (response : UploadResponse) :
  upload_invoice env file w = (Ok response, w') ->
  (exists row,
     invoice_logs w' = invoice_logs w ++ [row]
     /\ file_content row = UploadFile.content file
     /\ UploadFile.filename file = Some (filename row)
     /\ id row = log_id response
     /\ extracted_schema_content row = model_dump (data response))
  /\ (forall content_type,
        UploadFile.content_type file = Some content_type ->
        contains (py "application/pdf") content_type = true ->
        exists first rest w2,
          convert_from_bytes env (UploadFile.content file) = Ok (first :: rest)
          /\ process_invoice_with_vllm env first
               (log_event (PdfRender (UploadFile.content file)) w)
             = (Ok (data response), w2)).
Proof.
  destruct (UploadFile.filename file) as [[|c filename]|] eqn:Hname;
    [unfold upload_invoice; by rewrite Hname| |
     unfold upload_invoice; by rewrite Hname].
  rewrite (upload_run env file c filename w Hname).
  pose proof (load_image_same_table env (UploadFile.content_type file)
                (UploadFile.content file) w) as [Hload _].
  destruct (load_image env _ _ w) as [[pil_image|e] w1] eqn:Himg; [|done].
  pose proof (process_same_table env pil_image w1) as [Hproc _].
  destruct (process_invoice_with_vllm env pil_image w1)
    as [[validated_data|e] w2] eqn:Hrun; [|done].
  destruct (create_invoice_log_run env (c :: filename)
              (UploadFile.content file) validated_data w2)
    as [[-> _]|(e & -> & _)]; [|done].
  intros [= <- <-]. simpl in *. split.
  - eexists. split; [by rewrite Hproc, Hload|done].
  - intros content_type Htype Hpdf.
    rewrite load_image_run, Htype, Hpdf in Himg.
    destruct (convert_from_bytes env _) as [[|first rest]|]; try done.
    injection Himg as <- <-. by exists first, rest, w2.
Qed.

(** C8, as the specification states it, fails: the answer is nested
    deeper than the parser descends, [json.loads] gives up with a
    [RecursionError], which is no [JSONDecodeError], and the error of the
    extraction carries the message of that exception and nothing of the
    text. *)
Lemma parser_gives_up_counterexample :
  sanitize Sample.deep_text = Ok Sample.deep_text
  /\ json_loads Sample.deep_env Sample.deep_text
     = Raise Sample.recursion_error
  /\ fst (process_invoice_with_vllm Sample.deep_env (Image 0)
            Sample.empty_world)
     = Raise (Exc RuntimeError
                (py "Processing error: maximum recursion depth exceeded while decoding a JSON array from a unicode string"))
  /\ contains Sample.deep_text
       (py "Processing error: maximum recursion depth exceeded while decoding a JSON array from a unicode string")
     = false.
Proof. repeat split; vm_compute; reflexivity. Qed.

(** C8 (amended): when [json.loads] refuses the cleaned-up answer with a
    [JSONDecodeError], parsing fails with an error whose message quotes the
    whole text that failed to parse; extraction re-raises it with that
    message, and the upload hands the message on in the detail of its error
    response; the table is left as it was.  When [json.loads] fails with
    another exception, the error of the extraction and of the upload
    carries [str] of that exception instead, without the text, behind
    [Processing error: ] (behind [API Request failed: ] if the exception
    were a transport error); the table is left as it was. *)
Theorem malformed_response_reported
    (img : image) (w : world) base64_image content text e :
  encode_image_to_base64 env img = Ok base64_image ->
  chat_completion env (completions_url env)
    (payload env (get_system_prompt env) base64_image) = Ok content ->
  sanitize content = Ok text ->
  json_loads env text = Raise e ->
  (is_class JSONDecodeError e = true ->
   (forall w',
      parse_json env text w'
      = (Raise (Exc ValueError
                  (py "Model did not return valid JSON: " ++ text)),
         log_event (JsonLoads text) w'))
   /\ fst (process_invoice_with_vllm env img w)
      = Raise (Exc RuntimeError
                 (py "Processing error: Model did not return valid JSON: "
                  ++ text))
   /\ JsonLoads text ∈ journal (snd (process_invoice_with_vllm env img w))
   /\ forall (file : UploadFile.t) c filename w0,
        UploadFile.filename file = Some (c :: filename) ->
        load_image env (UploadFile.content_type file)
          (UploadFile.content file) w0 = (Ok img, w) ->
        fst (upload_invoice env file w0)
        = Raise (HTTPException 500
                   (py "Internal Server Error: Processing error: Model did not return valid JSON: "
                    ++ text))
        /\ invoice_logs (snd (upload_invoice env file w0)) = invoice_logs w0)
  /\ (is_class JSONDecodeError e = false ->
      let prefix :=
        if is_class RequestError e then py "API Request failed: "
        else py "Processing error: " in
      fst (process_invoice_with_vllm env img w)
      = Raise (Exc RuntimeError (prefix ++ str_exn env e))
      /\ JsonLoads text ∈ journal (snd (process_invoice_with_vllm env img w))
      /\ forall (file : UploadFile.t) c filename w0,
           UploadFile.filename file = Some (c :: filename) ->
           load_image env (UploadFile.content_type file)
             (UploadFile.content file) w0 = (Ok img, w) ->
           fst (upload_invoice env file w0)
           = Raise (HTTPException 500
                      (py "Internal Server Error: " ++ prefix
                       ++ str_exn env e))
           /\ invoice_logs (snd (upload_invoice env file w0))
              = invoice_logs w0).
Proof.
  intros Henc Hchat Htext Hloads.
  rewrite sanitize_eq in Htext. injection Htext as <-.
  assert (process_invoice_with_vllm env img w
          = (Raise (processing_error env
                      (if is_class JSONDecodeError e
                       then Exc ValueError
                              (py "Model did not return valid JSON: "
                               ++ code_sanitize content)
                       else e)),
             log_event (JsonLoads (code_sanitize content))
               (log_event
                  (HttpPost (completions_url env)
                     (payload env (get_system_prompt env) base64_image)) w)))
    as Hrun.
  { rewrite process_run, Henc. cbn zeta. by rewrite Hchat, Hloads. }
  assert (JsonLoads (code_sanitize content)
          ∈ journal (snd (process_invoice_with_vllm env img w))) as Hjournal.
  { rewrite Hrun. cbn [snd journal log_event]. rewrite !elem_of_app. right.
    by apply list_elem_of_singleton. }
  split.
  - intros Hclass. rewrite Hclass in Hrun.
    unfold processing_error in Hrun. cbn [is_class str_exn] in Hrun.
    rewrite bool_decide_eq_false_2 in Hrun by done.
    split.
    { intros w'. unfold parse_json, try_except, call, raise.
      by rewrite Hloads, Hclass. }
    split; [by rewrite Hrun|]. split; [done|].
    intros file c filename w0 Hname Himg.
    pose proof (load_image_same_table env (UploadFile.content_type file)
                  (UploadFile.content file) w0) as [Hload _].
    rewrite (upload_run env file c filename w0 Hname), Himg, Hrun.
    rewrite Himg in Hload. cbn [fst snd] in *. split; [|done].
    unfold internal_error. cbn [str_exn]. reflexivity.
  - intros Hclass prefix. rewrite Hclass in Hrun.
    assert (processing_error env e
            = Exc RuntimeError (prefix ++ str_exn env e)) as Herror.
    { unfold processing_error, prefix. by destruct (is_class RequestError e). }
    rewrite Herror in Hrun.
    split; [by rewrite Hrun|]. split; [done|].
    intros file c filename w0 Hname Himg.
    pose proof (load_image_same_table env (UploadFile.content_type file)
                  (UploadFile.content file) w0) as [Hload _].
    rewrite (upload_run env file c filename w0 Hname), Himg, Hrun.
    rewrite Himg in Hload. cbn [fst snd] in *. split; [|done].
    unfold internal_error. cbn [str_exn]. reflexivity.
Qed.

End PipelineClaims.

Lemma unsupported_and_empty_uploads_witness :
  (load_image (Sample.env Sample.good_answer) (Some (py "text/plain"))
     (UploadFile.content Sample.text_upload) Sample.empty_world
   = (Raise (HTTPException 400
               (py "Unsupported file type. Use PDF or Image.")),
      Sample.empty_world)
   /\ upload_invoice (Sample.env Sample.good_answer) Sample.text_upload
        Sample.empty_world
      = (Raise (HTTPException 500
                  (py "Internal Server Error: 400: Unsupported file type. Use PDF or Image.")),
         Sample.empty_world))
  /\ (load_image (Sample.env Sample.good_answer) (Some (py "application/pdf"))
        (UploadFile.content Sample.empty_pdf_upload) Sample.empty_world
      = (Raise (HTTPException 400 (py "Empty PDF file")),
         log_event (PdfRender [Byte.x00]) Sample.empty_world)
      /\ upload_invoice (Sample.env Sample.good_answer)
           Sample.empty_pdf_upload Sample.empty_world
         = (Raise (HTTPException 500
                     (py "Internal Server Error: 400: Empty PDF file")),
            log_event (PdfRender [Byte.x00]) Sample.empty_world))
  /\ load_image (Sample.env Sample.good_answer) (Some (py "image/svg+xml"))
       (UploadFile.content Sample.svg_upload) Sample.empty_world
     = (Raise (Exc IOError (py "cannot identify image file")),
        log_event (ImageOpen Sample.svg_bytes) Sample.empty_world).
Proof.
  split; [|split].
  - exact (proj1 (unsupported_and_empty_uploads
                    (Sample.env Sample.good_answer) Sample.text_upload
                    _ _ _ Sample.empty_world eq_refl eq_refl)
             eq_refl eq_refl).
  - exact (proj1 (proj2 (unsupported_and_empty_uploads
                           (Sample.env Sample.good_answer)
                           Sample.empty_pdf_upload
                           _ _ _ Sample.empty_world eq_refl eq_refl))
             eq_refl eq_refl).
  - exact (proj1 (proj2 (proj2 (unsupported_and_empty_uploads
                                  (Sample.env Sample.good_answer)
                                  Sample.svg_upload
                                  _ _ _ Sample.empty_world eq_refl eq_refl))
                    eq_refl eq_refl)).
Defined.

Lemma upload_persists_exact_bytes_witness :
  upload_invoice (Sample.env Sample.good_answer) Sample.pdf_upload
    Sample.empty_world = (Ok Sample.accepted_response, Sample.one_row_world)
  /\ (exists row,
        invoice_logs Sample.one_row_world = [row]
        /\ file_content row = [Byte.x25; Byte.x50; Byte.x44; Byte.x46])
  /\ (exists first rest w2,
        convert_from_bytes (Sample.env Sample.good_answer)
          (UploadFile.content Sample.pdf_upload) = Ok (first :: rest)
        /\ process_invoice_with_vllm (Sample.env Sample.good_answer) first
             (log_event (PdfRender (UploadFile.content Sample.pdf_upload))
                Sample.empty_world)
           = (Ok Sample.minimal_data, w2)).
Proof.
  assert (upload_invoice (Sample.env Sample.good_answer) Sample.pdf_upload
            Sample.empty_world
          = (Ok Sample.accepted_response, Sample.one_row_world))
    as Hrun by (vm_compute; reflexivity).
  destruct (upload_persists_exact_bytes (Sample.env Sample.good_answer)
              Sample.pdf_upload Sample.empty_world Sample.one_row_world
              Sample.accepted_response Hrun)
    as [(row & Hrows & Hbytes & _) Hpage].
  split; [exact Hrun|]. split.
  - exists row. split; [exact Hrows | exact Hbytes].
  - exact (Hpage (py "application/pdf") eq_refl eq_refl).
Defined.

Lemma malformed_response_reported_witness :
  fst (process_invoice_with_vllm (Sample.env Sample.bad_answer) (Image 0)
         (log_event (ImageOpen (UploadFile.content Sample.png_upload))
            Sample.empty_world))
  = Raise (Exc RuntimeError
             (py "Processing error: Model did not return valid JSON: {oops"))
  /\ fst (upload_invoice (Sample.env Sample.bad_answer) Sample.png_upload
            Sample.empty_world)
     = Raise (HTTPException 500
                (py "Internal Server Error: Processing error: Model did not return valid JSON: {oops"))
  /\ invoice_logs (snd (upload_invoice (Sample.env Sample.bad_answer)
                          Sample.png_upload Sample.empty_world)) = []
  /\ fst (process_invoice_with_vllm Sample.deep_env (Image 0)
            Sample.empty_world)
     = Raise (Exc RuntimeError
                (py "Processing error: "
                 ++ str_exn Sample.deep_env Sample.recursion_error)).
Proof.
  destruct (proj1 (malformed_response_reported
                     (Sample.env Sample.bad_answer) (Image 0)
                     (log_event
                        (ImageOpen (UploadFile.content Sample.png_upload))
                        Sample.empty_world)
                     (py "/9j/2Q==") Sample.bad_answer (py "{oops")
                     (Exc JSONDecodeError (py "Expecting value"))
                     eq_refl eq_refl eq_refl eq_refl) eq_refl)
    as (_ & Hprocess & _ & Hupload).
  split; [exact Hprocess|].
  destruct (Hupload Sample.png_upload _ _ Sample.empty_world
              eq_refl eq_refl) as [Hfails Hrows].
  split; [exact Hfails|]. split; [exact Hrows|].
  assert (sanitize Sample.deep_text = Ok Sample.deep_text) as Htext
    by (vm_compute; reflexivity).
  assert (json_loads Sample.deep_env Sample.deep_text
          = Raise Sample.recursion_error) as Hloads
    by (vm_compute; reflexivity).
  exact (proj1 (proj2 (malformed_response_reported Sample.deep_env (Image 0)
                         Sample.empty_world (py "/9j/2Q==")
                         Sample.deep_text Sample.deep_text
                         Sample.recursion_error
                         eq_refl eq_refl Htext Hloads)
                  eq_refl)).
Defined.

(** ** The preview *)

Section PreviewFacts.
Context (env : Env).
Implicit Types (w : world) (row : InvoiceLog).

(** [decode_stored], flattened: Pillow first, the PDF renderer only after an
    [IOError]. *)
Lemma decode_stored_run file_bytes w :
  decode_stored env file_bytes w
  = let w1 := log_event (ImageOpen file_bytes) w in
    match image_open env file_bytes with
    | Ok output_image => (Ok (Some output_image), w1)
    | Raise e =>
        if is_class IOError e then
          (Ok match convert_from_bytes env file_bytes with
              | Ok images => head images
              | Raise _ => None
              end,
           log_event (PdfRender file_bytes) w1)
        else (Raise e, w1)
    end.
Proof.
  unfold decode_stored, try_except, mbind, M_bind, call, mret, M_ret, raise.
  cbn zeta. destruct (image_open env file_bytes) as [img|e]; [done|].
  destruct (is_class IOError e); [|done].
  rewrite pdf_to_images_run.
  by destruct (convert_from_bytes env file_bytes).
Qed.

(** [preview_log_image] on a stored row, flattened. *)
Lemma preview_run log_id w row :
  head (List.filter (fun r => bool_decide (id r = log_id)) (invoice_logs w))
  = Some row ->
  preview_log_image env log_id w
  = match decode_stored env (file_content row) w with
    | (Raise e, w1) => (Raise (preview_error env e), w1)
    | (Ok None, w1) =>
        (Raise (preview_error env
                  (HTTPException 400
                     (py "Could not convert file content to image preview."))),
         w1)
    | (Ok (Some output_image), w1) =>
        (match encode_preview env output_image with
         | Ok response => Ok response
         | Raise e => Raise (preview_error env e)
         end, w1)
    end.
Proof.
  intros Hrow.
  unfold preview_log_image, get_invoice_log_by_id, mbind, M_bind.
  rewrite Hrow. unfold try_except, raise, lift.
  destruct (decode_stored env (file_content row) w) as [[[img|]|e] w1];
    [|done..].
  by destruct (encode_preview env img).
Qed.

Lemma preview_handled log_id w row :
  head (List.filter (fun r => bool_decide (id r = log_id)) (invoice_logs w))
  = Some row ->
  handled (fst (preview_log_image env log_id w)).
Proof.
  intros Hrow. rewrite (preview_run log_id w row Hrow).
  destruct (decode_stored env (file_content row) w) as [[[img|]|e] w1];
    [|done..].
  by destruct (encode_preview env img).
Qed.

Lemma preview_same_table log_id w :
  same_table w (snd (preview_log_image env log_id w)).
Proof.
  destruct (head (List.filter (fun r => bool_decide (id r = log_id))
                    (invoice_logs w))) as [row|] eqn:Hrow.
  - rewrite (preview_run log_id w row Hrow), decode_stored_run.
    unfold same_table. cbn zeta. repeat case_match; simplify_eq; done.
  - unfold preview_log_image, get_invoice_log_by_id, mbind, M_bind.
    rewrite Hrow. by destruct (in_integer_range log_id).
Qed.

End PreviewFacts.

Section PreviewClaims.
Context (env : Env).

(** C9, as the specification states it, fails: Pillow refuses the stored
    bytes with an error that is not an [IOError], the PDF renderer is never
    tried, and the request fails with that error instead of the
    preview-unavailable one. *)
Lemma preview_other_failure_counterexample :
  image_open (Sample.env Sample.good_answer) Sample.oversized_bytes
  = Raise (Exc OtherError (py "Image size exceeds limit of pixels"))
  /\ preview_log_image (Sample.env Sample.good_answer) 1
       (Sample.table_with Sample.oversized_bytes)
     = (Raise (HTTPException 500
                 (py "Preview generation failed: Image size exceeds limit of pixels")),
        log_event (ImageOpen Sample.oversized_bytes)
          (Sample.table_with Sample.oversized_bytes))
  /\ PdfRender Sample.oversized_bytes
     ∉ journal (snd (preview_log_image (Sample.env Sample.good_answer) 1
                       (Sample.table_with Sample.oversized_bytes))).
Proof.
  split; [reflexivity|]. split; [reflexivity|].
  intros H. vm_compute in H. apply list_elem_of_singleton in H. discriminate H.
Qed.

(** C9 (amended): a preview of a stored row first asks Pillow to open the
    stored bytes.  If that raises an [IOError], the PDF renderer is asked and
    its first page taken; if the renderer fails too, or renders no page, the
    request fails with the preview-unavailable error, which the handler
    reports under status 500.  Any other exception of Pillow fails the
    request at once, the renderer is not asked.  An image that was found is
    answered as the JPEG encoding of its RGB conversion.  Nothing but an
    [HTTPException] leaves the handler, and the table is left as it was. *)
Theorem preview_decoding (log_id : Z) (w : world) (row : InvoiceLog) :
  head (List.filter (fun r => bool_decide (id r = log_id)) (invoice_logs w))
  = Some row ->
  let stored := file_content row in
  let w1 := log_event (ImageOpen stored) w in
  let w2 := log_event (PdfRender stored) w1 in
  let answer (output_image : image) : result StreamingResponse :=
    match encode_preview env output_image with
    | Ok response => Ok response
    | Raise e => Raise (preview_error env e)
    end in
  (forall output_image,
     image_open env stored = Ok output_image ->
     preview_log_image env log_id w = (answer output_image, w1))
  /\ (forall e first rest,
        image_open env stored = Raise e -> is_class IOError e = true ->
        convert_from_bytes env stored = Ok (first :: rest) ->
        preview_log_image env log_id w = (answer first, w2))
  /\ (forall e,
        image_open env stored = Raise e -> is_class IOError e = true ->
        (convert_from_bytes env stored = Ok []
         \/ exists e', convert_from_bytes env stored = Raise e') ->
        preview_log_image env log_id w
        = (Raise (HTTPException 500
                    (py "Preview generation failed: "
                     ++ http_exception_str env 400
                          (py "Could not convert file content to image preview."))),
           w2))
  /\ (forall e,
        image_open env stored = Raise e -> is_class IOError e = false ->
        preview_log_image env log_id w = (Raise (preview_error env e), w1))
  /\ (forall output_image response,
        encode_preview env output_image = Ok response ->
        media_type response = py "image/jpeg"
        /\ exists rgb,
             convert_rgb env output_image = Ok rgb
             /\ save_jpeg env rgb = Ok (body response))
  /\ handled (fst (preview_log_image env log_id w))
  /\ same_table w (snd (preview_log_image env log_id w)).
Proof.
  intros Hrow stored w1 w2 answer.
  pose proof (preview_run env log_id w row Hrow) as Hrun.
  rewrite decode_stored_run in Hrun. cbn zeta in Hrun. fold stored in Hrun.
  split; [|split; [|split; [|split; [|split; [|split]]]]].
  - intros img Himg. by rewrite Hrun, Himg.
  - intros e first rest Himg Hio Hpdf. by rewrite Hrun, Himg, Hio, Hpdf.
  - intros e Himg Hio [Hpdf|[e' Hpdf]]; by rewrite Hrun, Himg, Hio, Hpdf.
  - intros e Himg Hio. by rewrite Hrun, Himg, Hio.
  - intros img response Hencode. unfold encode_preview in Hencode.
    destruct (convert_rgb env img) as [rgb|]; [|done].
    cbn in Hencode.
    destruct (save_jpeg env rgb) as [jpeg|] eqn:Hsave; [|done].
    injection Hencode as <-. split; [done|]. by exists rgb.
  - by apply (preview_handled env log_id w row).
  - apply preview_same_table.
Qed.

End PreviewClaims.

Lemma preview_decoding_witness :
  preview_log_image (Sample.env Sample.good_answer) 1
    (Sample.table_with Sample.png_bytes)
  = (Ok Sample.jpeg_response,
     log_event (ImageOpen Sample.png_bytes)
       (Sample.table_with Sample.png_bytes))
  /\ preview_log_image (Sample.env Sample.good_answer) 1
       (Sample.table_with Sample.pdf_bytes)
     = (Ok Sample.jpeg_response,
        log_event (PdfRender Sample.pdf_bytes)
          (log_event (ImageOpen Sample.pdf_bytes)
             (Sample.table_with Sample.pdf_bytes)))
  /\ preview_log_image (Sample.env Sample.good_answer) 1
       (Sample.table_with Sample.text_bytes)
     = (Raise (HTTPException 500
                 (py "Preview generation failed: 400: Could not convert file content to image preview.")),
        log_event (PdfRender Sample.text_bytes)
          (log_event (ImageOpen Sample.text_bytes)
             (Sample.table_with Sample.text_bytes)))
  /\ preview_log_image (Sample.env Sample.good_answer) 1
       (Sample.table_with Sample.oversized_bytes)
     = (Raise (HTTPException 500
                 (py "Preview generation failed: Image size exceeds limit of pixels")),
        log_event (ImageOpen Sample.oversized_bytes)
          (Sample.table_with Sample.oversized_bytes))
  /\ media_type Sample.jpeg_response = py "image/jpeg".
Proof.
  pose (E := Sample.env Sample.good_answer).
  split; [|split; [|split; [|split]]].
  - exact (proj1 (preview_decoding E 1 (Sample.table_with Sample.png_bytes)
                    (Sample.stored (py "upload") Sample.png_bytes) eq_refl)
             (Image 0) eq_refl).
  - exact (proj1 (proj2 (preview_decoding E 1
                           (Sample.table_with Sample.pdf_bytes)
                           (Sample.stored (py "upload") Sample.pdf_bytes)
                           eq_refl))
             (Exc IOError (py "cannot identify image file"))
             (Image 1) [Image 2] eq_refl eq_refl eq_refl).
  - exact (proj1 (proj2 (proj2 (preview_decoding E 1
                                  (Sample.table_with Sample.text_bytes)
                                  (Sample.stored (py "upload")
                                     Sample.text_bytes) eq_refl)))
             (Exc IOError (py "cannot identify image file"))
             eq_refl eq_refl
             (or_intror
                (ex_intro _ (Exc OtherError (py "Unable to get page count."))
                   eq_refl))).
  - exact (proj1 (proj2 (proj2 (proj2 (preview_decoding E 1
                                         (Sample.table_with
                                            Sample.oversized_bytes)
                                         (Sample.stored (py "upload")
                                            Sample.oversized_bytes)
                                         eq_refl))))
             (Exc OtherError (py "Image size exceeds limit of pixels"))
             eq_refl eq_refl).
  - exact (proj1 (proj1 (proj2 (proj2 (proj2 (proj2
             (preview_decoding E 1 (Sample.table_with Sample.png_bytes)
                (Sample.stored (py "upload") Sample.png_bytes) eq_refl)))))
             (Image 0) Sample.jpeg_response eq_refl)).
Defined.

(** ** The listing *)

Section ListingFacts.
Context (env : Env).
Implicit Types (w : world) (l : list InvoiceLog).

Lemma insert_desc_Forall (P : InvoiceLog -> Prop) r l :
  P r -> Forall P l -> Forall P (insert_desc r l).
Proof.
  intros Hr. induction 1 as [|x l Hx Hl IH]; simpl; [by repeat constructor|].
  case_match; by repeat constructor.
Qed.

Lemma order_by_Forall (P : InvoiceLog -> Prop) l :
  Forall P l -> Forall P (order_by_created_at_desc l).
Proof.
  induction 1 as [|x l Hx Hl IH]; simpl; [done|]. by apply insert_desc_Forall.
Qed.

Lemma order_by_nil l : l = [] -> order_by_created_at_desc l = [].
Proof. by intros ->. Qed.

(** No row carries the identity -1. *)
Lemma filter_minus_one w :
  db_wf w ->
  List.filter (fun r => bool_decide (id r = (-1)%Z)) (invoice_logs w) = [].
Proof.
  intros [_ Hwf]. induction Hwf as [|r l Hr Hl IH]; simpl; [done|].
  rewrite bool_decide_eq_false_2 by lia. done.
Qed.

Lemma filter_Forall (p : InvoiceLog -> bool) l :
  Forall (fun r => p r = true) (List.filter p l).
Proof.
  induction l as [|x l IH]; simpl; [done|].
  destruct (p x) eqn:E; by repeat constructor.
Qed.

(** An ASCII digit string is a digit string. *)
Lemma ascii_digits_isdigit (q : list N) :
  q <> [] -> forallb is_ascii_digit q = true -> str_isdigit env q = true.
Proof.
  intros Hq H. unfold str_isdigit. destruct q as [|c q]; [done|].
  apply forallb_forall. intros x Hx.
  unfold char_isdigit. rewrite forallb_forall in H. by rewrite (H x Hx).
Qed.

(** Uploads keep the identities within the sequence. *)
Lemma upload_db_wf (file : UploadFile.t) w :
  db_wf w -> db_wf (snd (upload_invoice env file w)).
Proof.
  intros [Hnext Hwf].
  destruct (UploadFile.filename file) as [[|c filename]|] eqn:Hname;
    [unfold upload_invoice; by rewrite Hname| |
     unfold upload_invoice; by rewrite Hname].
  rewrite (upload_run env file c filename w Hname).
  pose proof (load_image_same_table env (UploadFile.content_type file)
                (UploadFile.content file) w) as [Hl1 Hl2].
  destruct (load_image env _ _ w) as [[pil_image|e] w1];
    [|unfold db_wf; simpl in *; by rewrite Hl1, Hl2].
  pose proof (process_same_table env pil_image w1) as [Hp1 Hp2].
  destruct (process_invoice_with_vllm env pil_image w1)
    as [[validated_data|e] w2]; simpl in *;
    [|unfold db_wf; simpl; by rewrite Hp1, Hp2, Hl1, Hl2].
  destruct (create_invoice_log_run env (c :: filename)
              (UploadFile.content file) validated_data w2)
    as [[-> _]|(e & -> & _)]; unfold db_wf; simpl;
    rewrite Hp1, Hp2, Hl1, Hl2; [|done].
  split; [lia|]. apply Forall_app. split.
  - eapply Forall_impl; [exact Hwf|]. simpl. intros r Hr. lia.
  - repeat constructor; simpl; lia.
Qed.

(** What the database accepts as OFFSET and as LIMIT. *)
Lemma window_accepted (n : Z) :
  (0 <= n <= 2147483647)%Z -> window_refused env n = false.
Proof.
  intros Hn. unfold window_refused.
  destruct (Z.ltb_spec n 0); [lia|].
  destruct (Z.ltb_spec 2147483647 n); [lia | done].
Qed.


Lemma window_not_refused (n : Z) :
  window_refused env n = false -> (0 <= n)%Z.
Proof.
  unfold window_refused. destruct (Z.ltb_spec n 0); [done | lia].
Qed.

Lemma empty_world_wf : db_wf Sample.empty_world.
Proof. split; [done | constructor]. Qed.

End ListingFacts.

Section ListingClaims.
Context (env : Env).

(** C5, as the specification states it, fails: the search text is a string
    of decimal digits, its value is above the range of the INTEGER column
    [id], and the call raises the [DBAPIError] of the refused statement
    instead of filtering by that identity. *)
Lemma oversized_identity_counterexample :
  forallb is_ascii_digit (py "99999999999") = true
  /\ py_int (Sample.env Sample.good_answer) (py "99999999999")
     = Ok 99999999999%Z
  /\ get_invoice_logs_metadata (Sample.env Sample.good_answer) 0 10
       (Some (py "99999999999")) (py "id")
       (Sample.table_with Sample.pdf_bytes)
     = (Raise (DBAPIError (Sample.env Sample.good_answer)
                 (SelectMetadata (Some (IdEquals 99999999999)) 0 10)),
        Sample.table_with Sample.pdf_bytes).
Proof. repeat split; vm_compute; reflexivity. Qed.

(** C5 (amended): under search mode [id], with an offset and a limit from 0
    to the largest INTEGER, a search text that is not empty and holds a
    character that is no digit yields the empty listing, without an error
    and without touching the table; a search text of digits whose integer
    value [int] returns is, when that value is within the range of the
    INTEGER column [id], an exact filter on the identity: the listing is the
    page of the rows with that identity, newest first.  A value outside
    that range is refused, and the call raises the [DBAPIError]. *)
Theorem search_by_id (skip limit : Z) (q : list N) (w : world) :
  q <> [] ->
  (0 <= skip <= 2147483647)%Z ->
  (0 <= limit <= 2147483647)%Z ->
  (str_isdigit env q = false -> db_wf w ->
   get_invoice_logs_metadata env skip limit (Some q) (py "id") w = (Ok [], w))
  /\ (forall n,
        str_isdigit env q = true -> py_int env q = Ok n ->
        (in_integer_range n = true ->
         get_invoice_logs_metadata env skip limit (Some q) (py "id") w
         = (Ok (map metadata_of
                  (take (Z.to_nat limit)
                     (drop (Z.to_nat skip)
                        (order_by_created_at_desc
                           (List.filter (fun r => bool_decide (id r = n))
                              (invoice_logs w)))))),
            w)
         /\ forall rows,
              fst (get_invoice_logs_metadata env skip limit (Some q)
                     (py "id") w) = Ok rows ->
              Forall (fun m => row_id m = n) rows)
        /\ (in_integer_range n = false ->
            get_invoice_logs_metadata env skip limit (Some q) (py "id") w
            = (Raise (DBAPIError env
                        (SelectMetadata (Some (IdEquals n)) skip limit)),
               w)))
  /\ (forallb is_ascii_digit q = true -> str_isdigit env q = true).
Proof.
  intros Hq Hskip Hlimit. destruct q as [|c q]; [done|].
  unfold get_invoice_logs_metadata, search_filter, refused.
  rewrite bool_decide_eq_true_2 by done.
  rewrite !window_accepted by done.
  split; [|split].
  - intros -> Hwf. cbn [clause_refused apply_filter satisfies orb].
    change (in_integer_range (-1)) with true. cbn [negb].
    by rewrite filter_minus_one, order_by_nil, drop_nil, take_nil.
  - intros n -> ->. cbn [mbind result_bind clause_refused]. split.
    + intros ->. cbn [negb orb apply_filter satisfies fst].
      split; [done|]. intros rows [= <-].
      apply Forall_fmap. apply Forall_take, Forall_drop, order_by_Forall.
      eapply Forall_impl; [apply filter_Forall|].
      intros r Hr. simpl. by apply bool_decide_eq_true_1 in Hr.
    + by intros ->.
  - intros H. by apply ascii_digits_isdigit.
Qed.

End ListingClaims.

Lemma table_with_wf file_bytes : db_wf (Sample.table_with file_bytes).
Proof. split; [done|]. constructor; [simpl; lia | constructor]. Qed.

Lemma search_by_id_witness :
  get_invoice_logs_metadata (Sample.env Sample.good_answer) 0 10
    (Some (py "abc")) (py "id") (Sample.table_with Sample.pdf_bytes)
  = (Ok [], Sample.table_with Sample.pdf_bytes)
  /\ get_invoice_logs_metadata (Sample.env Sample.good_answer) 0 10
       (Some (py "1")) (py "id") (Sample.table_with Sample.pdf_bytes)
     = (Ok [metadata_of (Sample.stored (py "upload") Sample.pdf_bytes)],
        Sample.table_with Sample.pdf_bytes)
  /\ get_invoice_logs_metadata (Sample.env Sample.good_answer) 0 10
       (Some (py "99999999999")) (py "id")
       (Sample.table_with Sample.pdf_bytes)
     = (Raise (DBAPIError (Sample.env Sample.good_answer)
                 (SelectMetadata (Some (IdEquals 99999999999)) 0 10)),
        Sample.table_with Sample.pdf_bytes)
  /\ str_isdigit (Sample.env Sample.good_answer) (py "1") = true.
Proof.
  assert (py "abc" <> []) as Habc by done.
  assert (py "1" <> []) as H1 by done.
  assert (py "99999999999" <> []) as H9 by done.
  assert (0 <= 0 <= 2147483647)%Z as Hskip by lia.
  assert (0 <= 10 <= 2147483647)%Z as Hlimit by lia.
  split; [|split; [|split]].
  - exact (proj1 (search_by_id (Sample.env Sample.good_answer) 0 10
                    (py "abc") (Sample.table_with Sample.pdf_bytes) Habc
                    Hskip Hlimit)
             eq_refl (table_with_wf Sample.pdf_bytes)).
  - exact (proj1 (proj1 (proj1 (proj2 (search_by_id
                                         (Sample.env Sample.good_answer)
                                         0 10 (py "1")
                                         (Sample.table_with Sample.pdf_bytes)
                                         H1 Hskip Hlimit))
                           1%Z eq_refl eq_refl)
                    eq_refl)).
  - exact (proj2 (proj1 (proj2 (search_by_id (Sample.env Sample.good_answer)
                                  0 10 (py "99999999999")
                                  (Sample.table_with Sample.pdf_bytes)
                                  H9 Hskip Hlimit))
                    99999999999%Z eq_refl eq_refl)
             eq_refl).
  - exact (proj2 (proj2 (search_by_id (Sample.env Sample.good_answer) 0 10
                           (py "1") (Sample.table_with Sample.pdf_bytes)
                           H1 Hskip Hlimit))
             eq_refl).
Defined.

(** The empty search text selects no filter, whatever the search mode: the
    listing returns the rows of the table. *)
Lemma empty_search_text_lists_all :
  get_invoice_logs_metadata (Sample.env Sample.good_answer) 0 10
    (Some (py "")) (py "id") (Sample.table_with Sample.pdf_bytes)
  = (Ok [metadata_of (Sample.stored (py "upload") Sample.pdf_bytes)],
     Sample.table_with Sample.pdf_bytes).
Proof. vm_compute. reflexivity. Qed.

(** A digit character that is no decimal digit passes [isdigit] and makes
    [int] raise: the listing fails with a [ValueError]. *)
Lemma superscript_digit_raises :
  str_isdigit (Sample.env Sample.good_answer) [178%N] = true
  /\ fst (get_invoice_logs_metadata (Sample.env Sample.good_answer) 0 10
            (Some [178%N]) (py "id") (Sample.table_with Sample.pdf_bytes))
     = Raise (Exc ValueError (py "invalid literal for int() with base 10")).
Proof. split; vm_compute; reflexivity. Qed.

(** ** Totality of the clean-up *)

Section SanitizerTotality.

(** C10: the clean-up returns a text for every answer and never raises.  With
    a tagged marker and no fence behind it, the candidate is everything
    behind the first tagged marker, stripped of surrounding white space.
    With fence markers but no tagged one, the candidate is the answer with
    every fence marker taken out: it holds no fence marker any more, it
    loses nothing but backticks, and after stripping surrounding white
    space it is what the parser is given. *)
Theorem sanitize_total (content : list N) :
  (exists text, sanitize content = Ok text)
  /\ (contains TAG content = true ->
      find FENCE (after_first TAG content) = None ->
      sanitize content = Ok (strip (after_first TAG content)))
  /\ (contains TAG content = false -> contains FENCE content = true ->
      sanitize content = Ok (strip (without_fences content))
      /\ contains FENCE (without_fences content) = false
      /\ without_fences content `sublist_of` content
      /\ List.filter (fun c => negb (c =? BACKTICK)%N) (without_fences content)
         = List.filter (fun c => negb (c =? BACKTICK)%N) content
      /\ exists l r,
           without_fences content = l ++ strip (without_fences content) ++ r
           /\ Forall (fun c => isspace c = true) l
           /\ Forall (fun c => isspace c = true) r)
  /\ (forall env img w base64_image,
        encode_image_to_base64 env img = Ok base64_image ->
        chat_completion env (completions_url env)
          (payload env (get_system_prompt env) base64_image) = Ok content ->
        exists text,
          sanitize content = Ok text
          /\ JsonLoads text
             ∈ journal (snd (process_invoice_with_vllm env img w))).
Proof.
  split; [rewrite sanitize_eq; eauto|]. split; [|split].
  - intros Htag Hopen. rewrite sanitize_eq. unfold code_sanitize.
    rewrite Htag. unfold tagged_body, before_first.
    rewrite TAG_FENCE, (find_None_extend _ _ _ Hopen), <- TAG_FENCE.
    by rewrite Hopen.
  - intros Htag Hfence. rewrite sanitize_eq. unfold code_sanitize.
    rewrite Htag, Hfence. split; [done|].
    unfold without_fences, replace, contains. cbn [FENCE].
    fold FENCE. split; [|split; [|split]].
    + by rewrite replace_loop_no_fence.
    + apply replace_loop_sublist.
    + apply replace_loop_filter.
    + apply strip_spec.
  - intros env img w b64 Henc Hchat. exists (code_sanitize content).
    split; [apply sanitize_eq|].
    rewrite process_run, Henc. cbn zeta. rewrite Hchat.
    destruct (json_loads env _) as [j|e]; [destruct (model_validate j)|];
      cbn [snd journal log_event]; rewrite !elem_of_app; right;
      by apply list_elem_of_singleton.
Qed.

End SanitizerTotality.

Lemma sanitize_total_witness :
  sanitize (py "```json {} ") = Ok (py "{}")
  /\ sanitize (py "Result: ``` {} ```") = Ok (py "Result:  {}")
  /\ contains FENCE (without_fences (py "Result: ``` {} ```")) = false
  /\ exists text,
       sanitize Sample.good_answer = Ok text
       /\ JsonLoads text
          ∈ journal (snd (process_invoice_with_vllm
                            (Sample.env Sample.good_answer) (Image 0)
                            Sample.empty_world)).
Proof.
  split; [|split; [|split]].
  - exact (proj1 (proj2 (sanitize_total (py "```json {} "))) eq_refl eq_refl).
  - exact (proj1 (proj1 (proj2 (proj2 (sanitize_total
                                         (py "Result: ``` {} ```"))))
                    eq_refl eq_refl)).
  - exact (proj1 (proj2 (proj1 (proj2 (proj2 (sanitize_total
                                                (py "Result: ``` {} ```"))))
                           eq_refl eq_refl))).
  - exact (proj2 (proj2 (proj2 (sanitize_total Sample.good_answer)))
             (Sample.env Sample.good_answer) (Image 0) Sample.empty_world
             (py "/9j/2Q==") eq_refl eq_refl).
Defined.

(** * Further properties *)

(** ** Ordering and pagination of the listing *)

Section OrderingFacts.
Implicit Types (l : list InvoiceLog) (r : InvoiceLog).

Lemma insert_desc_perm r l : insert_desc r l ≡ₚ r :: l.
Proof.
  induction l as [|x l IH]; simpl; [done|].
  case_match; [done|]. rewrite IH. apply Permutation_swap.
Qed.

Lemma order_by_perm l : order_by_created_at_desc l ≡ₚ l.
Proof.
  induction l as [|x l IH]; simpl; [done|].
  by rewrite insert_desc_perm, IH.
Qed.

Lemma insert_desc_sorted r l :
  StronglySorted newer_first l -> StronglySorted newer_first (insert_desc r l).
Proof.
  induction 1 as [|x l Hl IH Hx]; simpl; [by repeat constructor|].
  destruct (Z.leb_spec (created_at x) (created_at r)) as [Hle|Hgt].
  - constructor; [by constructor|]. constructor; [done|].
    eapply Forall_impl; [exact Hx|]. unfold newer_first. intros y Hy. lia.
  - constructor; [done|].
    rewrite insert_desc_perm. constructor; [|done].
    unfold newer_first. lia.
Qed.

Lemma order_by_sorted l : StronglySorted newer_first (order_by_created_at_desc l).
Proof.
  induction l as [|x l IH]; simpl; [constructor | by apply insert_desc_sorted].
Qed.

Lemma StronglySorted_take {A} (R : relation A) n (l : list A) :
  StronglySorted R l -> StronglySorted R (take n l).
Proof.
  intros H. apply (StronglySorted_app_1_l R (take n l) (drop n l)).
  by rewrite take_drop.
Qed.

Lemma StronglySorted_drop {A} (R : relation A) n (l : list A) :
  StronglySorted R l -> StronglySorted R (drop n l).
Proof.
  intros H. apply (StronglySorted_app_1_r R (take n l) (drop n l)).
  by rewrite take_drop.
Qed.

End OrderingFacts.

Section ListingPages.
Context (env : Env).
Implicit Types (l : list InvoiceLog) (r : InvoiceLog).

Lemma apply_filter_selected f l r :
  r ∈ apply_filter env f l <-> r ∈ l /\ selected env f r = true.
Proof.
  destruct f as [c|]; simpl; [|tauto].
  rewrite !list_elem_of_In. apply filter_In.
Qed.

(** The listing, flattened: the query fails to build, or the database
    refuses it, or the page is cut out of the ordered selection. *)
Lemma listing_run skip limit search type w :
  get_invoice_logs_metadata env skip limit search type w
  = (f ← search_filter env search type;
     if refused env f skip limit then
       Raise (DBAPIError env (SelectMetadata f skip limit))
     else
       Ok (map metadata_of
             (take (Z.to_nat limit)
                (drop (Z.to_nat skip)
                   (order_by_created_at_desc
                      (apply_filter env f (invoice_logs w)))))),
     w).
Proof.
  unfold get_invoice_logs_metadata.
  destruct (search_filter env search type) as [f|]; [|done].
  cbn [mbind result_bind]. by destruct (refused env f skip limit).
Qed.

(** An accepted statement has an offset and a limit that are not
    negative. *)
Lemma accepted_window f skip limit :
  refused env f skip limit = false ->
  clause_refused f = false /\ (0 <= skip)%Z /\ (0 <= limit)%Z.
Proof.
  unfold refused. intros H.
  apply orb_false_elim in H as [H Hlimit].
  apply orb_false_elim in H as [Hf Hskip].
  split; [done|]. split; by apply (window_not_refused env).
Qed.

(** X1: a listing never changes the table, returns at most [limit] rows, and
    every row it returns describes a row of the table, with the length of
    its stored bytes as [file_size]. *)
Theorem listing_page_sound skip limit search type (w : world) rows :
  fst (get_invoice_logs_metadata env skip limit search type w) = Ok rows ->
  (Z.of_nat (length rows) <= limit)%Z
  /\ (forall m, m ∈ rows ->
        exists r, r ∈ invoice_logs w /\ m = metadata_of r
                  /\ file_size m = length (file_content r))
  /\ snd (get_invoice_logs_metadata env skip limit search type w) = w.
Proof.
  rewrite listing_run. cbn [fst snd].
  destruct (search_filter env search type) as [f|]; [|done].
  cbn [mbind result_bind].
  destruct (refused env f skip limit) eqn:Hrefused; [done|].
  apply accepted_window in Hrefused as (_ & _ & Hlimit).
  intros [= <-]. split; [|split; [|done]].
  - rewrite length_fmap, length_take. lia.
  - intros m (r & -> & Hr)%list_elem_of_fmap.
    exists r. split; [|done].
    apply subseteq_take, subseteq_drop in Hr.
    rewrite order_by_perm in Hr.
    by apply apply_filter_selected in Hr as [Hr _].
Qed.

(** X2: the rows of a listing are ordered by creation time, newest first. *)
Theorem listing_newest_first skip limit search type (w : world) rows :
  fst (get_invoice_logs_metadata env skip limit search type w) = Ok rows ->
  StronglySorted meta_newer_first rows.
Proof.
  rewrite listing_run. cbn [fst].
  destruct (search_filter env search type) as [f|]; [|done].
  cbn [mbind result_bind].
  destruct (refused env f skip limit); [done|].
  intros [= <-].
  apply (StronglySorted_fmap metadata_of newer_first meta_newer_first);
    [done|].
  apply StronglySorted_take, StronglySorted_drop, order_by_sorted.
Qed.

(** X3: without a search text, whatever the search mode, a page that starts
    at 0 and is at least as long as the table, with a limit up to the
    largest INTEGER, lists every row exactly once. *)
Theorem listing_without_search limit search type (w : world) :
  search = None \/ search = Some [] ->
  (Z.of_nat (length (invoice_logs w)) <= limit <= 2147483647)%Z ->
  exists rows,
    get_invoice_logs_metadata env 0 limit search type w = (Ok rows, w)
    /\ rows ≡ₚ map metadata_of (invoice_logs w).
Proof.
  intros Hsearch Hlimit. rewrite listing_run.
  assert (search_filter env search type = Ok None) as ->
    by (by destruct Hsearch as [-> | ->]).
  cbn [mbind result_bind]. unfold refused. cbn [clause_refused orb].
  rewrite !(window_accepted env) by lia. cbn [orb].
  eexists. split; [reflexivity|].
  cbn [apply_filter]. change (Z.to_nat 0) with 0. rewrite drop_0, take_ge.
  - by rewrite order_by_perm.
  - rewrite order_by_perm. lia.
Qed.

(** X4: in a table whose creation times are pairwise different, so that
    the order of a listing is determined, consecutive pages of one query
    join into the longer page, as long as its limit is no more than the
    largest INTEGER: no row is skipped or shown twice. *)
Theorem listing_pages_join skip a b search type (w : world) rows1 rows2 :
  NoDup (map created_at (invoice_logs w)) ->
  (a + b <= 2147483647)%Z ->
  fst (get_invoice_logs_metadata env skip a search type w) = Ok rows1 ->
  fst (get_invoice_logs_metadata env (skip + a) b search type w) = Ok rows2 ->
  fst (get_invoice_logs_metadata env skip (a + b) search type w)
  = Ok (rows1 ++ rows2).
Proof.
  intros _ Hsum. rewrite !listing_run. cbn [fst].
  destruct (search_filter env search type) as [f|]; [|done].
  cbn [mbind result_bind].
  destruct (refused env f skip a) eqn:H1; [done|].
  destruct (refused env f (skip + a) b) eqn:H2; [done|].
  pose proof H1 as H1'. apply accepted_window in H1' as (Hf & Hskip & Ha).
  apply accepted_window in H2 as (_ & _ & Hb).
  assert (refused env f skip (a + b) = false) as ->.
  { unfold refused in *. rewrite Hf in *. cbn [orb] in *.
    apply orb_false_elim in H1 as [-> _].
    by rewrite (window_accepted env (a + b)) by lia. }
  intros [= <-] [= <-]. f_equal.
  rewrite <- fmap_app. f_equal.
  rewrite !Z2Nat.inj_add by done.
  by rewrite <- drop_drop, take_take_drop.
Qed.

End ListingPages.

(** ** Identities, insertion and look-up *)

Section IdentityFacts.
Context (env : Env).
Implicit Types (w : world) (l : list InvoiceLog) (r : InvoiceLog).

(** In a table without repeated identities, the look-up by the identity of
    a row finds that row. *)
Lemma lookup_unique l r :
  NoDup (map id l) -> r ∈ l ->
  head (List.filter (fun x => bool_decide (id x = id r)) l) = Some r.
Proof.
  induction l as [|x l IH]; intros Hnd Hr; [by apply elem_of_nil in Hr|].
  apply NoDup_cons in Hnd as [Hx Hnd]. simpl.
  apply elem_of_cons in Hr as [->|Hr].
  - by rewrite bool_decide_eq_true_2.
  - rewrite bool_decide_eq_false_2; [by apply IH|].
    intros Heq. apply Hx. rewrite Heq. by apply list_elem_of_fmap_2.
Qed.

Lemma lookup_absent l (n : Z) :
  Forall (fun x => id x <> n) l ->
  List.filter (fun x => bool_decide (id x = n)) l = [].
Proof.
  induction 1 as [|x l Hx Hl IH]; simpl; [done|].
  by rewrite bool_decide_eq_false_2.
Qed.

(** The steps in front of the write only extend the journal. *)
Lemma load_image_now content_type content w :
  now (snd (load_image env content_type content w)) = now w.
Proof. rewrite load_image_run. repeat case_match; reflexivity. Qed.

Lemma process_now img w :
  now (snd (process_invoice_with_vllm env img w)) = now w.
Proof. rewrite process_run. cbn zeta. repeat case_match; reflexivity. Qed.

(** A successful write keeps the table in order. *)
Lemma create_db_ok filename file_bytes data w row w' :
  db_ok w ->
  create_invoice_log env filename file_bytes data w = (Ok row, w') ->
  db_ok w' /\ id row = next_id w
  /\ invoice_logs w' = invoice_logs w ++ [row].
Proof.
  intros [[Hnext Hwf] Hnd].
  destruct (create_invoice_log_run env filename file_bytes data w)
    as [[-> _]|(e & -> & _)]; [|done].
  intros [= <- <-]. split; [|done]. split; [split|]; simpl.
  - lia.
  - apply Forall_app. split.
    + eapply Forall_impl; [exact Hwf|]. simpl. intros r Hr. lia.
    + repeat constructor; simpl; lia.
  - rewrite map_app. apply NoDup_app. split; [done|]. split.
    + intros n Hn Hn'. apply list_elem_of_singleton in Hn'. subst n.
      apply list_elem_of_fmap in Hn as (r & Hid & Hr).
      rewrite Forall_forall in Hwf. specialize (Hwf r Hr). simpl in Hid. lia.
    + apply NoDup_singleton.
Qed.

(** Every run of [upload_invoice]: it fails and the table is as before, or
    the row built from the upload is appended under the next identity. *)
Lemma upload_cases (file : UploadFile.t) w :
  (exists e w',
     upload_invoice env file w = (Raise e, w') /\ same_table w w')
  \/ (exists filename validated_data w2,
        UploadFile.filename file = Some filename
        /\ same_table w w2 /\ now w2 = now w
        /\ create_invoice_log env filename (UploadFile.content file)
             validated_data w2
           = (Ok {| id := next_id w; filename := filename;
                    file_content := UploadFile.content file;
                    extracted_schema_content := model_dump validated_data;
                    created_at := now w |},
              snd (upload_invoice env file w))
        /\ fst (upload_invoice env file w)
           = Ok {| message := py "Success"; log_id := next_id w;
                   data := validated_data |}).
Proof.
  destruct (UploadFile.filename file) as [[|c filename]|] eqn:Hname;
    [left; unfold upload_invoice; rewrite Hname; by eexists _, _| |
     left; unfold upload_invoice; rewrite Hname; by eexists _, _].
  rewrite (upload_run env file c filename w Hname).
  pose proof (load_image_same_table env (UploadFile.content_type file)
                (UploadFile.content file) w) as [Hl1 Hl2].
  pose proof (load_image_now (UploadFile.content_type file)
                (UploadFile.content file) w) as Hl3.
  destruct (load_image env _ _ w) as [[pil_image|e] w1];
    [|left; by eexists _, _].
  pose proof (process_same_table env pil_image w1) as [Hp1 Hp2].
  pose proof (process_now pil_image w1) as Hp3.
  destruct (process_invoice_with_vllm env pil_image w1)
    as [[validated_data|e] w2]; simpl in *;
    [|left; eexists _, _; split; [done|]; split; congruence].
  destruct (create_invoice_log_run env (c :: filename)
              (UploadFile.content file) validated_data w2)
    as [[Hrun _]|(e & Hrun & _)]; rewrite Hrun.
  - right. exists (c :: filename), validated_data, w2.
    simpl. rewrite Hp2, Hl2, Hp3, Hl3.
    split; [done|]. split; [split; congruence|]. split; [done|].
    split; [|done]. by rewrite Hp2, Hl2, Hp3, Hl3 in Hrun.
  - left. eexists _, _. split; [done|]. split; simpl; congruence.
Qed.

Lemma db_ok_same_table w w' : same_table w w' -> db_ok w -> db_ok w'.
Proof.
  intros [Hrows Hnext] [[H1 H2] H3]. unfold db_ok, db_wf.
  by rewrite Hrows, Hnext.
Qed.

(** A successful upload went through the three steps. *)
Lemma upload_Ok (file : UploadFile.t) w response w' :
  upload_invoice env file w = (Ok response, w') ->
  exists c filename pil_image w1 w2 row,
    UploadFile.filename file = Some (c :: filename)
    /\ load_image env (UploadFile.content_type file)
         (UploadFile.content file) w = (Ok pil_image, w1)
    /\ process_invoice_with_vllm env pil_image w1 = (Ok (data response), w2)
    /\ create_invoice_log env (c :: filename) (UploadFile.content file)
         (data response) w2 = (Ok row, w')
    /\ log_id response = id row
    /\ message response = py "Success".
Proof.
  destruct (UploadFile.filename file) as [[|c filename]|] eqn:Hname;
    [unfold upload_invoice; by rewrite Hname| |
     unfold upload_invoice; by rewrite Hname].
  rewrite (upload_run env file c filename w Hname).
  destruct (load_image env _ _ w) as [[pil_image|e] w1] eqn:Himg; [|done].
  destruct (process_invoice_with_vllm env pil_image w1)
    as [[validated_data|e] w2] eqn:Hdata; [|done].
  destruct (create_invoice_log env _ _ validated_data w2)
    as [[row|e] w3] eqn:Hrow; intros Heq; [|discriminate Heq].
  injection Heq as <- <-. by exists c, filename, pil_image, w1, w2, row.
Qed.

(** The row a successful write returns is found under its identity. *)
Lemma created_row_found filename file_bytes data w row w' :
  db_ok w ->
  create_invoice_log env filename file_bytes data w = (Ok row, w') ->
  head (List.filter (fun r => bool_decide (id r = id row)) (invoice_logs w'))
  = Some row
  /\ file_content row = file_bytes.
Proof.
  intros Hok Hrun.
  destruct (create_db_ok _ _ _ _ _ _ Hok Hrun) as ([_ Hnd] & Hid & Hrows).
  split.
  - apply lookup_unique; [done|].
    rewrite Hrows. apply elem_of_app. right. by apply list_elem_of_singleton.
  - destruct (create_invoice_log_run env filename file_bytes data w)
      as [[Heq _]|(e & Heq & _)]; rewrite Heq in Hrun; [|done].
    apply (f_equal fst) in Hrun. cbn [fst] in Hrun.
    by injection Hrun as <-.
Qed.

End IdentityFacts.

Section IdentityClaims.
Context (env : Env).

(** X5: in a table whose identities are in order, a row written by
    [create_invoice_log] is the one [get_invoice_log_by_id] finds under its
    identity, and the look-up of any other identity is as before the
    write. *)
Theorem create_then_lookup filename file_bytes data (w w' : world) row :
  db_ok w ->
  create_invoice_log env filename file_bytes data w = (Ok row, w') ->
  get_invoice_log_by_id env (id row) w' = (Ok (Some row), w')
  /\ file_content row = file_bytes
  /\ forall other,
       other <> id row ->
       fst (get_invoice_log_by_id env other w')
       = fst (get_invoice_log_by_id env other w).
Proof.
  intros Hok Hrun.
  destruct (create_db_ok env _ _ _ _ _ _ Hok Hrun) as (_ & Hid & Hrows).
  destruct (created_row_found env _ _ _ _ _ _ Hok Hrun) as [Hfound Hbytes].
  unfold get_invoice_log_by_id. split; [by rewrite Hfound|]. split; [done|].
  intros other Hother.
  assert (List.filter (fun r => bool_decide (id r = other)) (invoice_logs w')
          = List.filter (fun r => bool_decide (id r = other))
              (invoice_logs w)) as ->.
  { rewrite Hrows, List.filter_app. simpl.
    rewrite bool_decide_eq_false_2 by done. by rewrite app_nil_r. }
  destruct (head (List.filter (fun r => bool_decide (id r = other))
                    (invoice_logs w))); [done|].
  by destruct (in_integer_range other).
Qed.

(** X6: uploads keep the identities of the table in order: within the
    sequence and pairwise different.  An accepted upload is stored under
    the next value of the sequence, which is larger than every identity
    already in the table. *)
Theorem upload_identities (file : UploadFile.t) (w : world) :
  db_ok w ->
  db_ok (snd (upload_invoice env file w))
  /\ forall response,
       fst (upload_invoice env file w) = Ok response ->
       log_id response = next_id w
       /\ next_id (snd (upload_invoice env file w)) = (next_id w + 1)%Z
       /\ Forall (fun r => (id r < log_id response)%Z) (invoice_logs w).
Proof.
  intros Hok.
  destruct (upload_cases env file w)
    as [(e & w' & Hrun & Hsame)
       |(filename & validated & w2 & _ & Hsame & _ & Hrow & Hresp)].
  - rewrite Hrun. cbn [fst snd]. split; [by eapply db_ok_same_table|done].
  - pose proof (db_ok_same_table _ _ Hsame Hok) as Hok2.
    destruct (create_db_ok env _ _ _ _ _ _ Hok2 Hrow) as (Hok' & _ & Hrows).
    split; [done|]. intros response. rewrite Hresp. intros [= <-].
    cbn [log_id]. split; [done|]. split.
    + destruct (create_invoice_log_run env filename
                  (UploadFile.content file) validated w2)
        as [[Heq _]|(e & Heq & _)]; rewrite Heq in Hrow; [|done].
      apply (f_equal snd) in Hrow. cbn [snd] in Hrow. rewrite <- Hrow.
      simpl. by destruct Hsame as [_ ->].
    + destruct Hok as [[_ Hwf] _].
      eapply Forall_impl; [exact Hwf|]. simpl. intros r Hr. lia.
Qed.

End IdentityClaims.

(** ** Uploads from request to response *)

Section UploadFlow.
Context (env : Env).

(** X7: the preview of an accepted upload shows what the model was shown.
    For an image upload Pillow opens the stored bytes again and the
    renderer is not asked; for a PDF upload that Pillow refuses with an
    [IOError], the first rendered page is taken, the page that went to the
    model. *)
Theorem upload_then_preview
    (file : UploadFile.t) (w w' : world) response content_type :
  db_ok w ->
  upload_invoice env file w = (Ok response, w') ->
  UploadFile.content_type file = Some content_type ->
  let stored := UploadFile.content file in
  let answer (output_image : image) : result StreamingResponse :=
    match encode_preview env output_image with
    | Ok preview => Ok preview
    | Raise e => Raise (preview_error env e)
    end in
  (contains (py "application/pdf") content_type = false ->
   exists pil_image,
     image_open env stored = Ok pil_image
     /\ fst (process_invoice_with_vllm env pil_image
               (log_event (ImageOpen stored) w)) = Ok (data response)
     /\ preview_log_image env (log_id response) w'
        = (answer pil_image, log_event (ImageOpen stored) w'))
  /\ (contains (py "application/pdf") content_type = true ->
      forall e,
        image_open env stored = Raise e -> is_class IOError e = true ->
        exists first rest,
          convert_from_bytes env stored = Ok (first :: rest)
          /\ fst (process_invoice_with_vllm env first
                    (log_event (PdfRender stored) w)) = Ok (data response)
          /\ preview_log_image env (log_id response) w'
             = (answer first,
                log_event (PdfRender stored)
                  (log_event (ImageOpen stored) w'))).
Proof.
  intros Hok Hrun Htype stored answer.
  destruct (upload_Ok env file w response w' Hrun)
    as (c & filename & pil_image & w1 & w2 & row
        & Hname & Himg & Hdata & Hrow & Hid & _).
  rewrite Htype in Himg. fold stored in Himg, Hrow.
  assert (db_ok w2) as Hok2.
  { eapply db_ok_same_table; [|exact Hok].
    pose proof (load_image_same_table env (Some content_type) stored w)
      as [H1 H2].
    pose proof (process_same_table env pil_image w1) as [H3 H4].
    rewrite Himg in H1, H2. rewrite Hdata in H3, H4. simpl in *.
    split; congruence. }
  destruct (created_row_found env _ _ _ _ _ _ Hok2 Hrow) as (Hfound & Hbytes).
  pose proof (preview_run env (log_id response) w' row) as Hpreview.
  rewrite Hid, Hbytes, decode_stored_run in Hpreview. cbn zeta in Hpreview.
  specialize (Hpreview Hfound).
  rewrite load_image_run in Himg. rewrite Hid. split.
  - intros Hpdf. rewrite Hpdf in Himg.
    destruct (contains (py "image") content_type); [|done].
    injection Himg as Hopen <-. exists pil_image.
    split; [done|]. split; [by rewrite Hdata|].
    by rewrite Hpreview, Hopen.
  - intros Hpdf e Hopen Hio. rewrite Hpdf in Himg.
    destruct (convert_from_bytes env stored) as [[|first rest]|] eqn:Hpages;
      try done.
    injection Himg as <- <-. exists first, rest.
    split; [done|]. split; [by rewrite Hdata|].
    by rewrite Hpreview, Hopen, Hio.
Qed.

(** X8: an accepted upload makes four calls, in this order: one decoding
    call on the uploaded bytes, one request to the model, one call of the
    JSON parser, one insertion, of the row that is answered. *)
Theorem upload_journal (file : UploadFile.t) (w w' : world) response :
  upload_invoice env file w = (Ok response, w') ->
  exists decode base64_image text row,
    (decode = PdfRender (UploadFile.content file)
     \/ decode = ImageOpen (UploadFile.content file))
    /\ journal w'
       = journal w
         ++ [decode;
             HttpPost (completions_url env)
               (payload env (get_system_prompt env) base64_image);
             JsonLoads text;
             DbInsert row]
    /\ id row = log_id response
    /\ file_content row = UploadFile.content file
    /\ extracted_schema_content row = model_dump (data response).
Proof.
  intros Hrun.
  destruct (upload_Ok env file w response w' Hrun)
    as (c & filename & pil_image & w1 & w2 & row
        & Hname & Himg & Hdata & Hrow & Hid & _).
  assert (exists decode,
            (decode = PdfRender (UploadFile.content file)
             \/ decode = ImageOpen (UploadFile.content file))
            /\ journal w1 = journal w ++ [decode]) as (decode & Hdecode & Hj1).
  { rewrite load_image_run in Himg.
    destruct (UploadFile.content_type file) as [ct|]; [|done].
    destruct (contains (py "application/pdf") ct).
    - injection Himg as _ <-. eauto.
    - destruct (contains (py "image") ct); [|done].
      injection Himg as _ <-. eauto. }
  rewrite process_run in Hdata.
  destruct (encode_image_to_base64 env pil_image) as [b64|]; [|done].
  cbn zeta in Hdata.
  destruct (chat_completion env _ _) as [content|]; [|done].
  destruct (json_loads env _) as [j|]; [|done].
  destruct (model_validate j); [|done].
  injection Hdata as _ <-.
  destruct (create_invoice_log_run env (c :: filename)
              (UploadFile.content file) (data response)
              (log_event (JsonLoads (code_sanitize content))
                 (log_event
                    (HttpPost (completions_url env)
                       (payload env (get_system_prompt env) b64)) w1)))
    as [[Heq _]|(e & Heq & _)]; rewrite Heq in Hrow; [|done].
  injection Hrow as <- <-.
  eexists decode, b64, (code_sanitize content), _.
  split; [done|]. split; [|by rewrite Hid].
  cbn [journal log_event]. rewrite Hj1, <- !app_assoc. done.
Qed.

(** X9: nothing but an [HTTPException] leaves [upload_invoice].  Status 400
    is raised for a missing file name only, before anything else is done;
    every other failure, an unsupported content type included, is raised
    under status 500 with [str] of its cause in the detail. *)
Theorem upload_errors (file : UploadFile.t) (w w' : world) e :
  upload_invoice env file w = (Raise e, w') ->
  (e = HTTPException 400 (py "No filename provided")
   /\ w' = w
   /\ (UploadFile.filename file = None \/ UploadFile.filename file = Some []))
  \/ (exists cause,
        e = HTTPException 500
              (py "Internal Server Error: " ++ str_exn env cause)
        /\ exists c filename, UploadFile.filename file = Some (c :: filename)).
Proof.
  destruct (UploadFile.filename file) as [[|c filename]|] eqn:Hname.
  - unfold upload_invoice. rewrite Hname. intros [= <- <-]. left. eauto.
  - rewrite (upload_run env file c filename w Hname). intros Hrun. right.
    destruct (load_image env _ _ w) as [[pil_image|cause] w1];
      [|injection Hrun as <- _; exists cause; eauto].
    destruct (process_invoice_with_vllm env pil_image w1)
      as [[validated_data|cause] w2];
      [|injection Hrun as <- _; exists cause; eauto].
    destruct (create_invoice_log env _ _ validated_data w2)
      as [[row|cause] w3]; [done|].
    injection Hrun as <- _. exists cause. eauto.
  - unfold upload_invoice. rewrite Hname. intros [= <- <-]. left. eauto.
Qed.

End UploadFlow.

(** ** Extraction: requests and errors *)

Section ExtractionFlow.
Context (env : Env).

(** X10: one extraction sends at most one request to the model, and none
    when the image cannot be encoded; the parser is called at most once,
    after the request. *)
Theorem process_requests_once (img : image) (w : world) :
  let w' := snd (process_invoice_with_vllm env img w) in
  match encode_image_to_base64 env img with
  | Raise e =>
      journal w' = journal w
      /\ fst (process_invoice_with_vllm env img w) = Raise e
  | Ok base64_image =>
      let request :=
        HttpPost (completions_url env)
          (payload env (get_system_prompt env) base64_image) in
      match chat_completion env (completions_url env)
              (payload env (get_system_prompt env) base64_image) with
      | Raise _ => journal w' = journal w ++ [request]
      | Ok content =>
          exists text,
            sanitize content = Ok text
            /\ journal w' = journal w ++ [request; JsonLoads text]
      end
  end.
Proof.
  cbn zeta. rewrite process_run.
  destruct (encode_image_to_base64 env img) as [b64|e]; [|done].
  cbn zeta. destruct (chat_completion env _ _) as [content|e]; [|done].
  exists (code_sanitize content). split; [apply sanitize_eq|].
  destruct (json_loads env _) as [j|e]; [destruct (model_validate j)|];
    cbn [snd journal log_event]; by rewrite <- app_assoc.
Qed.

(** X11: an extraction that fails raises either the exception of the image
    encoding, as it is, or a [RuntimeError]: with the message
    [API Request failed: ...] for a failure of the transport, with
    [Processing error: ...] for everything else. *)
Theorem process_errors (img : image) (w w' : world) e :
  process_invoice_with_vllm env img w = (Raise e, w') ->
  (encode_image_to_base64 env img = Raise e /\ w' = w)
  \/ (exists cause,
        is_class RequestError cause = true
        /\ e = Exc RuntimeError (py "API Request failed: " ++ str_exn env cause))
  \/ (exists cause,
        is_class RequestError cause = false
        /\ e = Exc RuntimeError (py "Processing error: " ++ str_exn env cause)).
Proof.
  rewrite process_run.
  destruct (encode_image_to_base64 env img) as [b64|e0];
    [|intros [= <- <-]; by left].
  cbn zeta. intros Hrun. right.
  assert (exists cause, e = processing_error env cause) as [cause ->].
  { destruct (chat_completion env _ _) as [content|e1];
      [|injection Hrun as <- _; eauto].
    destruct (json_loads env _) as [j|e1];
      [destruct (model_validate j); [done|]|];
      injection Hrun as <- _; eauto. }
  unfold processing_error.
  destruct (is_class RequestError cause) eqn:Hclass; [left|right]; eauto.
Qed.

(** X12: an answer that parses but does not fit the schema fails the
    extraction with the text of the validation error; the upload reports
    it under status 500 and writes nothing. *)
Theorem schema_violation_reported
    (img : image) (w : world) base64_image content text raw_json errors :
  encode_image_to_base64 env img = Ok base64_image ->
  chat_completion env (completions_url env)
    (payload env (get_system_prompt env) base64_image) = Ok content ->
  sanitize content = Ok text ->
  json_loads env text = Ok raw_json ->
  model_validate raw_json = Invalid errors ->
  fst (process_invoice_with_vllm env img w)
  = Raise (Exc RuntimeError
             (py "Processing error: " ++ validation_error_str env errors))
  /\ forall (file : UploadFile.t) c filename w0,
       UploadFile.filename file = Some (c :: filename) ->
       load_image env (UploadFile.content_type file)
         (UploadFile.content file) w0 = (Ok img, w) ->
       fst (upload_invoice env file w0)
       = Raise (HTTPException 500
                  (py "Internal Server Error: Processing error: "
                   ++ validation_error_str env errors))
       /\ invoice_logs (snd (upload_invoice env file w0)) = invoice_logs w0.
Proof.
  intros Henc Hchat Htext Hloads Hinvalid.
  rewrite sanitize_eq in Htext. injection Htext as <-.
  assert (exists w2,
            process_invoice_with_vllm env img w
            = (Raise (Exc RuntimeError
                        (py "Processing error: "
                         ++ validation_error_str env errors)), w2)
            /\ invoice_logs w2 = invoice_logs w) as (w2 & Hrun & Hrows).
  { rewrite process_run, Henc. cbn zeta. rewrite Hchat, Hloads, Hinvalid.
    eexists. split; [reflexivity|done]. }
  rewrite Hrun. split; [done|].
  intros file c filename w0 Hname Himg.
  pose proof (load_image_same_table env (UploadFile.content_type file)
                (UploadFile.content file) w0) as [Hload _].
  rewrite (upload_run env file c filename w0 Hname), Himg, Hrun.
  rewrite Himg in Hload. cbn [fst snd] in *. split; [reflexivity|congruence].
Qed.

End ExtractionFlow.

(** ** Validation: extra keys and error locations *)

Section ValidationFacts.
Implicit Types (d : gmap (list N) json) (loc : list loc_item) (j : json).

Lemma errors_of_vap {A B} (f : validation (A -> B)) (x : validation A) :
  errors_of (f <*> x) = errors_of f ++ errors_of x.
Proof. destruct f, x; simpl; by rewrite ?app_nil_r. Qed.

Lemma errors_of_Invalid {A} (v : validation A) e :
  e ∈ errors_of v -> exists errors, v = Invalid errors /\ e ∈ errors.
Proof. destruct v; simpl; [by intros ?%elem_of_nil | eauto]. Qed.

Lemma errors_of_elements {A} (v : list loc_item -> json -> validation A)
    loc n (items : list json) i j e :
  items !! i = Some j ->
  e ∈ errors_of (v (loc ++ [LIdx (n + i)]) j) ->
  e ∈ errors_of (validate_elements v loc n items).
Proof.
  revert n i. induction items as [|x items IH]; intros n i Hi He; [done|].
  cbn [validate_elements]. rewrite !errors_of_vap, !elem_of_app.
  destruct i as [|i].
  - injection Hi as ->. rewrite Nat.add_0_r in He. left. by right.
  - right. apply (IH (S n) i); [done|].
    by replace (S n + i) with (n + S i) by lia.
Qed.

(** A key that is no field of the model does not matter. *)
Ltac extra_key Hkey :=
  unfold with_default, required;
  rewrite !lookup_insert_ne
    by (intros ->; apply Hkey; repeat constructor);
  reflexivity.

Lemma InvoiceData_extra loc d key j :
  key ∉ InvoiceData_fields ->
  InvoiceData_validate loc (<[key := j]> d) = InvoiceData_validate loc d.
Proof.
  intros Hkey. unfold InvoiceData_validate, InvoiceData_fields in *.
  extra_key Hkey.
Qed.

Lemma VendorInfo_extra loc d key j :
  key ∉ VendorInfo_fields ->
  VendorInfo_validate loc (<[key := j]> d) = VendorInfo_validate loc d.
Proof.
  intros Hkey. unfold VendorInfo_validate, VendorInfo_fields in *.
  extra_key Hkey.
Qed.

Lemma CustomerInfo_extra loc d key j :
  key ∉ CustomerInfo_fields ->
  CustomerInfo_validate loc (<[key := j]> d) = CustomerInfo_validate loc d.
Proof.
  intros Hkey. unfold CustomerInfo_validate, CustomerInfo_fields in *.
  extra_key Hkey.
Qed.

Lemma Summary_extra loc d key j :
  key ∉ Summary_fields ->
  Summary_validate loc (<[key := j]> d) = Summary_validate loc d.
Proof.
  intros Hkey. unfold Summary_validate, Summary_fields in *.
  extra_key Hkey.
Qed.

Lemma InvoiceItem_extra loc d key j :
  key ∉ InvoiceItem_fields ->
  InvoiceItem_validate loc (<[key := j]> d) = InvoiceItem_validate loc d.
Proof.
  intros Hkey. unfold InvoiceItem_validate, InvoiceItem_fields in *.
  extra_key Hkey.
Qed.

End ValidationFacts.

Section ValidationClaims.
Implicit Types (d : gmap (list N) json) (loc : list loc_item) (j : json).

(** A serialized record has no key besides the declared ones. *)
Lemma model_dump_no_extra data key :
  key ∉ InvoiceData_fields -> has_key (model_dump data) key = false.
Proof.
  intros Hkey. unfold model_dump, has_key, dict_of, InvoiceData_fields in *.
  cbn [rev app list_to_map foldr uncurry fst snd].
  rewrite !lookup_insert_ne
    by (intros <-; apply Hkey; repeat constructor).
  by rewrite lookup_empty.
Qed.

(** X13: keys that the schema does not declare are ignored by validation, in
    [InvoiceData] and in every nested model, and they never reach the
    serialized record. *)
Theorem extra_keys_ignored loc d key j :
  (key ∉ InvoiceData_fields ->
   model_validate (JDict (<[key := j]> d)) = model_validate (JDict d)
   /\ forall data, has_key (model_dump data) key = false)
  /\ (key ∉ VendorInfo_fields ->
      VendorInfo_validate loc (<[key := j]> d) = VendorInfo_validate loc d)
  /\ (key ∉ CustomerInfo_fields ->
      CustomerInfo_validate loc (<[key := j]> d)
      = CustomerInfo_validate loc d)
  /\ (key ∉ Summary_fields ->
      Summary_validate loc (<[key := j]> d) = Summary_validate loc d)
  /\ (key ∉ InvoiceItem_fields ->
      InvoiceItem_validate loc (<[key := j]> d)
      = InvoiceItem_validate loc d).
Proof.
  split; [|split; [|split; [|split]]]; intros Hkey.
  - split; [by apply InvoiceData_extra|].
    intros data. by apply model_dump_no_extra.
  - by apply VendorInfo_extra.
  - by apply CustomerInfo_extra.
  - by apply Summary_extra.
  - by apply InvoiceItem_extra.
Qed.

(** The error of one field is among the errors of the model: find the field
    in the chain. *)
Ltac field_error tac :=
  rewrite !errors_of_vap, !elem_of_app;
  repeat first [ right; solve [tac] | left ];
  solve [tac].

(** X14: validation names what it rejects.  Every missing required key is
    reported as [missing] at that key; a value of an optional field that is
    neither [null] nor a string is reported as [string_type] at its key,
    also inside [vendor_info], and is not coerced; a line item without
    [description] is reported at [line_items], its index, [description]. *)
Theorem validation_error_locations d :
  (forall key,
     key ∈ InvoiceData_required -> d !! key = None ->
     {| err_loc := [LKey key]; err_type := missing |}
     ∈ errors_of (model_validate (JDict d)))
  /\ (forall key j,
        key ∈ InvoiceData_optional -> d !! key = Some j ->
        is_optional_str j = false ->
        {| err_loc := [LKey key]; err_type := string_type |}
        ∈ errors_of (model_validate (JDict d)))
  /\ (forall (vendor : gmap (list N) json) key j,
        d !! py "vendor_info" = Some (JDict vendor) ->
        key ∈ VendorInfo_fields -> vendor !! key = Some j ->
        is_optional_str j = false ->
        {| err_loc := [LKey (py "vendor_info"); LKey key];
           err_type := string_type |}
        ∈ errors_of (model_validate (JDict d)))
  /\ (forall items i (item : gmap (list N) json),
        d !! py "line_items" = Some (JList items) ->
        items !! i = Some (JDict item) ->
        item !! py "description" = None ->
        {| err_loc := [LKey (py "line_items"); LIdx i;
                       LKey (py "description")];
           err_type := missing |}
        ∈ errors_of (model_validate (JDict d))).
Proof.
  unfold model_validate, validate_model, InvoiceData_validate.
  split; [|split; [|split]].
  - intros key Hkey H. unfold InvoiceData_required in Hkey.
    repeat (apply elem_of_cons in Hkey as [->|Hkey]);
      [..|by apply elem_of_nil in Hkey];
      field_error ltac:(unfold required; rewrite H; cbn [errors_of app]; by constructor).
  - intros key j Hkey H Hj. unfold InvoiceData_optional in Hkey.
    repeat (apply elem_of_cons in Hkey as [->|Hkey]);
      [..|by apply elem_of_nil in Hkey];
      field_error ltac:(unfold with_default; rewrite H;
                        destruct j; try done; cbn [errors_of app]; by constructor).
  - intros vendor key j Hvendor Hkey H Hj.
    field_error ltac:(
      unfold required; rewrite Hvendor; cbn [validate_model];
      unfold VendorInfo_validate, VendorInfo_fields in *;
      repeat (apply elem_of_cons in Hkey as [->|Hkey]);
      [..|by apply elem_of_nil in Hkey];
      field_error ltac:(unfold with_default; rewrite H;
                        destruct j; try done; cbn [errors_of app]; by constructor)).
  - intros items i item Hitems Hi H.
    field_error ltac:(
      unfold required; rewrite Hitems; cbn [validate_list];
      apply (errors_of_elements _ _ 0 items i (JDict item)); [done|];
      cbn [validate_model]; unfold InvoiceItem_validate;
      field_error ltac:(unfold required; rewrite H;
                        cbn [errors_of app]; by constructor)).
Qed.

End ValidationClaims.

(** ** Answers wrapped in fences *)

Section FencedAnswers.
Implicit Types (sub p s prefix body tail : list N) (i j k : nat).

Lemma startswith_lookup p s k x :
  startswith p s = true -> p !! k = Some x -> s !! k = Some x.
Proof.
  intros H%startswith_inv Hk. rewrite H. by apply lookup_app_l_Some.
Qed.

Lemma startswith_fence s :
  s !! 0 = Some BACKTICK -> s !! 1 = Some BACKTICK -> s !! 2 = Some BACKTICK ->
  startswith FENCE s = true.
Proof.
  destruct s as [|a [|b [|c s]]]; try done. by intros [= ->] [= ->] [= ->].
Qed.

Lemma find_Some_intro sub s i :
  startswith sub (drop i s) = true ->
  (forall j, j < i -> startswith sub (drop j s) = false) ->
  find sub s = Some i.
Proof.
  intros Hi Hmin. destruct (find_is_Some sub s i Hi) as (i' & Hfind & Hle).
  rewrite Hfind. f_equal. destruct (decide (i' = i)) as [|Hne]; [done|].
  apply find_Some in Hfind as [Hi' _]. rewrite Hmin in Hi'; [done | lia].
Qed.

(** A fence needs three backticks, a text without backticks holds none. *)
Lemma fence_needs_backtick s j :
  startswith FENCE (drop j s) = true -> s !! j = Some BACKTICK.
Proof.
  intros H. rewrite <- (Nat.add_0_r j), <- lookup_drop.
  by apply (startswith_lookup FENCE _ 0 BACKTICK H).
Qed.

Lemma no_backtick_no_fence s : BACKTICK ∉ s -> find FENCE s = None.
Proof.
  intros Hs. apply find_None_intro. intros j.
  destruct (startswith FENCE (drop j s)) eqn:E; [|done].
  apply fence_needs_backtick in E. exfalso. apply Hs.
  by eapply list_elem_of_lookup_2.
Qed.

Lemma startswith_tag_fence s : startswith TAG s = true -> startswith FENCE s = true.
Proof.
  intros H%startswith_inv. eapply startswith_app.
  rewrite H at 1. rewrite TAG_FENCE, <- app_assoc. done.
Qed.

(** In front of the first fence of [body ++ FENCE ++ tail] stands [body],
    when [body] has no backtick. *)
Lemma find_closing_fence body tail :
  BACKTICK ∉ body -> find FENCE (body ++ FENCE ++ tail) = Some (length body).
Proof.
  intros Hbody. apply find_Some_intro.
  - rewrite drop_app_length. by eapply startswith_app.
  - intros j Hj.
    destruct (startswith FENCE (drop j (body ++ FENCE ++ tail))) eqn:E; [|done].
    apply fence_needs_backtick in E. rewrite lookup_app_l in E by done.
    exfalso. apply Hbody. by eapply list_elem_of_lookup_2.
Qed.

(** The character [k] places behind an occurrence of the tagged marker. *)
Lemma tag_lookup s j k x :
  startswith TAG (drop j s) = true -> TAG !! k = Some x -> s !! (j + k) = Some x.
Proof.
  intros H Hk. rewrite <- lookup_drop. by apply (startswith_lookup TAG).
Qed.

(** The first tagged marker of [prefix ++ TAG ++ rest] is the one shown,
    when [prefix] has no fence. *)
Lemma find_opening_tag prefix rest :
  find FENCE prefix = None ->
  find TAG (prefix ++ TAG ++ rest) = Some (length prefix).
Proof.
  intros Hprefix. apply find_Some_intro.
  - rewrite drop_app_length. by eapply startswith_app.
  - intros j Hj. set (content := prefix ++ TAG ++ rest).
    destruct (startswith TAG (drop j content)) eqn:E; [|done]. exfalso.
    destruct (decide (j + 3 <= length prefix)) as [Hin|Hout].
    + assert (startswith FENCE (drop j prefix) = true) as Hfence.
      { apply startswith_fence; rewrite lookup_drop;
          rewrite <- (lookup_app_l prefix (TAG ++ rest)) by lia.
        - by apply (tag_lookup content j 0).
        - by apply (tag_lookup content j 1).
        - by apply (tag_lookup content j 2). }
      by rewrite (find_None _ _ j Hprefix) in Hfence.
    + pose proof (tag_lookup content j 3 106%N E eq_refl) as H3.
      unfold content in H3. rewrite lookup_app_r in H3 by lia.
      assert (j + 3 - length prefix = 1 \/ j + 3 - length prefix = 2)
        as [Hk|Hk] by lia; rewrite Hk in H3; discriminate H3.
Qed.

(** Behind [body ++ FENCE], a tagged marker starts at the fence or behind
    it, when [body] has no backtick and [tail] does not start with one. *)
Lemma tag_behind_body body tail q :
  BACKTICK ∉ body -> head tail <> Some BACKTICK ->
  find TAG (body ++ FENCE ++ tail) = Some q ->
  q = length body \/ length body + 3 <= q.
Proof.
  intros Hbody Htail [Hq _]%find_Some.
  set (rest := body ++ FENCE ++ tail) in *.
  assert (rest !! (length body + 3) = head tail) as Hnext.
  { unfold rest. rewrite lookup_app_r by lia.
    rewrite lookup_app_r by (simpl; lia).
    rewrite head_lookup. f_equal. simpl. lia. }
  destruct (decide (q < length body)) as [Hlt|Hge].
  { exfalso. apply Hbody.
    pose proof (tag_lookup rest q 0 BACKTICK Hq eq_refl) as H0.
    rewrite Nat.add_0_r in H0. unfold rest in H0.
    rewrite lookup_app_l in H0 by done. by eapply list_elem_of_lookup_2. }
  destruct (decide (q = length body + 1)) as [->|H1].
  { exfalso. apply Htail. rewrite <- Hnext.
    replace (length body + 3) with (length body + 1 + 2) by lia.
    by apply (tag_lookup rest _ 2). }
  destruct (decide (q = length body + 2)) as [->|H2].
  { exfalso. apply Htail. rewrite <- Hnext.
    replace (length body + 3) with (length body + 2 + 1) by lia.
    by apply (tag_lookup rest _ 1). }
  lia.
Qed.

(** Fuel beyond the length of the string changes nothing. *)
Lemma replace_loop_fuel old new s fuel :
  old <> [] -> length s <= fuel ->
  replace_loop fuel old new s = replace_loop (length s) old new s.
Proof.
  intros Hold. revert s.
  induction (lt_wf fuel) as [fuel _ IH]. intros s Hfuel.
  destruct (find old s) as [i|] eqn:F.
  - pose proof (find_bound _ _ _ F) as Hb.
    assert (0 < length old) by (destruct old; [done | simpl; lia]).
    destruct fuel as [|fuel]; [lia|].
    destruct (length s) as [|n] eqn:Hlen; [lia|].
    simpl. rewrite F. do 2 f_equal.
    assert (length (drop (i + length old) s) <= n)
      by (rewrite length_drop; lia).
    rewrite (IH fuel) by lia. symmetry.
    destruct (decide (n = fuel)) as [->|]; [apply IH; lia|].
    apply IH; lia.
  - destruct fuel, (length s); simpl; by rewrite F.
Qed.

(** Taking the fences out, piece by piece. *)
Lemma replace_fence_none s : BACKTICK ∉ s -> replace FENCE [] s = s.
Proof.
  intros Hs. unfold replace. cbn [FENCE]. fold FENCE.
  destruct (length s); simpl; by rewrite no_backtick_no_fence.
Qed.

Lemma replace_fence_cons p s :
  BACKTICK ∉ p ->
  replace FENCE [] (p ++ FENCE ++ s) = p ++ replace FENCE [] s.
Proof.
  intros Hp. unfold replace. cbn [FENCE]. fold FENCE.
  rewrite !length_app. change (length FENCE) with 3.
  replace (length p + (3 + length s)) with (S (length p + 2 + length s))
    by lia.
  cbn [replace_loop]. rewrite (find_closing_fence p s Hp).
  rewrite take_app_length, app_nil_l. f_equal.
  change 3 with (length FENCE).
  rewrite <- drop_drop, drop_app_length, drop_app_length.
  apply replace_loop_fuel; [done | lia].
Qed.

Lemma replace_fence_join parts :
  Forall (fun part => BACKTICK ∉ part) parts ->
  replace FENCE [] (join FENCE parts) = concat parts.
Proof.
  induction 1 as [|part parts Hpart Hparts IH]; [done|].
  destruct parts as [|part' parts].
  - simpl. rewrite app_nil_r. by apply replace_fence_none.
  - change (join FENCE (part :: part' :: parts))
      with (part ++ FENCE ++ join FENCE (part' :: parts)).
    rewrite replace_fence_cons by done. by rewrite IH.
Qed.

End FencedAnswers.

Section FencedAnswerClaims.

(** X15: an answer of the form [prefix ```json body ``` tail] is reduced to
    [body], stripped of surrounding white space, whatever the commentary in
    front of and behind the fences: provided [prefix] holds no fence, [body]
    no backtick, and [tail] does not start with a backtick. *)
Theorem tagged_fence_unwrapped (prefix body tail : list N) :
  find FENCE prefix = None ->
  BACKTICK ∉ body ->
  head tail <> Some BACKTICK ->
  sanitize (prefix ++ TAG ++ body ++ FENCE ++ tail) = Ok (strip body).
Proof.
  intros Hprefix Hbody Htail.
  rewrite sanitize_eq. unfold code_sanitize, contains, tagged_body.
  pose proof (find_opening_tag prefix (body ++ FENCE ++ tail) Hprefix) as Htag.
  rewrite Htag. unfold after_first at 1. rewrite Htag.
  rewrite <- drop_drop, drop_app_length, drop_app_length.
  f_equal. f_equal.
  pose proof (find_closing_fence body tail Hbody) as Hfence.
  unfold before_first at 2.
  destruct (find TAG (body ++ FENCE ++ tail)) as [q|] eqn:Hq.
  - destruct (tag_behind_body body tail q Hbody Htail Hq) as [->|Hfar].
    + rewrite take_app_length. unfold before_first.
      by rewrite no_backtick_no_fence.
    + unfold before_first.
      rewrite (find_take FENCE _ q (length body)) by (done || simpl; lia).
      rewrite take_take, Nat.min_l by lia. by rewrite take_app_length.
  - unfold before_first. rewrite Hfence. by rewrite take_app_length.
Qed.

(** X16: without a tagged marker, an answer whose pieces are joined by plain
    fences is reduced to the pieces put together and stripped of
    surrounding white space: the fences go, the commentary around them
    stays in the text given to the parser. *)
Theorem plain_fences_removed (first second : list N) (others : list (list N)) :
  Forall (fun part => BACKTICK ∉ part) (first :: second :: others) ->
  contains TAG (join FENCE (first :: second :: others)) = false ->
  sanitize (join FENCE (first :: second :: others))
  = Ok (strip (concat (first :: second :: others))).
Proof.
  intros Hparts Htag. rewrite sanitize_eq. unfold code_sanitize.
  rewrite Htag.
  assert (contains FENCE (join FENCE (first :: second :: others)) = true)
    as ->.
  { unfold contains.
    change (join FENCE (first :: second :: others))
      with (first ++ FENCE ++ join FENCE (second :: others)).
    apply Forall_cons in Hparts as [Hfirst _].
    by rewrite find_closing_fence. }
  unfold without_fences. by rewrite replace_fence_join.
Qed.

End FencedAnswerClaims.

(** ** The static file route *)

Section PathFacts.
Implicit Types (c : N) (s stem suffix : list N).

Lemma startswith_single c s : startswith [c] s = true <-> head s = Some c.
Proof.
  destruct s as [|b s]; simpl; [done|].
  destruct (N.eqb_spec c b) as [->|Hne]; [done|].
  split; [done|]. intros [= ->]. done.
Qed.

Lemma find_single_None c s : find [c] s = None -> c ∉ s.
Proof.
  intros F [j Hj]%list_elem_of_lookup_1.
  pose proof (find_None _ _ j F) as E.
  assert (startswith [c] (drop j s) = true) as E'; [|congruence].
  apply startswith_single. by rewrite head_lookup, lookup_drop, Nat.add_0_r.
Qed.

Lemma contains_single c s : contains [c] s = false -> c ∉ s.
Proof.
  unfold contains. destruct (find [c] s) eqn:F; [done|].
  intros _. by apply find_single_None.
Qed.

Lemma rfind_single_None c s : c ∉ s -> rfind [c] s = None.
Proof.
  induction s as [|b s IH]; intros Hc; [done|].
  cbn [rfind]. rewrite IH by set_solver.
  destruct (startswith [c] (b :: s)) eqn:E; [|done].
  apply startswith_single in E. simpl in E. set_solver.
Qed.

Lemma rfind_single_last c stem suffix :
  c ∉ suffix -> rfind [c] (stem ++ c :: suffix) = Some (length stem).
Proof.
  intros Hc. induction stem as [|b stem IH].
  - cbn [app rfind length]. rewrite rfind_single_None by done.
    simpl. by rewrite N.eqb_refl.
  - cbn [app length]. cbn [rfind]. fold (stem ++ c :: suffix). by rewrite IH.
Qed.

Lemma has_stem_dots dots rest k n :
  Forall (fun c => c = EXTSEP) dots -> k + n <= length dots ->
  has_stem (dots ++ rest) k n = false.
Proof.
  intros Hd. revert k. induction n as [|n IH]; intros k Hk; [done|].
  cbn [has_stem].
  assert (take 1 (drop k (dots ++ rest)) = [EXTSEP]) as ->.
  { destruct (lookup_lt_is_Some_2 dots k) as [c Hc]; [lia|].
    pose proof (proj1 (Forall_lookup _ _) Hd _ _ Hc) as ->.
    rewrite (drop_S (dots ++ rest) EXTSEP k).
    - done.
    - by rewrite lookup_app_l by lia. }
  rewrite bool_decide_true by done. simpl. apply IH. lia.
Qed.

(** The extension of a name whose last dot is followed by [suffix]. *)
Lemma splitext_last_dot stem suffix :
  EXTSEP ∉ suffix ->
  snd (splitext (stem ++ EXTSEP :: suffix)) = EXTSEP :: suffix
  \/ snd (splitext (stem ++ EXTSEP :: suffix)) = [].
Proof.
  intros Hs. unfold splitext.
  rewrite (rfind_single_last EXTSEP) by done. cbn [index_of].
  match goal with |- context [if ?b then _ else _] => destruct b end;
    [left | by right].
  cbn [snd]. by rewrite Nat2Z.id, drop_app_length.
Qed.

(** A name that is dots followed by a text without dots has no extension. *)
Lemma splitext_leading_dots dots name :
  Forall (fun c => c = EXTSEP) dots -> EXTSEP ∉ name ->
  splitext (dots ++ name) = (dots ++ name, []).
Proof.
  intros Hd Hn. unfold splitext.
  destruct (rfind [EXTSEP] (dots ++ name)) as [i|] eqn:R; cycle 1.
  { cbn [index_of].
    destruct (rfind [SEP] (dots ++ name)); cbn [index_of];
      match goal with |- context [(?a <? ?b)%Z] =>
        destruct (Z.ltb_spec a b) as [Hlt|_]; [lia | done] end. }
  assert (S i = length dots) as Hi.
  { destruct dots as [|d dots _] using rev_ind.
    - simpl in R. by rewrite rfind_single_None in R.
    - apply Forall_app in Hd as [_ Hd]. apply Forall_singleton in Hd as ->.
      rewrite <- app_assoc in R. cbn [app] in R.
      rewrite rfind_single_last in R by done. injection R as <-.
      rewrite length_app. simpl. lia. }
  cbn [index_of].
  destruct (rfind [SEP] (dots ++ name)) as [j|] eqn:Rs; cbn [index_of].
  - destruct (Z.ltb_spec (Z.of_nat j) (Z.of_nat i)) as [Hlt|_]; [|done].
    rewrite has_stem_dots; [done | done | lia].
  - destruct (Z.ltb_spec (-1) (Z.of_nat i)) as [_|Hge]; [|lia].
    rewrite has_stem_dots; [done | done | lia].
Qed.

Lemma path_join_here s :
  SEP ∉ s -> path_join (py ".") s = py "./" ++ s.
Proof.
  intros Hs. unfold path_join.
  destruct (startswith [SEP] s) eqn:E.
  { apply startswith_single in E. destruct s; [done|]. simpl in E.
    injection E as ->. set_solver. }
  done.
Qed.

End PathFacts.

Section StaticFacts.
Context (host : Host).

Lemma lower_nil : lower host [] = [].
Proof. done. Qed.

Lemma nil_not_allowed : [] ∉ allowed_extensions.
Proof.
  unfold allowed_extensions. intros H.
  repeat (apply elem_of_cons in H as [H|H]; [discriminate H|]).
  by apply elem_of_nil in H.
Qed.

Lemma no_extension_refused filename :
  snd (splitext filename) = [] ->
  serve_static_file host filename
  = Raise (HTTPException 404 (py "File type not allowed")).
Proof.
  intros E. unfold serve_static_file. rewrite E, lower_nil.
  rewrite bool_decide_false by apply nil_not_allowed. done.
Qed.

(** X17: the static route serves a file only under its own name in the
    working directory: the path is "./" followed by the name, the name has
    no slash and no "..", its extension in lower case is one of the eight
    allowed ones, and the path exists and is a regular file.  Every other
    request is answered with status 404. *)
Theorem static_file_route filename :
  match serve_static_file host filename with
  | Ok response =>
      path response = py "./" ++ filename
      /\ (SEP ∉ filename)
      /\ contains (py "..") filename = false
      /\ lower host (snd (splitext filename)) ∈ allowed_extensions
      /\ path_exists host (path response) = true
      /\ path_isfile host (path response) = true
  | Raise e => exists detail, e = HTTPException 404 detail
  end.
Proof.
  unfold serve_static_file.
  destruct (decide (lower host (snd (splitext filename)) ∈ allowed_extensions))
    as [Hin|Hout].
  2: { rewrite bool_decide_false by done. cbn [negb]. by eexists. }
  rewrite bool_decide_true by done. cbn [negb].
  destruct (contains (py "..") filename) eqn:Hdots; cbn [orb]; [by eexists|].
  destruct (contains (py "/") filename) eqn:Hsep; [by eexists|].
  apply (contains_single SEP) in Hsep.
  rewrite path_join_here by done.
  destruct (path_exists host (py "./" ++ filename)) eqn:He;
    cbn [andb]; [|by eexists].
  destruct (path_isfile host (py "./" ++ filename)) eqn:Hf; [|by eexists].
  cbn [path]. done.
Qed.

(** X18: a name whose text behind the last dot is not an allowed extension
    is refused with 404 "File type not allowed", whatever the directory
    holds. *)
Theorem other_file_types_refused stem suffix :
  EXTSEP ∉ suffix ->
  lower host (EXTSEP :: suffix) ∉ allowed_extensions ->
  serve_static_file host (stem ++ EXTSEP :: suffix)
  = Raise (HTTPException 404 (py "File type not allowed")).
Proof.
  intros Hs Hout.
  destruct (splitext_last_dot stem suffix Hs) as [E|E].
  - unfold serve_static_file. rewrite E.
    by rewrite bool_decide_false by done.
  - by apply no_extension_refused.
Qed.

(** X19: a name without a dot, and a name that has dots only at its
    beginning (".env", ".png", "..x"), has no extension and is refused. *)
Theorem dotfiles_refused dots name :
  Forall (fun c => c = EXTSEP) dots -> EXTSEP ∉ name ->
  serve_static_file host (dots ++ name)
  = Raise (HTTPException 404 (py "File type not allowed")).
Proof.
  intros Hd Hn. apply no_extension_refused.
  by rewrite splitext_leading_dots.
Qed.

End StaticFacts.

Lemma other_file_types_refused_witness :
  (EXTSEP ∉ py "py")
  /\ (lower Examples.host (EXTSEP :: py "py") ∉ allowed_extensions)
  /\ serve_static_file Examples.host (py "main.py")
     = Raise (HTTPException 404 (py "File type not allowed")).
Proof.
  assert (EXTSEP ∉ py "py") as H1.
  { apply (bool_decide_unpack _). vm_compute. exact I. }
  assert (lower Examples.host (EXTSEP :: py "py") ∉ allowed_extensions) as H2.
  { apply (bool_decide_unpack _). vm_compute. exact I. }
  split; [exact H1|]. split; [exact H2|].
  exact (other_file_types_refused Examples.host (py "main") (py "py") H1 H2).
Defined.

Lemma dotfiles_refused_witness :
  Forall (fun c => c = EXTSEP) (py ".")
  /\ (EXTSEP ∉ py "png")
  /\ serve_static_file Examples.host (py ".png")
     = Raise (HTTPException 404 (py "File type not allowed")).
Proof.
  assert (Forall (fun c => c = EXTSEP) (py ".")) as H1.
  { apply (bool_decide_unpack _). vm_compute. exact I. }
  assert (EXTSEP ∉ py "png") as H2.
  { apply (bool_decide_unpack _). vm_compute. exact I. }
  split; [exact H1|]. split; [exact H2|].
  exact (dotfiles_refused Examples.host (py ".") (py "png") H1 H2).
Defined.

Lemma static_file_served :
  serve_static_file Examples.host (py "logo.PNG")
  = Ok {| path := py "./logo.PNG" |}.
Proof. vm_compute. reflexivity. Qed.

(** ** The extraction script *)

Section DecimalFacts.

Lemma py_inj a b : py a = py b -> a = b.
Proof.
  unfold py. intros H.
  rewrite <- (String.string_of_list_ascii_of_string a).
  rewrite <- (String.string_of_list_ascii_of_string b).
  f_equal. revert H.
  generalize (String.list_ascii_of_string a) (String.list_ascii_of_string b).
  intros l. induction l as [|x l IH]; intros [|y l'] H; simpl in H;
    try done.
  injection H as Hxy Hl. f_equal; [|by apply IH].
  rewrite <- (ascii_N_embedding x), <- (ascii_N_embedding y). by f_equal.
Qed.

Lemma py_String c s : py (String.String c s) = N_of_ascii c :: py s.
Proof. done. Qed.

Lemma uint_digits d : Forall sign_or_digit (py (DecimalString.NilEmpty.string_of_uint d)).
Proof.
  induction d; cbn [DecimalString.NilEmpty.string_of_uint]; [constructor|..];
    rewrite py_String; (constructor; [by right | assumption]).
Qed.

Lemma str_int_chars n : Forall sign_or_digit (str_int n).
Proof.
  unfold str_int.
  assert (forall d, Forall sign_or_digit (py (DecimalString.NilZero.string_of_uint d))) as Hu.
  { intros d. unfold DecimalString.NilZero.string_of_uint. destruct d; try apply uint_digits.
    rewrite py_String. constructor; [by right | constructor]. }
  destruct (Z.to_int n) as [d|d]; cbn [DecimalString.NilZero.string_of_int]; [apply Hu|].
  rewrite py_String. constructor; [by left | apply Hu].
Qed.

Lemma to_int_proper n : Z.to_int n <> Decimal.Pos Decimal.Nil /\ Z.to_int n <> Decimal.Neg Decimal.Nil.
Proof.
  destruct n as [|p|p]; cbn [Z.to_int]; split; try done;
    intros [= H]; by apply DecimalPos.Unsigned.to_uint_nonnil in H.
Qed.

Lemma str_int_inj n m : str_int n = str_int m -> n = m.
Proof.
  unfold str_int. intros H%py_inj. apply DecimalZ.to_int_inj.
  destruct (to_int_proper n) as [Hn1 Hn2], (to_int_proper m) as [Hm1 Hm2].
  pose proof (DecimalString.NilZero.isi _ Hn1 Hn2) as En.
  pose proof (DecimalString.NilZero.isi _ Hm1 Hm2) as Em.
  rewrite H in En. congruence.
Qed.

Lemma str_int_nonempty n : str_int n <> [].
Proof.
  unfold str_int. destruct (Z.to_int n) as [d|d] eqn:E;
    cbn [DecimalString.NilZero.string_of_int]; [|by rewrite py_String].
  destruct d; try by (cbn [DecimalString.NilZero.string_of_uint DecimalString.NilEmpty.string_of_uint];
    rewrite py_String).
Qed.

Lemma cut_at_first (c : N) l1 r1 l2 r2 :
  c ∉ l1 -> c ∉ l2 -> l1 ++ c :: r1 = l2 ++ c :: r2 -> l1 = l2 /\ r1 = r2.
Proof.
  revert l2. induction l1 as [|x l1 IH]; intros [|y l2] H1 H2 E;
    simpl in E.
  - by injection E as ->.
  - injection E as -> _. exfalso. apply H2. constructor.
  - injection E as -> _. exfalso. apply H1. constructor.
  - injection E as -> E. apply not_elem_of_cons in H1 as [_ H1].
    apply not_elem_of_cons in H2 as [_ H2].
    by destruct (IH l2 H1 H2 E) as [-> ->].
Qed.

Lemma str_int_no (c : N) n : ~ sign_or_digit c -> c ∉ str_int n.
Proof.
  intros Hc Hin. pose proof (str_int_chars n) as H.
  by apply (proj1 (Forall_forall _ _) H) in Hin.
Qed.

Lemma output_path_eq log :
  output_path log
  = py "extracted_files/" ++ str_int (id log) ++ py "_" ++ filename log.
Proof.
  unfold output_path, path_join.
  destruct (startswith [SEP] _) eqn:E.
  { apply startswith_single in E.
    pose proof (str_int_nonempty (id log)) as Hne.
    destruct (str_int (id log)) as [|c r] eqn:S; [done|].
    simpl in E. injection E as ->.
    assert (SEP ∈ str_int (id log)) as Hin by (rewrite S; constructor).
    apply str_int_no in Hin; [done|]. by intros [|]. }
  done.
Qed.

End DecimalFacts.

Section ExtractFacts.
Context {disk : Type} (os : Os disk) (env : Env).
Implicit Types (p : process disk) (row : InvoiceLog).

Lemma ensure_table p : table (snd (ensure_output_dir os p)) = table p.
Proof.
  unfold ensure_output_dir, mbind, Script_bind, on_disk, print, mret,
    Script_ret. cbn.
  destruct (os_path_exists os OUTPUT_DIR (files p)); cbn; [done|].
  destruct (os_makedirs os OUTPUT_DIR (files p)) as [[[]|e] d]; done.
Qed.

Lemma ensure_present p :
  os_path_exists os OUTPUT_DIR (files p) = true ->
  ensure_output_dir os p = (Ok tt, p).
Proof.
  intros E. unfold ensure_output_dir, mbind, Script_bind, on_disk, mret,
    Script_ret. cbn. rewrite E. cbn. by destruct p.
Qed.

(** The run of the script, call by call. *)
Lemma extract_run log_id p :
  extract_single_file os env log_id p
  = match ensure_output_dir os p with
    | (Raise e, p1) => (Raise e, p1)
    | (Ok _, p1) =>
        let p2 := printed [connecting log_id] p1 in
        match head (List.filter (fun r => bool_decide (id r = log_id))
                      (table p1)) with
        | None =>
            if in_integer_range log_id then
              (Ok tt,
               printed [CROSS ++ py " Error: No invoice log found with ID "
                        ++ str_int log_id] p2)
            else (Raise (DBAPIError env (SelectLog log_id)), p2)
        | Some log =>
            match write_binary os (output_path log) (file_content log)
                    (files p1) with
            | (Ok _, d) =>
                (Ok tt,
                 printed
                   [CHECK ++ py " Successfully saved file to: "
                    ++ output_path log;
                    PAGE ++ py " Original Filename: " ++ filename log;
                    CALENDAR ++ py " Created At: "
                    ++ str_datetime os (created_at log)]
                   (with_files d p2))
            | (Raise e, d) =>
                (Ok tt,
                 printed [CROSS ++ py " Failed to save file: " ++ str_exn env e]
                   (with_files d p2))
            end
        end
    end.
Proof.
  unfold extract_single_file. unfold mbind at 1. unfold Script_bind at 1.
  destruct (ensure_output_dir os p) as [[[]|e] p1]; [|done].
  unfold mbind, Script_bind, print, first_with_id, try_script, on_disk.
  cbn [table files stdout].
  destruct (head _) as [log|].
  2: { destruct (in_integer_range log_id); unfold printed;
       cbn [table files stdout]; reflexivity. }
  destruct (write_binary os _ _ _) as [[[]|e] d]; cbn [table files stdout];
    unfold printed, with_files; cbn [table files stdout];
    rewrite <- ?app_assoc; reflexivity.
Qed.

(** X20: rows with different identities are written to different paths,
    whatever their file names are: the path is "extracted_files/", the
    decimal identity, an underscore and the stored file name. *)
Theorem output_paths_distinct (a b : InvoiceLog) :
  id a <> id b ->
  output_path a <> output_path b
  /\ output_path a
     = py "extracted_files/" ++ str_int (id a) ++ py "_" ++ filename a.
Proof.
  intros Hne. split; [|apply output_path_eq].
  rewrite !output_path_eq. intros E.
  apply app_inv_head in E.
  apply (cut_at_first 95%N) in E as [E _].
  - by apply str_int_inj in E.
  - apply str_int_no. by intros [|].
  - apply str_int_no. by intros [|].
Qed.

(** X21: for an identity no row has, the script writes no file.  When the
    identity is within the range of the INTEGER column, the script prints
    that no row was found and returns normally; when it is outside, the
    query raises the [DBAPIError], which leaves [extract_single_file]
    behind the first line of output. *)
Theorem extract_unknown_id log_id p p1 :
  Forall (fun r => id r <> log_id) (table p) ->
  ensure_output_dir os p = (Ok tt, p1) ->
  extract_single_file os env log_id p
  = (if in_integer_range log_id then
       (Ok tt,
        printed [connecting log_id;
                 CROSS ++ py " Error: No invoice log found with ID "
                 ++ str_int log_id] p1)
     else
       (Raise (DBAPIError env (SelectLog log_id)),
        printed [connecting log_id] p1))
  /\ files (snd (extract_single_file os env log_id p)) = files p1
  /\ (os_path_exists os OUTPUT_DIR (files p) = true -> p1 = p).
Proof.
  intros Hnone He.
  assert (extract_single_file os env log_id p
          = (if in_integer_range log_id then
               (Ok tt,
                printed [connecting log_id;
                         CROSS ++ py " Error: No invoice log found with ID "
                         ++ str_int log_id] p1)
             else
               (Raise (DBAPIError env (SelectLog log_id)),
                printed [connecting log_id] p1))) as Hrun.
  { rewrite extract_run, He. cbn zeta.
    pose proof (ensure_table p) as Ht. rewrite He in Ht. cbn [snd] in Ht.
    rewrite Ht, lookup_absent by done. cbn [head].
    destruct (in_integer_range log_id); [|done].
    unfold printed. cbn [table files stdout]. by rewrite <- app_assoc. }
  split; [exact Hrun|]. split.
  - rewrite Hrun. by destruct (in_integer_range log_id).
  - intros E. rewrite (ensure_present p E) in He. by injection He.
Qed.

(** The run for a row of a table with unique identities. *)
Lemma extract_found row p p1 :
  NoDup (map id (table p)) -> row ∈ table p ->
  ensure_output_dir os p = (Ok tt, p1) ->
  extract_single_file os env (id row) p
  = (Ok tt,
     match write_binary os
             (py "extracted_files/" ++ str_int (id row) ++ py "_"
              ++ filename row)
             (file_content row) (files p1) with
     | (Ok _, d) =>
         printed
           [connecting (id row);
            CHECK ++ py " Successfully saved file to: " ++ output_path row;
            PAGE ++ py " Original Filename: " ++ filename row;
            CALENDAR ++ py " Created At: "
            ++ str_datetime os (created_at row)]
           (with_files d p1)
     | (Raise e, d) =>
         printed
           [connecting (id row);
            CROSS ++ py " Failed to save file: " ++ str_exn env e]
           (with_files d p1)
     end).
Proof.
  intros Hnd Hin He.
  pose proof (ensure_table p) as Ht. rewrite He in Ht. cbn [snd] in Ht.
  rewrite extract_run, He. cbn zeta.
  rewrite Ht, (lookup_unique _ row Hnd Hin).
  rewrite <- output_path_eq.
  destruct (write_binary os (output_path row) (file_content row) (files p1))
    as [[[]|e] d]; unfold printed, with_files; cbn [table files stdout];
    by rewrite <- app_assoc.
Qed.

(** X22: for a row of a table with unique identities the script makes one
    write, of exactly the stored bytes, to the path of the row, and returns
    normally also when the write fails; the table is not changed. *)
Theorem extract_writes_stored_bytes row p p1 :
  NoDup (map id (table p)) -> row ∈ table p ->
  ensure_output_dir os p = (Ok tt, p1) ->
  let written :=
    write_binary os
      (py "extracted_files/" ++ str_int (id row) ++ py "_" ++ filename row)
      (file_content row) (files p1) in
  let p' := snd (extract_single_file os env (id row) p) in
  fst (extract_single_file os env (id row) p) = Ok tt
  /\ files p' = snd written
  /\ table p' = table p
  /\ (fst written = Ok tt ->
      stdout p'
      = stdout p1
        ++ [connecting (id row);
            CHECK ++ py " Successfully saved file to: " ++ output_path row;
            PAGE ++ py " Original Filename: " ++ filename row;
            CALENDAR ++ py " Created At: "
            ++ str_datetime os (created_at row)]).
Proof.
  intros Hnd Hin He. cbn zeta.
  pose proof (ensure_table p) as Ht. rewrite He in Ht. cbn [snd] in Ht.
  rewrite (extract_found row p p1 Hnd Hin He). cbn [fst snd].
  destruct (write_binary os _ (file_content row) (files p1))
    as [[[]|e] d]; cbn [fst snd printed with_files table files stdout];
    repeat split; done.
Qed.

(** X23: the script gives back what was uploaded: run on the table an
    accepted upload left, for the identity the upload was answered with, it
    writes exactly the uploaded bytes, to "extracted_files/", the identity,
    an underscore and the name of the upload. *)
Theorem upload_then_extract
    (file : UploadFile.t) (w w' : world) response p p1 :
  db_ok w ->
  upload_invoice env file w = (Ok response, w') ->
  table p = invoice_logs w' ->
  ensure_output_dir os p = (Ok tt, p1) ->
  exists name,
    UploadFile.filename file = Some name
    /\ fst (extract_single_file os env (log_id response) p) = Ok tt
    /\ files (snd (extract_single_file os env (log_id response) p))
       = snd (write_binary os
                (py "extracted_files/" ++ str_int (log_id response)
                 ++ py "_" ++ name)
                (UploadFile.content file) (files p1)).
Proof.
  intros Hok Hup Htable He.
  destruct (upload_cases env file w)
    as [(e & w1 & Hrun & _)|(name & data & w2 & Hname & Hsame & _ & Hrow & Hr)];
    [by rewrite Hup in Hrun|].
  rewrite Hup in Hrow, Hr. cbn [fst snd] in Hrow, Hr.
  injection Hr as ->.
  apply (db_ok_same_table w w2) in Hok; [|done].
  destruct (create_db_ok env _ _ _ _ _ _ Hok Hrow) as ([_ Hnd] & _ & Hrows).
  exists name. split; [done|].
  set (row := {| id := next_id w; filename := name;
                 file_content := UploadFile.content file;
                 extracted_schema_content := model_dump data;
                 created_at := now w |}) in *.
  cbn [log_id].
  assert (row ∈ table p) as Hin.
  { rewrite Htable, Hrows. apply elem_of_app. right.
    by apply list_elem_of_singleton. }
  rewrite <- Htable in Hnd.
  pose proof (extract_found row p p1 Hnd Hin He) as Hrun.
  change (id row) with (next_id w) in Hrun. rewrite Hrun. cbn [fst snd].
  split; [done|].
  change (filename row) with name. change (file_content row) with
    (UploadFile.content file).
  by destruct (write_binary os _ (UploadFile.content file) (files p1))
    as [[[]|e] d].
Qed.

(** A failure to create the output directory leaves the script before the
    table is read. *)
Lemma extract_no_directory log_id p e p1 :
  ensure_output_dir os p = (Raise e, p1) ->
  extract_single_file os env log_id p = (Raise e, p1).
Proof. intros He. by rewrite extract_run, He. Qed.

End ExtractFacts.

(** ** Previews, failed listings, and uploads in the listing *)

Section HandlerFacts.
Context (env : Env).
Implicit Types (w : world) (l : list InvoiceLog) (r row : InvoiceLog).

Lemma lookup_found l (n : Z) row :
  head (List.filter (fun r => bool_decide (id r = n)) l) = Some row ->
  row ∈ l /\ id row = n.
Proof.
  intros H. apply head_Some_elem_of in H.
  apply list_elem_of_In, filter_In in H as [Hin Hid].
  split; [by apply list_elem_of_In|]. by apply bool_decide_eq_true in Hid.
Qed.

Lemma lookup_none l (n : Z) :
  head (List.filter (fun r => bool_decide (id r = n)) l) = None ->
  Forall (fun r => id r <> n) l.
Proof.
  induction l as [|x l IH]; [constructor|]. cbn [List.filter].
  destruct (bool_decide_reflect (id x = n)) as [|Hne]; [done|].
  intros H. constructor; [done | by apply IH].
Qed.

(** A row that is newer than all the others comes first. *)
Lemma newest_first_in_order l row acc :
  Forall (fun r => (created_at r < created_at row)%Z) l ->
  foldr insert_desc (row :: acc) l = row :: foldr insert_desc acc l.
Proof.
  induction 1 as [|x l Hx _ IH]; [done|].
  cbn [foldr]. rewrite IH. cbn [insert_desc].
  destruct (Z.leb_spec (created_at row) (created_at x)); [lia | done].
Qed.

Lemma order_by_newest l row :
  Forall (fun r => (created_at r < created_at row)%Z) l ->
  order_by_created_at_desc (l ++ [row]) = row :: order_by_created_at_desc l.
Proof.
  intros H. unfold order_by_created_at_desc. rewrite foldr_app.
  cbn [foldr insert_desc]. by apply newest_first_in_order.
Qed.

End HandlerFacts.

Section HandlerClaims.
Context (env : Env).

(** X24: a preview is answered with status 404 exactly when the identity
    is within the range of the INTEGER column and no row has it, and then
    no library is called; an identity outside that range, which no row has,
    makes the look-up in front of the [try] block raise the [DBAPIError],
    and that exception leaves the handler as it is.  For a stored row every
    failure is reported under status 500, and an answer is a JPEG. *)
Theorem preview_status (log_id : Z) (w : world) :
  match fst (preview_log_image env log_id w) with
  | Ok response =>
      media_type response = py "image/jpeg"
      /\ exists row, row ∈ invoice_logs w /\ id row = log_id
  | Raise e =>
      (e = HTTPException 404 (py "Log not found")
       /\ in_integer_range log_id = true
       /\ Forall (fun r => id r <> log_id) (invoice_logs w)
       /\ snd (preview_log_image env log_id w) = w)
      \/ (e = DBAPIError env (SelectLog log_id)
          /\ in_integer_range log_id = false
          /\ Forall (fun r => id r <> log_id) (invoice_logs w)
          /\ snd (preview_log_image env log_id w) = w)
      \/ (exists cause row,
            e = HTTPException 500
                  (py "Preview generation failed: " ++ str_exn env cause)
            /\ row ∈ invoice_logs w /\ id row = log_id)
  end.
Proof.
  destruct (head (List.filter (fun r => bool_decide (id r = log_id))
                    (invoice_logs w))) as [row|] eqn:Hrow.
  - destruct (lookup_found _ _ _ Hrow) as [Hin Hid].
    rewrite (preview_run env log_id w row Hrow).
    destruct (decode_stored env (file_content row) w) as [[[img|]|e] w1];
      cbn [fst].
    + destruct (encode_preview env img) as [response|e] eqn:Henc.
      * split; [|by exists row]. unfold encode_preview in Henc.
        destruct (convert_rgb env img) as [rgb|]; [|done].
        cbn in Henc. destruct (save_jpeg env rgb); [|done].
        cbn in Henc. by injection Henc as <-.
      * right. right. by exists e, row.
    + right. right. by eexists _, row.
    + right. right. by exists e, row.
  - apply lookup_none in Hrow as Hnone.
    unfold preview_log_image, get_invoice_log_by_id, mbind, M_bind.
    rewrite Hrow. destruct (in_integer_range log_id); cbn.
    + left. by repeat split.
    + right. left. by repeat split.
Qed.


(** X26: an accepted upload heads the listing: when its creation time is
    later than that of every stored row, the first row of the unfiltered
    listing, for a limit from 1 to the largest INTEGER, describes it, with
    its identity, the uploaded name, the serialized data that was answered
    and the length of the uploaded bytes as [file_size]. *)
Theorem upload_then_listed
    (file : UploadFile.t) (w w' : world) response limit type :
  upload_invoice env file w = (Ok response, w') ->
  Forall (fun r => (created_at r < now w)%Z) (invoice_logs w) ->
  (1 <= limit <= 2147483647)%Z ->
  exists name rest,
    UploadFile.filename file = Some name
    /\ read_logs env 0 limit None type w'
       = (Ok ({| row_id := log_id response;
                 row_filename := name;
                 row_created_at := now w;
                 row_extracted_schema_content := model_dump (data response);
                 file_size := length (UploadFile.content file) |} :: rest),
          w').
Proof.
  intros Hup Hnew Hlimit.
  destruct (upload_cases env file w)
    as [(e & w1 & Hrun & _)
       |(name & data & w2 & Hname & [Hrows Hnext] & Hnow & Hrow & Hr)];
    [by rewrite Hup in Hrun|].
  rewrite Hup in Hrow, Hr. cbn [fst snd] in Hrow, Hr. injection Hr as ->.
  destruct (create_invoice_log_run env name (UploadFile.content file) data w2)
    as [[Hrun _]|(e & Hrun & _)]; rewrite Hrun in Hrow; [|done].
  apply (f_equal snd) in Hrow. cbn [snd] in Hrow.
  exists name. eexists. split; [done|].
  unfold read_logs, get_invoice_logs_metadata, refused.
  cbn [search_filter apply_filter clause_refused orb].
  rewrite !(window_accepted env) by lia. cbn [orb].
  rewrite <- Hrow. cbn [invoice_logs]. rewrite Hrows, Hnext, Hnow.
  rewrite order_by_newest by done.
  change (Z.to_nat 0) with 0. rewrite drop_0.
  replace (Z.to_nat limit) with (S (Z.to_nat (limit - 1))) by lia.
  cbn [take map metadata_of]. reflexivity.
Qed.

End HandlerClaims.

(** ** The properties at work *)

Lemma empty_world_ok : db_ok Sample.empty_world.
Proof. split; [apply empty_world_wf | constructor]. Qed.

Lemma pdf_upload_accepted :
  upload_invoice Examples.env Sample.pdf_upload Sample.empty_world
  = (Ok Sample.accepted_response, Sample.one_row_world).
Proof.
  vm_cast_no_check
    (eq_refl (Ok Sample.accepted_response, Sample.one_row_world)).
Qed.

Lemma listing_page_sound_witness :
  fst (get_invoice_logs_metadata Examples.env 0 1 None (py "filename")
         Examples.two_rows)
  = Ok [metadata_of Examples.newer_row]
  /\ (Z.of_nat (length [metadata_of Examples.newer_row]) <= 1)%Z
  /\ snd (get_invoice_logs_metadata Examples.env 0 1 None (py "filename")
            Examples.two_rows)
     = Examples.two_rows.
Proof.
  assert (fst (get_invoice_logs_metadata Examples.env 0 1 None
                 (py "filename") Examples.two_rows)
          = Ok [metadata_of Examples.newer_row]) as Hrun
    by (vm_compute; reflexivity).
  destruct (listing_page_sound Examples.env 0 1 None (py "filename")
              Examples.two_rows _ Hrun) as (Hlen & _ & Hsame).
  split; [exact Hrun|]. split; [exact Hlen | exact Hsame].
Defined.

Lemma listing_newest_first_witness :
  fst (get_invoice_logs_metadata Examples.env 0 10 None (py "filename")
         Examples.two_rows)
  = Ok [metadata_of Examples.newer_row; metadata_of Examples.older_row]
  /\ StronglySorted meta_newer_first
       [metadata_of Examples.newer_row; metadata_of Examples.older_row].
Proof.
  assert (fst (get_invoice_logs_metadata Examples.env 0 10 None
                 (py "filename") Examples.two_rows)
          = Ok [metadata_of Examples.newer_row;
                metadata_of Examples.older_row]) as Hrun
    by (vm_compute; reflexivity).
  split; [exact Hrun|].
  exact (listing_newest_first Examples.env 0 10 None (py "filename")
           Examples.two_rows _ Hrun).
Defined.

Lemma listing_without_search_witness :
  (Z.of_nat (length (invoice_logs Examples.two_rows)) <= 10 <= 2147483647)%Z
  /\ exists rows,
       get_invoice_logs_metadata Examples.env 0 10 (Some []) (py "id")
         Examples.two_rows
       = (Ok rows, Examples.two_rows)
       /\ rows ≡ₚ map metadata_of (invoice_logs Examples.two_rows).
Proof.
  assert (Z.of_nat (length (invoice_logs Examples.two_rows)) <= 10
          <= 2147483647)%Z as Hlen by (cbn; lia).
  split; [exact Hlen|].
  exact (listing_without_search Examples.env 10 (Some []) (py "id")
           Examples.two_rows (or_intror eq_refl) Hlen).
Defined.

Lemma listing_pages_join_witness :
  NoDup (map created_at (invoice_logs Examples.two_rows))
  /\ (1 + 1 <= 2147483647)%Z
  /\ fst (get_invoice_logs_metadata Examples.env 0 1 None (py "filename")
            Examples.two_rows)
     = Ok [metadata_of Examples.newer_row]
  /\ fst (get_invoice_logs_metadata Examples.env 1 1 None (py "filename")
            Examples.two_rows)
     = Ok [metadata_of Examples.older_row]
  /\ fst (get_invoice_logs_metadata Examples.env 0 2 None (py "filename")
            Examples.two_rows)
     = Ok [metadata_of Examples.newer_row; metadata_of Examples.older_row].
Proof.
  assert (NoDup (map created_at (invoice_logs Examples.two_rows))) as Hnd.
  { apply (bool_decide_unpack _). vm_compute. exact I. }
  assert (fst (get_invoice_logs_metadata Examples.env 0 1 None
                 (py "filename") Examples.two_rows)
          = Ok [metadata_of Examples.newer_row]) as Hrun1
    by (vm_compute; reflexivity).
  assert (fst (get_invoice_logs_metadata Examples.env (0 + 1) 1 None
                 (py "filename") Examples.two_rows)
          = Ok [metadata_of Examples.older_row]) as Hrun2
    by (vm_compute; reflexivity).
  assert (1 + 1 <= 2147483647)%Z as Hsum by lia.
  split; [exact Hnd|]. split; [exact Hsum|].
  split; [exact Hrun1|]. split; [exact Hrun2|].
  exact (listing_pages_join Examples.env 0 1 1 None (py "filename")
           Examples.two_rows _ _ Hnd Hsum Hrun1 Hrun2).
Defined.

Lemma create_then_lookup_witness :
  db_ok Sample.empty_world
  /\ exists row w',
       create_invoice_log Examples.env (py "scan.png") Sample.png_bytes
         Sample.minimal_data Sample.empty_world = (Ok row, w')
       /\ get_invoice_log_by_id Examples.env (id row) w'
          = (Ok (Some row), w')
       /\ file_content row = Sample.png_bytes.
Proof.
  split; [exact empty_world_ok|].
  eexists _, _. split; [reflexivity|].
  destruct (create_then_lookup Examples.env (py "scan.png") Sample.png_bytes
              Sample.minimal_data Sample.empty_world _ _ empty_world_ok
              eq_refl) as (Hfound & Hbytes & _).
  split; [exact Hfound | exact Hbytes].
Defined.

Lemma upload_identities_witness :
  db_ok Sample.empty_world
  /\ fst (upload_invoice Examples.env Sample.pdf_upload Sample.empty_world)
     = Ok Sample.accepted_response
  /\ db_ok (snd (upload_invoice Examples.env Sample.pdf_upload
                  Sample.empty_world))
  /\ log_id Sample.accepted_response = next_id Sample.empty_world.
Proof.
  assert (fst (upload_invoice Examples.env Sample.pdf_upload
                 Sample.empty_world)
          = Ok Sample.accepted_response) as Hrun
    by (vm_compute; reflexivity).
  destruct (upload_identities Examples.env Sample.pdf_upload
              Sample.empty_world empty_world_ok) as [Hok Hid].
  destruct (Hid _ Hrun) as (Hnext & _ & _).
  split; [exact empty_world_ok|]. split; [exact Hrun|].
  split; [exact Hok | exact Hnext].
Defined.

Lemma upload_then_preview_witness :
  upload_invoice Examples.env Sample.pdf_upload Sample.empty_world
  = (Ok Sample.accepted_response, Sample.one_row_world)
  /\ exists first rest,
       convert_from_bytes Examples.env (UploadFile.content Sample.pdf_upload)
       = Ok (first :: rest)
       /\ fst (process_invoice_with_vllm Examples.env first
                 (log_event (PdfRender (UploadFile.content Sample.pdf_upload))
                    Sample.empty_world))
          = Ok (data Sample.accepted_response)
       /\ preview_log_image Examples.env (log_id Sample.accepted_response)
            Sample.one_row_world
          = (match encode_preview Examples.env first with
             | Ok preview => Ok preview
             | Raise e => Raise (preview_error Examples.env e)
             end,
             log_event (PdfRender (UploadFile.content Sample.pdf_upload))
               (log_event (ImageOpen (UploadFile.content Sample.pdf_upload))
                  Sample.one_row_world)).
Proof.
  pose proof pdf_upload_accepted as Hrun.
  split; [exact Hrun|].
  exact (proj2 (upload_then_preview Examples.env Sample.pdf_upload
                  Sample.empty_world Sample.one_row_world
                  Sample.accepted_response (py "application/pdf")
                  empty_world_ok Hrun eq_refl)
           eq_refl (Exc IOError (py "cannot identify image file"))
           eq_refl eq_refl).
Defined.

Lemma upload_journal_witness :
  upload_invoice Examples.env Sample.pdf_upload Sample.empty_world
  = (Ok Sample.accepted_response, Sample.one_row_world)
  /\ exists decode base64_image text row,
       (decode = PdfRender (UploadFile.content Sample.pdf_upload)
        \/ decode = ImageOpen (UploadFile.content Sample.pdf_upload))
       /\ journal Sample.one_row_world
          = journal Sample.empty_world
            ++ [decode;
                HttpPost (completions_url Examples.env)
                  (payload Examples.env (get_system_prompt Examples.env)
                     base64_image);
                JsonLoads text;
                DbInsert row]
       /\ id row = log_id Sample.accepted_response
       /\ file_content row = UploadFile.content Sample.pdf_upload
       /\ extracted_schema_content row
          = model_dump (data Sample.accepted_response).
Proof.
  pose proof pdf_upload_accepted as Hrun.
  split; [exact Hrun|].
  exact (upload_journal Examples.env Sample.pdf_upload Sample.empty_world
           Sample.one_row_world Sample.accepted_response Hrun).
Defined.

Lemma upload_errors_witness :
  (exists e w',
     upload_invoice Examples.env Sample.text_upload Sample.empty_world
     = (Raise e, w')
     /\ exists cause,
          e = HTTPException 500
                (py "Internal Server Error: " ++ str_exn Examples.env cause))
  /\ exists e w',
       upload_invoice Examples.env Examples.unnamed_upload Sample.empty_world
       = (Raise e, w')
       /\ e = HTTPException 400 (py "No filename provided")
       /\ w' = Sample.empty_world.
Proof.
  split.
  - assert (exists e w',
              upload_invoice Examples.env Sample.text_upload
                Sample.empty_world = (Raise e, w')) as (e & w' & Hrun)
      by (eexists _, _; vm_compute; reflexivity).
    exists e, w'. split; [exact Hrun|].
    destruct (upload_errors Examples.env Sample.text_upload
                Sample.empty_world w' e Hrun)
      as [(_ & _ & [Hname|Hname])|(cause & He & _)].
    + discriminate Hname.
    + discriminate Hname.
    + exists cause. exact He.
  - assert (exists e w',
              upload_invoice Examples.env Examples.unnamed_upload
                Sample.empty_world = (Raise e, w')) as (e & w' & Hrun)
      by (eexists _, _; vm_compute; reflexivity).
    exists e, w'. split; [exact Hrun|].
    destruct (upload_errors Examples.env Examples.unnamed_upload
                Sample.empty_world w' e Hrun)
      as [(He & Hw & _)|(_ & _ & c & name & Hname)].
    + split; [exact He | exact Hw].
    + discriminate Hname.
Defined.

Lemma process_errors_witness :
  exists e w',
    process_invoice_with_vllm (Sample.env Sample.bad_answer) (Image 0)
      Sample.empty_world = (Raise e, w')
    /\ exists cause,
         e = Exc RuntimeError
               (py "Processing error: "
                ++ str_exn (Sample.env Sample.bad_answer) cause).
Proof.
  assert (exists e w',
            process_invoice_with_vllm (Sample.env Sample.bad_answer)
              (Image 0) Sample.empty_world = (Raise e, w'))
    as (e & w' & Hrun) by (eexists _, _; vm_compute; reflexivity).
  exists e, w'. split; [exact Hrun|].
  destruct (process_errors (Sample.env Sample.bad_answer) (Image 0)
              Sample.empty_world w' e Hrun)
    as [[Henc _]|[(cause & Hcls & He)|(cause & _ & He)]].
  - discriminate Henc.
  - exfalso. revert Hrun. rewrite He. vm_compute. discriminate.
  - exists cause. exact He.
Defined.

Lemma schema_violation_reported_witness :
  exists errors,
    model_validate (JDict Sample.no_summary) = Invalid errors
    /\ fst (process_invoice_with_vllm
              (Examples.with_parser (fun _ => Ok (JDict Sample.no_summary)))
              (Image 0) Sample.empty_world)
       = Raise (Exc RuntimeError
                  (py "Processing error: validation error for InvoiceData")).
Proof.
  assert (exists errors,
            model_validate (JDict Sample.no_summary) = Invalid errors)
    as (errors & Hinvalid) by (eexists; vm_compute; reflexivity).
  exists errors. split; [exact Hinvalid|].
  assert (exists text, sanitize Sample.good_answer = Ok text)
    as (text & Htext) by (eexists; vm_compute; reflexivity).
  exact (proj1 (schema_violation_reported
                  (Examples.with_parser
                     (fun _ => Ok (JDict Sample.no_summary)))
                  (Image 0) Sample.empty_world _ _ text
                  (JDict Sample.no_summary) errors eq_refl eq_refl Htext
                  eq_refl Hinvalid)).
Defined.

Lemma extra_keys_ignored_witness :
  (py "notes" ∉ InvoiceData_fields)
  /\ model_validate (JDict (<[py "notes" := JNull]> minimal_invoice))
     = model_validate (JDict minimal_invoice)
  /\ has_key (model_dump Sample.minimal_data) (py "notes") = false.
Proof.
  assert (py "notes" ∉ InvoiceData_fields) as Hkey.
  { apply (bool_decide_unpack _). vm_compute. exact I. }
  destruct (proj1 (extra_keys_ignored [] minimal_invoice (py "notes") JNull)
              Hkey) as [Hsame Hdump].
  split; [exact Hkey|]. split; [exact Hsame | exact (Hdump _)].
Defined.

Lemma validation_error_locations_witness :
  {| err_loc := [LKey (py "summary")]; err_type := missing |}
  ∈ errors_of (model_validate (JDict Sample.no_summary))
  /\ {| err_loc := [LKey (py "invoice_number")]; err_type := string_type |}
     ∈ errors_of (model_validate (JDict Examples.numeric_invoice_number))
  /\ {| err_loc := [LKey (py "vendor_info"); LKey (py "phone")];
        err_type := string_type |}
     ∈ errors_of (model_validate (JDict Examples.numeric_phone))
  /\ {| err_loc := [LKey (py "line_items"); LIdx 0; LKey (py "description")];
        err_type := missing |}
     ∈ errors_of (model_validate (JDict Sample.no_description)).
Proof.
  assert (py "summary" ∈ InvoiceData_required) as H1.
  { apply (bool_decide_unpack _). vm_compute. exact I. }
  assert (py "invoice_number" ∈ InvoiceData_optional) as H2.
  { apply (bool_decide_unpack _). vm_compute. exact I. }
  assert (py "phone" ∈ VendorInfo_fields) as H3.
  { apply (bool_decide_unpack _). vm_compute. exact I. }
  split; [|split; [|split]].
  - apply (proj1 (validation_error_locations Sample.no_summary) _ H1).
    vm_compute. reflexivity.
  - apply (proj1 (proj2 (validation_error_locations
                           Examples.numeric_invoice_number))
             _ (JInt 7) H2); vm_compute; reflexivity.
  - apply (proj1 (proj2 (proj2 (validation_error_locations
                                  Examples.numeric_phone)))
             (dict_of [(py "phone", JInt 7)]) _ (JInt 7));
      [vm_compute; reflexivity | exact H3 | vm_compute; reflexivity
       | reflexivity].
  - apply (proj2 (proj2 (proj2 (validation_error_locations
                                  Sample.no_description)))
             [JDict (dict_of [(py "quantity", JStr (py "2"))])] 0
             (dict_of [(py "quantity", JStr (py "2"))]));
      vm_compute; reflexivity.
Defined.

Lemma tagged_fence_unwrapped_witness :
  find FENCE (py "Here you go: ") = None
  /\ (BACKTICK ∉ [10%N] ++ Sample.minimal_text ++ [10%N])
  /\ sanitize Sample.good_answer = Ok Sample.minimal_text.
Proof.
  assert (find FENCE (py "Here you go: ") = None) as H1
    by (vm_compute; reflexivity).
  assert (BACKTICK ∉ [10%N] ++ Sample.minimal_text ++ [10%N]) as H2.
  { apply (bool_decide_unpack _). vm_compute. exact I. }
  assert (head (py " Anything else?") <> Some BACKTICK) as H3 by discriminate.
  split; [exact H1|]. split; [exact H2|].
  pose proof (tagged_fence_unwrapped (py "Here you go: ")
                ([10%N] ++ Sample.minimal_text ++ [10%N])
                (py " Anything else?") H1 H2 H3) as Hrun.
  assert (Sample.good_answer
          = py "Here you go: " ++ TAG
            ++ ([10%N] ++ Sample.minimal_text ++ [10%N]) ++ FENCE
            ++ py " Anything else?") as -> by (vm_compute; reflexivity).
  rewrite Hrun. vm_compute. reflexivity.
Defined.

Lemma plain_fences_removed_witness :
  Forall (fun part => BACKTICK ∉ part) [py "Sure: "; py " {} "; py " Bye"]
  /\ contains TAG (join FENCE [py "Sure: "; py " {} "; py " Bye"]) = false
  /\ sanitize (py "Sure: ``` {} ``` Bye") = Ok (py "Sure:  {}  Bye").
Proof.
  assert (Forall (fun part => BACKTICK ∉ part)
            [py "Sure: "; py " {} "; py " Bye"]) as H1.
  { apply (bool_decide_unpack _). vm_compute. exact I. }
  assert (contains TAG (join FENCE [py "Sure: "; py " {} "; py " Bye"])
          = false) as H2 by (vm_compute; reflexivity).
  split; [exact H1|]. split; [exact H2|].
  pose proof (plain_fences_removed (py "Sure: ") (py " {} ") [py " Bye"]
                H1 H2) as Hrun.
  assert (py "Sure: ``` {} ``` Bye"
          = join FENCE [py "Sure: "; py " {} "; py " Bye"]) as ->
    by (vm_compute; reflexivity).
  rewrite Hrun. vm_compute. reflexivity.
Defined.

Lemma output_paths_distinct_witness :
  id Examples.older_row <> id Examples.newer_row
  /\ filename Examples.older_row = filename Examples.newer_row
  /\ output_path Examples.older_row <> output_path Examples.newer_row
  /\ output_path Examples.older_row = py "extracted_files/1_scan.pdf".
Proof.
  assert (id Examples.older_row <> id Examples.newer_row) as Hne
    by discriminate.
  destruct (output_paths_distinct Examples.older_row Examples.newer_row Hne)
    as [Hpaths Hpath].
  split; [exact Hne|]. split; [reflexivity|]. split; [exact Hpaths|].
  rewrite Hpath. vm_compute. reflexivity.
Defined.

Lemma extract_unknown_id_witness :
  Forall (fun r => id r <> 7%Z) [Examples.older_row; Examples.newer_row]
  /\ Forall (fun r => id r <> 2147483648%Z)
       [Examples.older_row; Examples.newer_row]
  /\ (exists lines,
        extract_single_file Examples.os Examples.env 7
          (Examples.started [Examples.older_row; Examples.newer_row])
        = (Ok tt,
           {| table := [Examples.older_row; Examples.newer_row];
              files := []; stdout := lines |}))
  /\ fst (extract_single_file Examples.os Examples.env 2147483648
            (Examples.started [Examples.older_row; Examples.newer_row]))
     = Raise (DBAPIError Examples.env (SelectLog 2147483648)).
Proof.
  assert (Forall (fun r => id r <> 7%Z)
            [Examples.older_row; Examples.newer_row]) as Hnone
    by (repeat constructor; discriminate).
  assert (Forall (fun r => id r <> 2147483648%Z)
            [Examples.older_row; Examples.newer_row]) as Hbig
    by (repeat constructor; discriminate).
  split; [exact Hnone|]. split; [exact Hbig|]. split.
  - eexists.
    exact (proj1 (extract_unknown_id Examples.os Examples.env 7
                    (Examples.started
                       [Examples.older_row; Examples.newer_row])
                    _ Hnone eq_refl)).
  - exact (f_equal fst
             (proj1 (extract_unknown_id Examples.os Examples.env 2147483648
                       (Examples.started
                          [Examples.older_row; Examples.newer_row])
                       _ Hbig eq_refl))).
Defined.

Lemma extract_writes_stored_bytes_witness :
  NoDup (map id [Examples.older_row; Examples.newer_row])
  /\ Examples.newer_row ∈ [Examples.older_row; Examples.newer_row]
  /\ files (snd (extract_single_file Examples.os Examples.env 2
                   (Examples.started
                      [Examples.older_row; Examples.newer_row])))
     = [(py "extracted_files/2_scan.pdf", Sample.png_bytes)].
Proof.
  assert (NoDup (map id [Examples.older_row; Examples.newer_row])) as Hnd.
  { apply (bool_decide_unpack _). vm_compute. exact I. }
  assert (Examples.newer_row ∈ [Examples.older_row; Examples.newer_row])
    as Hin by (right; left).
  split; [exact Hnd|]. split; [exact Hin|].
  destruct (extract_writes_stored_bytes Examples.os Examples.env
              Examples.newer_row
              (Examples.started [Examples.older_row; Examples.newer_row])
              _ Hnd Hin eq_refl) as (_ & Hfiles & _).
  etransitivity; [exact Hfiles|]. vm_compute. reflexivity.
Defined.

Lemma upload_then_extract_witness :
  upload_invoice Examples.env Sample.pdf_upload Sample.empty_world
  = (Ok Sample.accepted_response, Sample.one_row_world)
  /\ files (snd (extract_single_file Examples.os Examples.env 1
                   (Examples.started (invoice_logs Sample.one_row_world))))
     = [(py "extracted_files/1_invoice.pdf", Sample.pdf_bytes)].
Proof.
  pose proof pdf_upload_accepted as Hrun.
  split; [exact Hrun|].
  destruct (upload_then_extract Examples.os Examples.env Sample.pdf_upload
              Sample.empty_world Sample.one_row_world
              Sample.accepted_response
              (Examples.started (invoice_logs Sample.one_row_world)) _
              empty_world_ok Hrun eq_refl eq_refl)
    as (name & Hname & _ & Hfiles).
  injection Hname as <-.
  etransitivity; [exact Hfiles|]. vm_compute. reflexivity.
Defined.


Lemma two_rows_upload :
  upload_invoice Examples.env Sample.png_upload Examples.two_rows
  = (Ok Examples.third_response,
     snd (upload_invoice Examples.env Sample.png_upload Examples.two_rows)).
Proof.
  assert (fst (upload_invoice Examples.env Sample.png_upload
                 Examples.two_rows)
          = Ok Examples.third_response) as Hrun
    by (vm_cast_no_check (eq_refl (Ok Examples.third_response))).
  destruct (upload_invoice Examples.env Sample.png_upload Examples.two_rows)
    as [response w'].
  cbn [fst snd] in *. by rewrite Hrun.
Qed.

Lemma upload_then_listed_witness :
  Forall (fun r => (created_at r < now Examples.two_rows)%Z)
    (invoice_logs Examples.two_rows)
  /\ (1 <= 1 <= 2147483647)%Z
  /\ exists rest,
       read_logs Examples.env 0 1 None (py "filename")
         (snd (upload_invoice Examples.env Sample.png_upload
                 Examples.two_rows))
       = (Ok ({| row_id := 3;
                 row_filename := py "scan.png";
                 row_created_at := now Examples.two_rows;
                 row_extracted_schema_content :=
                   model_dump Sample.minimal_data;
                 file_size := 4 |} :: rest),
          snd (upload_invoice Examples.env Sample.png_upload
                 Examples.two_rows)).
Proof.
  assert (Forall (fun r => (created_at r < now Examples.two_rows)%Z)
            (invoice_logs Examples.two_rows)) as Hnew
    by (repeat constructor).
  assert (1 <= 1 <= 2147483647)%Z as Hlimit by lia.
  split; [exact Hnew|]. split; [exact Hlimit|].
  destruct (upload_then_listed Examples.env Sample.png_upload
              Examples.two_rows _ Examples.third_response 1 (py "filename")
              two_rows_upload Hnew Hlimit)
    as (name & rest & Hname & Hlist).
  injection Hname as <-.
  exists rest. exact Hlist.
Defined.
